(** * astro-image-service-ng: the option-handling core of [service/index.ts]

    A shallow embedding of the pure part of the image service
    (validateOptions, getURL, parseURL, getHTMLAttributes, getSrcSet and
    getTargetDimensions) together with the fragment of the JavaScript
    runtime these functions rely on: IEEE-754 binary64 numbers,
    [Math.round], [Math.min], [Number::toString], [parseInt], [parseFloat],
    the default [Array.prototype.sort] and [URLSearchParams].

    Strings are byte strings holding well-formed UTF-8 text; mutation of
    the options record is explicit record passing; a call that may throw
    returns a [result]. *)

From Stdlib Require Import ZArith Lia Bool List Ascii String SpecFloat.
From Stdlib Require Import DecimalString DecimalN.
From stdpp Require Import base option list strings gmap sorting.

Local Open Scope Z_scope.

(** ** JavaScript numbers

    A JavaScript number is an IEEE-754 binary64 value.  We use the
    specification floats of the standard library at precision 53 and
    maximal exponent 1024, so products and quotients are rounded exactly
    as the engine rounds them. *)
Module Number.

Definition number := spec_float.

Definition prec : Z := 53.
Definition emax : Z := 1024.

Definition NaN : number := S754_nan.
Definition Infinity : number := S754_infinity false.

Definition mul : number -> number -> number := SFmul prec emax.
Definition div : number -> number -> number := SFdiv prec emax.

(** The number nearest to an integer, ties to even.  Below 2^53 every
    integer is a number: its mantissa is the integer shifted up to 53
    bits, which is what the rounding of the library gives too (lemma
    [of_Z_nearest]). *)
Definition of_Z (z : Z) : number :=
  if z =? 0 then S754_zero false
  else if Z.abs z <? 2 ^ 53 then
    let k := 52 - Z.log2 (Z.abs z) in
    match Z.shiftl (Z.abs z) k with
    | Zpos m => S754_finite (z <? 0) m (- k)
    | _ => S754_zero false
    end
  else binary_normalize prec emax z 0 false.

(** The integer a number denotes, when it is finite and has no fractional
    part. *)
Definition to_Z (x : number) : option Z :=
  match x with
  | S754_zero _ => Some 0
  | S754_finite s m e =>
      if 0 <=? e then Some (cond_Zopp s (Z.shiftl (Zpos m) e))
      else if Z.land (Zpos m) (Z.ones (- e)) =? 0
           then Some (cond_Zopp s (Z.shiftr (Zpos m) (- e)))
           else None
  | _ => None
  end.

Definition is_integer (x : number) : bool :=
  match to_Z x with Some _ => true | None => false end.

Definition is_nan (x : number) : bool :=
  match x with S754_nan => true | _ => false end.

Definition is_infinite (x : number) : bool :=
  match x with S754_infinity _ => true | _ => false end.

(** ToBoolean on numbers: [+0], [-0] and [NaN] are falsy. *)
Definition truthy (x : number) : bool :=
  match x with
  | S754_zero _ | S754_nan => false
  | _ => true
  end.

(** Strict equality [===] on numbers: [NaN] differs from itself and the
    two zeros are equal. *)
Definition strict_eq (x y : number) : bool := SFeqb x y.

(** [Math.round]: the nearest integer, ties towards +Infinity; a result
    of zero keeps the sign of the argument. *)
Definition Math_round (x : number) : number :=
  match x with
  | S754_finite s m e =>
      if 0 <=? e then x
      else
        let v := cond_Zopp s (Zpos m) in
        let n := Z.shiftr (2 * v + 2 ^ (- e)) (1 - e) in
        if n =? 0 then S754_zero s else of_Z n
  | _ => x
  end.

Definition is_neg_zero (x : number) : bool :=
  match x with S754_zero true => true | _ => false end.

(** [Math.min] of two arguments: [NaN] is contagious and [-0] is below
    [+0]. *)
Definition Math_min (x y : number) : number :=
  match SFcompare x y with
  | None => NaN
  | Some Lt => x
  | Some Gt => y
  | Some Eq => if is_neg_zero x then x else y
  end.

(** *** Number::toString

    Strings are byte strings; every string the service builds from a
    number is ASCII. *)

Definition digits_of_Z (z : Z) : string :=
  NilEmpty.string_of_uint (N.to_uint (Z.to_N z)).

(** Decimal form of an integer, as printed for numbers below 2^53. *)
Definition decimal (z : Z) : string :=
  if z <? 0 then String "-" (digits_of_Z (- z)) else digits_of_Z z.

(** [in_round m e s t]: the decimal [s * 10^t] lies in the interval of
    reals that round to the number [m * 2^e]; the ends of the interval
    belong to it when the mantissa is even. *)
Definition in_round (m e s t : Z) : bool :=
  let lo := 4 * m - (if (m =? 2 ^ 52) && (-1074 <? e) then 1 else 2) in
  let hi := 4 * m + 2 in
  let a := s * 10 ^ Z.max t 0 * 2 ^ Z.max (2 - e) 0 in
  let scale := 2 ^ Z.max (e - 2) 0 * 10 ^ Z.max (- t) 0 in
  if Z.even m then (lo * scale <=? a) && (a <=? hi * scale)
  else (lo * scale <? a) && (a <? hi * scale).

(** Distance of [s * 10^t] to [m * 2^e], on the scale of [in_round]. *)
Definition dist (m e s t : Z) : Z :=
  Z.abs (s * 10 ^ Z.max t 0 * 2 ^ Z.max (2 - e) 0
         - 4 * m * (2 ^ Z.max (e - 2) 0 * 10 ^ Z.max (- t) 0)).

(** The shortest decimal [(s, t)] that rounds to [m * 2^e]: the greatest
    power of ten [t] for which some multiple does, and the multiple
    nearest to the number. *)
Fixpoint shortest (fuel : nat) (m e t : Z) : Z * Z :=
  match fuel with
  | O => (m, e)
  | S fuel' =>
      let p := m * 2 ^ Z.max e 0 * 10 ^ Z.max (- t) 0 in
      let q := 2 ^ Z.max (- e) 0 * 10 ^ Z.max t 0 in
      let s0 := p / q in
      let s1 := s0 + 1 in
      let ok0 := (0 <? s0) && in_round m e s0 t in
      let ok1 := in_round m e s1 t in
      if ok0 && ok1 then
        (if dist m e s0 t <=? dist m e s1 t then (s0, t) else (s1, t))
      else if ok0 then (s0, t)
      else if ok1 then (s1, t)
      else shortest fuel' m e (t - 1)
  end.

Fixpoint zeros (n : nat) : string :=
  match n with O => EmptyString | S n' => String "0" (zeros n') end.

Definition substring_from (n : nat) (s : string) : string :=
  String.substring n (String.length s - n) s.

(** Layout of the digits [ds] with the decimal point after [n] digits. *)
Definition layout (ds : string) (n : Z) : string :=
  let k := Z.of_nat (String.length ds) in
  if (k <=? n) && (n <=? 21) then ds +:+ zeros (Z.to_nat (n - k))
  else if (0 <? n) && (n <=? 21) then
    String.substring 0 (Z.to_nat n) ds +:+ "." +:+ substring_from (Z.to_nat n) ds
  else if (-6 <? n) && (n <=? 0) then
    "0." +:+ zeros (Z.to_nat (- n)) +:+ ds
  else
    let ex := (if n - 1 <? 0 then "-" else "+") +:+ digits_of_Z (Z.abs (n - 1)) in
    if k =? 1 then ds +:+ "e" +:+ ex
    else String.substring 0 1 ds +:+ "." +:+ substring_from 1 ds +:+ "e" +:+ ex.

Definition toString_finite (m e : Z) : string :=
  let t0 := (Z.log2 m + e + 1) * 30103 / 100000 + 2 in
  let '(s, t) := shortest 60 m e t0 in
  let ds := digits_of_Z s in
  layout ds (t + Z.of_nat (String.length ds)).

Definition toString (x : number) : string :=
  match x with
  | S754_nan => "NaN"
  | S754_infinity false => "Infinity"
  | S754_infinity true => "-Infinity"
  | S754_zero _ => "0"
  | S754_finite s m e =>
      match to_Z x with
      | Some z => if Z.abs z <? 2 ^ 53 then decimal z
                  else (if s then "-" else "") +:+ toString_finite (Zpos m) e
      | None => (if s then "-" else "") +:+ toString_finite (Zpos m) e
      end
  end.

(** *** parseInt and parseFloat *)

Definition code (c : ascii) : Z := Z.of_nat (nat_of_ascii c).

Definition is_digit (c : ascii) : bool := (48 <=? code c) && (code c <=? 57).

Definition digit_value (c : ascii) : Z := code c - 48.

(** White space and line terminators of one byte. *)
Definition is_space1 (c : ascii) : bool :=
  ((9 <=? code c) && (code c <=? 13)) || (code c =? 32).

(** U+00A0, in UTF-8. *)
Definition is_space2 (c1 c2 : ascii) : bool :=
  (code c1 =? 194) && (code c2 =? 160).

(** U+1680, U+2000 to U+200A, U+2028, U+2029, U+202F, U+205F, U+3000 and
    U+FEFF, in UTF-8. *)
Definition is_space3 (c1 c2 c3 : ascii) : bool :=
  let '(a, b, c) := (code c1, code c2, code c3) in
  ((a =? 225) && (b =? 154) && (c =? 128))
  || ((a =? 226) && (b =? 128)
      && (((128 <=? c) && (c <=? 138)) || (c =? 168) || (c =? 169) || (c =? 175)))
  || ((a =? 226) && (b =? 129) && (c =? 159))
  || ((a =? 227) && (b =? 128) && (c =? 128))
  || ((a =? 239) && (b =? 187) && (c =? 191)).

(** Removal of leading white space (the first step of both parsers). *)
Fixpoint trim_start (s : string) : string :=
  match s with
  | EmptyString => s
  | String c1 s1 =>
      if is_space1 c1 then trim_start s1
      else match s1 with
           | EmptyString => s
           | String c2 s2 =>
               if is_space2 c1 c2 then trim_start s2
               else match s2 with
                    | EmptyString => s
                    | String c3 s3 =>
                        if is_space3 c1 c2 c3 then trim_start s3 else s
                    end
           end
  end.

Definition read_sign (s : string) : bool * string :=
  match s with
  | String "-" s' => (true, s')
  | String "+" s' => (false, s')
  | _ => (false, s)
  end.

(** The longest prefix of decimal digits: its value (added to [10^n * acc]),
    the number of digits read and the rest of the string. *)
Fixpoint read_digits (s : string) (acc : Z) (n : nat) : Z * nat * string :=
  match s with
  | String c s' =>
      if is_digit c then read_digits s' (10 * acc + digit_value c) (S n)
      else (acc, n, s)
  | EmptyString => (acc, n, s)
  end.

(** [Number.parseInt(s, 10)]. *)
Definition parseInt (s : string) : number :=
  let '(neg, s1) := read_sign (trim_start s) in
  let '(v, n, _) := read_digits s1 0 0 in
  match n with
  | O => NaN
  | _ => if v =? 0 then S754_zero neg else of_Z (cond_Zopp neg v)
  end.

(** The number nearest to [m * 10^e], for [0 < m]. *)
Definition of_decimal (neg : bool) (m e : Z) : number :=
  match m with
  | Zpos p =>
      if 0 <=? e then binary_normalize prec emax (cond_Zopp neg (m * 10 ^ e)) 0 false
      else match 10 ^ (- e) with
           | Zpos q => SFdiv prec emax (S754_finite neg p 0) (S754_finite false q 0)
           | _ => NaN
           end
  | _ => S754_zero neg
  end.

(** The exponent part [e], [e+] or [e-] followed by digits; it counts only
    when it has a digit. *)
Definition read_exponent (s : string) : Z :=
  match s with
  | String c s' =>
      if (code c =? 101) || (code c =? 69) then
        let '(neg, s1) := read_sign s' in
        let '(v, n, _) := read_digits s1 0 0 in
        match n with O => 0 | _ => cond_Zopp neg v end
      else 0
  | EmptyString => 0
  end.

(** [Number.parseFloat(s)]: the longest prefix that is a decimal literal. *)
Definition parseFloat (s : string) : number :=
  let '(neg, s1) := read_sign (trim_start s) in
  if String.prefix "Infinity" s1 then S754_infinity neg
  else
    let '(i, ni, s2) := read_digits s1 0 0 in
    let '(m, nf, s3) :=
      match s2 with
      | String "." s2' =>
          let '(m, n, s3) := read_digits s2' i ni in
          (m, (n - ni)%nat, match ni, (n - ni)%nat with O, O => s2 | _, _ => s3 end)
      | _ => (i, O, s2)
      end in
    match ni, nf with
    | O, O => NaN
    | _, _ => of_decimal neg m (read_exponent s3 - Z.of_nat nf)
    end.

End Number.

Import Number.

(** ** Values, options and configuration *)

(** The values an HTML attribute of the options record can hold. *)
Inductive value :=
| VUndefined
| VNull
| VBool (b : bool)
| VNumber (n : number)
| VString (s : string).

(** Astro's [ImageMetadata]: an imported image with its intrinsic size. *)
Record ImageMetadata := {
  im_src : string;
  im_width : number;
  im_height : number;
  im_format : string
}.

(** What [options.src] can be at run time.  [SrcMetadata] is an object
    with a string [src] and [width], [height] and [format] properties;
    [SrcObject] is an object with none of these four properties. *)
Inductive source :=
| SrcUndefined
| SrcNull
| SrcBool (b : bool)
| SrcNumber (n : number)
| SrcString (s : string)
| SrcMetadata (m : ImageMetadata)
| SrcObject.

(** [quality] is a number or a string such as ['low']. *)
Inductive quality_value :=
| QNumber (n : number)
| QString (s : string).

(** A density is a number or a descriptor such as ['2x']. *)
Inductive density_value :=
| DNumber (n : number)
| DString (s : string).

(** The transform options (Astro's image transform, re-exported by
    [./config]).  [None] is JavaScript's [undefined]; [attributes] holds
    every property besides the ten named ones. *)
Record Transform := {
  src : source;
  width : option number;
  height : option number;
  format : option string;
  formats : option (list string);
  quality : option quality_value;
  densities : option (list density_value);
  widths : option (list number);
  loading : option value;
  decoding : option value;
  attributes : gmap string value
}.

(** [config.service.config]: the private configuration the integration
    passes to the service.  Its type is declared in [./config], which is
    not among the sources: the four fields are those [validateOptions]
    reads, and a directory is any string (or the string form of a URL). *)
Record PrivateConfig := {
  publicDir : option string;
  assets : option string;
  outDir : option string;
  defaultFormat : option string
}.

(** ** Errors *)

Inductive error :=
| AstroError (message : string)
| AssertionError
| ForeignError (message : string).

(** The outcome of a call that may throw. *)
Inductive result (A : Type) :=
| Return (a : A)
| Throw (e : error).

Arguments Return {A} a.
Arguments Throw {A} e.

#[global] Instance result_ret : MRet result := fun A a => Return a.

#[global] Instance result_bind : MBind result := fun A B k r =>
  match r with
  | Return a => k a
  | Throw e => Throw e
  end.

#[global] Instance result_fmap : FMap result := fun A B f r =>
  match r with
  | Return a => Return (f a)
  | Throw e => Throw e
  end.

Definition is_astro_error (e : error) : bool :=
  match e with AstroError _ => true | _ => false end.

(** *** Truthiness *)

Definition truthy_string (s : string) : bool :=
  match s with EmptyString => false | _ => true end.

Definition truthy_opt_string (s : option string) : bool :=
  match s with Some s => truthy_string s | None => false end.

Definition truthy_opt_number (n : option number) : bool :=
  match n with Some n => truthy n | None => false end.

Definition truthy_source (s : source) : bool :=
  match s with
  | SrcUndefined | SrcNull => false
  | SrcBool b => b
  | SrcNumber n => truthy n
  | SrcString s => truthy_string s
  | SrcMetadata _ | SrcObject => true
  end.

Definition truthy_quality (q : option quality_value) : bool :=
  match q with
  | Some (QNumber n) => truthy n
  | Some (QString s) => truthy_string s
  | None => false
  end.

(** Arrays are objects: an array is truthy even when empty. *)
Definition truthy_array {A} (l : option (list A)) : bool :=
  match l with Some _ => true | None => false end.

Definition typeof (s : source) : string :=
  match s with
  | SrcUndefined => "undefined"
  | SrcBool _ => "boolean"
  | SrcNumber _ => "number"
  | SrcString _ => "string"
  | SrcNull | SrcMetadata _ | SrcObject => "object"
  end.

(** The type guard [isImageMetadata] (lines 10 to 12).  [typeof null] is
    ['object'], so [null] passes the first test and reading [src.src]
    throws a [TypeError]. *)
Definition isImageMetadata (s : source) : result bool :=
  match s with
  | SrcNull => Throw (ForeignError "TypeError")
  | SrcMetadata _ => Return true
  | _ => Return false
  end.

(** *** Record updates *)

Definition set_width (w : option number) (o : Transform) : Transform :=
  {| src := src o; width := w; height := height o; format := format o;
     formats := formats o; quality := quality o; densities := densities o;
     widths := widths o; loading := loading o; decoding := decoding o;
     attributes := attributes o |}.

Definition set_height (h : option number) (o : Transform) : Transform :=
  {| src := src o; width := width o; height := h; format := format o;
     formats := formats o; quality := quality o; densities := densities o;
     widths := widths o; loading := loading o; decoding := decoding o;
     attributes := attributes o |}.

Definition set_format (f : option string) (o : Transform) : Transform :=
  {| src := src o; width := width o; height := height o; format := f;
     formats := formats o; quality := quality o; densities := densities o;
     widths := widths o; loading := loading o; decoding := decoding o;
     attributes := attributes o |}.

(** ** validateOptions *)

Definition dquote : string := String (ascii_of_nat 34) EmptyString.

Definition is_word_char (c : ascii) : bool :=
  is_digit c
  || ((65 <=? code c) && (code c <=? 90))
  || ((97 <=? code c) && (code c <=? 122))
  || (code c =? 95).

Fixpoint skip_word (s : string) : string :=
  match s with
  | String c s' => if is_word_char c then skip_word s' else s
  | EmptyString => s
  end.

(** [/^(?:\w+:)?\/\//]: an absolute, maybe protocol-relative, URL. *)
Definition isAbsoluteURL (s : string) : bool :=
  String.prefix "//" s
  || (match s with
      | String c _ => is_word_char c && String.prefix "://" (skip_word s)
      | EmptyString => false
      end).

(** [/^\/(?![@/])/]: every [/...] except [/@...] and [//...]. *)
Definition isPublicAsset (s : string) : bool :=
  match s with
  | String "/" EmptyString => true
  | String "/" (String c _) => negb ((code c =? 64) || (code c =? 47))
  | _ => false
  end.

(** A value interpolated into a template literal. *)
Definition interpolate (s : option string) : string :=
  match s with Some s => s | None => "undefined" end.

Definition isBundledAsset (assets : option string) (s : string) : bool :=
  String.prefix ("/" +:+ interpolate assets +:+ "/") s.

Section Validate.

(** The platform's [URL] constructor and the [imageInformation] probe of
    the sibling package are taken as given: each returns or throws. *)
Variable URL : Type.
Variable new_URL : string -> option string -> result URL.
Variable imageInformation : URL -> result (option (number * number)).

(** The URL of the image whose dimensions are looked up (lines 48 to
    61). *)
Definition probe_URL (s : string) (config : PrivateConfig) : result URL :=
  if isAbsoluteURL s then
    if String.prefix "//" s then new_URL ("https://" +:+ s) None
    else new_URL s None
  else if isBundledAsset (assets config) s then new_URL s (outDir config)
  else if isPublicAsset s then new_URL s (publicDir config)
  else Throw AssertionError.

(** The branch for a [src] that is a string (lines 37 to 72). *)
Definition validate_string (s : string) (options : Transform)
    (config : PrivateConfig) : result Transform :=
  let isAbsoluteURL := isAbsoluteURL s in
  let isPublicAsset := isPublicAsset s in
  let isBundledAsset := isBundledAsset (assets config) s in
  if negb isAbsoluteURL && negb isBundledAsset && negb isPublicAsset then
    Throw (AstroError ("Local image not correctly imported: " +:+ dquote +:+ s +:+ dquote))
  else if negb (truthy_opt_number (width options))
          || negb (truthy_opt_number (height options)) then
    url ← probe_URL s config;
    info ← imageInformation url;
    match info with
    | Some (w, h) => Return (set_height (Some h) (set_width (Some w) options))
    | None =>
        Throw (AstroError ("`width` and `height` must be specified for "
                           +:+ dquote +:+ s +:+ dquote))
    end
  else Return options.

(** The branch for an [ImageMetadata] [src] (lines 73 to 82). *)
Definition validate_metadata (m : ImageMetadata) (options : Transform)
    : result Transform :=
  if String.eqb (im_format m) "svg" && bool_decide (format options = None) then
    Return (set_format (Some "svg") options)
  else if negb (String.eqb (im_format m) "svg")
          && bool_decide (format options = Some "svg") then
    Throw (AstroError ("Cannot transform from " +:+ dquote +:+ im_format m
                       +:+ dquote +:+ " to " +:+ dquote +:+ "svg" +:+ dquote))
  else Return options.

End Validate.

Section ValidateOptions.

Variable URL : Type.
Variable new_URL : string -> option string -> result URL.
Variable imageInformation : URL -> result (option (number * number)).

Definition validateOptions (options : Transform) (config : PrivateConfig)
    : result Transform :=
  let default_format := default "avif" (defaultFormat config) in
  if negb (truthy_opt_string (publicDir config))
     || negb (truthy_opt_string (assets config))
     || negb (truthy_opt_string (outDir config)) then
    Throw (AstroError "This image service cannot be used directly, you must use the provided Astro integration!")
  else if negb (truthy_source (src options)) then
    Throw (AstroError "`src` is missing")
  else
    options ← match src options with
              | SrcString s =>
                  validate_string URL new_URL imageInformation s options config
              | SrcMetadata m => validate_metadata m options
              | s =>
                  Throw (AstroError
                    ("Expected `src` to be of type `string | ImageMetadata`, but got `"
                     +:+ typeof s +:+ "` instead"))
              end;
    if truthy_array (densities options) && truthy_array (widths options) then
      Throw (AstroError "`densities` and `widths` cannot be used together")
    else
      let options :=
        if truthy_opt_number (width options)
        then set_width (Math_round <$> width options) options else options in
      let options :=
        if truthy_opt_number (height options)
        then set_height (Math_round <$> height options) options else options in
      let options :=
        if negb (truthy_opt_string (format options))
        then set_format (Some default_format) options
        else if bool_decide (format options = Some "jpg")
        then set_format (Some "jpeg") options else options in
      Return options.

End ValidateOptions.

(** ** URLSearchParams

    The query is a list of name and value pairs; it is written and read in
    the [application/x-www-form-urlencoded] format. *)
Module URLSearchParams.

Definition t := list (string * string).

Definition append (name v : string) (q : t) : t := q ++ [(name, v)].

(** The value of the first pair called [name]; [None] is [null]. *)
Definition get (name : string) (q : t) : option string :=
  snd <$> List.find (fun p => String.eqb (fst p) name) q.

Definition hex_char (n : Z) : ascii :=
  ascii_of_nat (Z.to_nat (if n <? 10 then 48 + n else 55 + n)).

Definition hex_value (c : ascii) : option Z :=
  let n := code c in
  if (48 <=? n) && (n <=? 57) then Some (n - 48)
  else if (65 <=? n) && (n <=? 70) then Some (n - 55)
  else if (97 <=? n) && (n <=? 102) then Some (n - 87)
  else None.

(** Bytes written as they are: ASCII letters and digits, [*], [-], [.]
    and [_]. *)
Definition unreserved (c : ascii) : bool :=
  is_word_char c || (code c =? 42) || (code c =? 45) || (code c =? 46).

Definition encode_byte (c : ascii) : string :=
  if unreserved c then String c EmptyString
  else if code c =? 32 then "+"
  else String "%" (String (hex_char (code c / 16))
                     (String (hex_char (code c mod 16)) EmptyString)).

Fixpoint encode (s : string) : string :=
  match s with
  | EmptyString => EmptyString
  | String c s' => encode_byte c +:+ encode s'
  end.

(** The three shapes an encoded byte takes: the byte itself, [+] for a
    space, or [%] and two hexadecimal digits that give the byte back. *)
Definition encoded_shape (c : ascii) : bool :=
  match encode_byte c with
  | String x EmptyString =>
      negb (code x =? 37)
      && (if code c =? 32 then code x =? 43
          else Ascii.eqb x c && negb (code x =? 43))
  | String p (String x (String y EmptyString)) =>
      (code p =? 37) && negb (code x =? 43) && negb (code y =? 43)
      && match hex_value x, hex_value y with
         | Some a, Some b => Ascii.eqb (ascii_of_nat (Z.to_nat (16 * a + b))) c
         | _, _ => false
         end
  | _ => false
  end.

(** One pair of the serialized query. *)
Definition pair_string (name v : string) : string :=
  encode name +:+ String "=" (encode v).

(** [free_of sep s]: the byte [sep] does not occur in [s]. *)
Fixpoint free_of (sep : ascii) (s : string) : bool :=
  match s with
  | EmptyString => true
  | String c s' => negb (Ascii.eqb c sep) && free_of sep s'
  end.

(** [URLSearchParams.prototype.toString]. *)
Fixpoint serialize (q : t) : string :=
  match q with
  | [] => EmptyString
  | [(name, v)] => encode name +:+ "=" +:+ encode v
  | (name, v) :: q' => encode name +:+ "=" +:+ encode v +:+ "&" +:+ serialize q'
  end.

Fixpoint split_on (sep : ascii) (s : string) : list string :=
  match s with
  | EmptyString => [EmptyString]
  | String c s' =>
      if Ascii.eqb c sep then EmptyString :: split_on sep s'
      else match split_on sep s' with
           | h :: rest => String c h :: rest
           | [] => [String c EmptyString]
           end
  end.

(** The text before the first [sep] and the text after it. *)
Fixpoint cut (sep : ascii) (s : string) : string * string :=
  match s with
  | EmptyString => (EmptyString, EmptyString)
  | String c s' =>
      if Ascii.eqb c sep then (EmptyString, s')
      else let '(a, b) := cut sep s' in (String c a, b)
  end.

Fixpoint plus_to_space (s : string) : string :=
  match s with
  | EmptyString => EmptyString
  | String c s' => String (if code c =? 43 then " "%char else c) (plus_to_space s')
  end.

Fixpoint percent_decode (s : string) : string :=
  match s with
  | EmptyString => EmptyString
  | String c s1 =>
      if code c =? 37 then
        match s1 with
        | String a (String b s3) =>
            match hex_value a, hex_value b with
            | Some x, Some y =>
                String (ascii_of_nat (Z.to_nat (16 * x + y))) (percent_decode s3)
            | _, _ => String c (percent_decode s1)
            end
        | _ => String c (percent_decode s1)
        end
      else String c (percent_decode s1)
  end.

(** The bytes of a name or value, with [+] and the percent escapes
    replaced. *)
Definition unescape (s : string) : string := percent_decode (plus_to_space s).

(** U+FFFD, in UTF-8. *)
Definition replacement : string :=
  String (ascii_of_nat 239) (String (ascii_of_nat 191)
    (String (ascii_of_nat 189) EmptyString)).

(** A byte that starts a sequence of several bytes: how many bytes must
    follow, and the bounds of the next one. *)
Definition utf8_lead (c : ascii) : option (nat * Z * Z) :=
  let n := code c in
  if (194 <=? n) && (n <=? 223) then Some (1%nat, 128, 191)
  else if n =? 224 then Some (2%nat, 160, 191)
  else if n =? 237 then Some (2%nat, 128, 159)
  else if (225 <=? n) && (n <=? 239) then Some (2%nat, 128, 191)
  else if n =? 240 then Some (3%nat, 144, 191)
  else if n =? 244 then Some (3%nat, 128, 143)
  else if (241 <=? n) && (n <=? 243) then Some (3%nat, 128, 191)
  else None.

(** The UTF-8 decoder of the platform, from bytes to the UTF-8 form of
    the string it yields: a well-formed sequence is kept, and every
    maximal ill-formed part becomes U+FFFD.  [pending] holds the bytes of
    the sequence under way, [needed] how many must follow, and [lo] and
    [hi] bound the next one. *)
Fixpoint utf8_scan (s pending : string) (needed : nat) (lo hi : Z) : string :=
  match s with
  | EmptyString =>
      match needed with O => EmptyString | S _ => replacement end
  | String c s' =>
      let fresh :=
        if code c <? 128 then String c (utf8_scan s' EmptyString 0 128 191)
        else match utf8_lead c with
             | Some (n, lo', hi') => utf8_scan s' (String c EmptyString) n lo' hi'
             | None => replacement +:+ utf8_scan s' EmptyString 0 128 191
             end in
      match needed with
      | O => fresh
      | S n =>
          if (lo <=? code c) && (code c <=? hi) then
            match n with
            | O => pending +:+ String c (utf8_scan s' EmptyString 0 128 191)
            | S _ => utf8_scan s' (pending +:+ String c EmptyString) n 128 191
            end
          else replacement +:+ fresh
      end
  end.

Definition utf8_decode (s : string) : string := utf8_scan s EmptyString 0 128 191.

(** Percent-decoding, then UTF-8 decoding without a byte order mark. *)
Definition decode (s : string) : string := utf8_decode (unescape s).

(** The parser behind [url.searchParams]: empty sequences are skipped. *)
Definition parse (s : string) : t :=
  omap (fun piece =>
          match piece with
          | EmptyString => None
          | _ => let '(name, v) := cut "=" piece in Some (decode name, decode v)
          end)
       (split_on "&" s).

End URLSearchParams.

(** The URL parser first strips the C0 controls and spaces that lead or
    trail its input, then removes every tab and newline. *)
Definition is_control_or_space (c : ascii) : bool := code c <=? 32.

Definition is_tab_or_newline (c : ascii) : bool :=
  (code c =? 9) || (code c =? 10) || (code c =? 13).

Fixpoint strip_leading (s : string) : string :=
  match s with
  | EmptyString => EmptyString
  | String c s' => if is_control_or_space c then strip_leading s' else s
  end.

Fixpoint strip_trailing (s : string) : string :=
  match s with
  | EmptyString => EmptyString
  | String c s' =>
      match strip_trailing s' with
      | EmptyString =>
          if is_control_or_space c then EmptyString else String c EmptyString
      | rest => String c rest
      end
  end.

Fixpoint remove_tabs_newlines (s : string) : string :=
  match s with
  | EmptyString => EmptyString
  | String c s' =>
      if is_tab_or_newline c then remove_tabs_newlines s'
      else String c (remove_tabs_newlines s')
  end.

Definition url_input (u : string) : string :=
  remove_tabs_newlines (strip_trailing (strip_leading u)).

(** The query of a URL string: what follows the first [?], up to a [#]. *)
Definition query_of (u : string) : string :=
  snd (URLSearchParams.cut "?"
         (fst (URLSearchParams.cut "#" (url_input u)))).

(** [new URL(u, base).searchParams]. *)
Definition searchParams (u : string) : URLSearchParams.t :=
  URLSearchParams.parse (query_of u).

(** ** getURL and parseURL *)

(** [options.src.src] for a [src] that is not a string. *)
Definition src_of_source (s : source) : result string :=
  match s with
  | SrcString s => Return s
  | SrcMetadata m => Return (im_src m)
  | SrcUndefined | SrcNull => Throw (ForeignError "TypeError")
  | SrcBool _ | SrcNumber _ | SrcObject => Return "undefined"
  end.

Definition quality_toString (q : quality_value) : string :=
  match q with
  | QNumber n => toString n
  | QString s => s
  end.

Section GetURL.

(** Lines 111 to 116: the path of the image endpoint as the base service
    gives it,
    [new URL(baseService.getURL(options, config), 'http://localhost').pathname],
    or what the base service or the URL constructor throws. *)
Variable endpoint : Transform -> PrivateConfig -> result string.

Definition getURL_query (options : Transform) : result URLSearchParams.t :=
  href ← src_of_source (src options);
  let query := URLSearchParams.append "href" href [] in
  let query :=
    if truthy_opt_number (width options)
    then URLSearchParams.append "w" (from_option toString "undefined" (width options)) query
    else query in
  let query :=
    if truthy_opt_number (height options)
    then URLSearchParams.append "h" (from_option toString "undefined" (height options)) query
    else query in
  let query :=
    if truthy_quality (quality options)
    then URLSearchParams.append "q" (from_option quality_toString "undefined" (quality options)) query
    else query in
  let query :=
    if truthy_opt_string (format options)
    then URLSearchParams.append "f" (interpolate (format options)) query
    else query in
  Return query.

Definition getURL (options : Transform) (config : PrivateConfig)
    : result string :=
  path ← endpoint options config;
  query ← getURL_query options;
  Return (path +:+ "?" +:+ URLSearchParams.serialize query).

End GetURL.

(** The record [parseURL] returns.  [None] in [p_width] and [p_height] is
    [undefined]; in [p_quality] and [p_format] it is [null]. *)
Record ParsedTransform := {
  p_src : string;
  p_width : option number;
  p_height : option number;
  p_quality : option string;
  p_format : option string;
  p_lossless : bool
}.

(** [parseURL]; [None] is [undefined]. *)
Definition parseURL (query : URLSearchParams.t) (config : PrivateConfig)
    : option ParsedTransform :=
  let src := URLSearchParams.get "href" query in
  if negb (truthy_opt_string src) then None
  else
    let width := URLSearchParams.get "w" query in
    let height := URLSearchParams.get "h" query in
    let quality := URLSearchParams.get "q" query in
    let format := URLSearchParams.get "f" query in
    let lossless := URLSearchParams.get "lossless" query in
    Some {| p_src := default EmptyString src;
            p_width := if truthy_opt_string width
                       then parseInt <$> width else None;
            p_height := if truthy_opt_string height
                        then parseInt <$> height else None;
            p_quality := quality;
            p_format := format;
            p_lossless := bool_decide (lossless = Some "1") |}.

(** ** getTargetDimensions *)

Definition getTargetDimensions (options : Transform)
    : result (option number * option number) :=
  let width := width options in
  let height := height options in
  is_metadata ← isImageMetadata (src options);
  match is_metadata, src options with
  | true, SrcMetadata m =>
      let aspectRatio := div (im_width m) (im_height m) in
      if truthy_opt_number height && negb (truthy_opt_number width) then
        Return ((fun h => Math_round (mul h aspectRatio)) <$> height, height)
      else if truthy_opt_number width && negb (truthy_opt_number height) then
        Return (width, (fun w => Math_round (div w aspectRatio)) <$> width)
      else if negb (truthy_opt_number width) && negb (truthy_opt_number height) then
        Return (Some (im_width m), Some (im_height m))
      else Return (width, height)
  | _, _ => Return (width, height)
  end.

(** ** getHTMLAttributes *)

(** The ten properties the destructuring pattern names. *)
Definition named_properties : list string :=
  ["src"; "width"; "height"; "format"; "formats"; "quality"; "densities";
   "widths"; "loading"; "decoding"].

Definition value_of_number (n : option number) : value :=
  match n with Some n => VNumber n | None => VUndefined end.

(** A destructuring default applies to a property that is absent or
    [undefined]. *)
Definition with_default (d : value) (v : option value) : value :=
  match v with
  | None | Some VUndefined => d
  | Some v => v
  end.

Definition getHTMLAttributes (options : Transform) (config : PrivateConfig)
    : result (gmap string value) :=
  '(width, height) ← getTargetDimensions options;
  let loading := with_default (VString "lazy") (loading options) in
  let decoding := with_default (VString "async") (decoding options) in
  let attributes := foldr delete (attributes options) named_properties in
  Return (<["decoding" := decoding]>
            (<["loading" := loading]>
              (<["height" := value_of_number height]>
                (<["width" := value_of_number width]> attributes)))).

(** ** getSrcSet *)

(** [Array.prototype.sort] without a comparator: a stable sort by the
    string forms of the elements, compared by code units. *)
Fixpoint sort_insert (x : number) (l : list number) : list number :=
  match l with
  | [] => [x]
  | y :: l' =>
      if String.ltb (toString y) (toString x) then y :: sort_insert x l'
      else x :: l
  end.

Definition sort (l : list number) : list number := foldr sort_insert [] l.

Record width_entry := {
  maxTargetWidth : number;
  descriptor : string
}.

(** The members every object literal inherits from [Object.prototype]. *)
Definition object_prototype_members : list string :=
  ["constructor"; "__defineGetter__"; "__defineSetter__"; "hasOwnProperty";
   "__lookupGetter__"; "__lookupSetter__"; "isPrototypeOf";
   "propertyIsEnumerable"; "toString"; "valueOf"; "__proto__";
   "toLocaleString"].

(** What the [type] attribute of a candidate holds: a MIME type, or the
    member of [Object.prototype] that the lookup of lines 184 to 187
    found. *)
Inductive mime_value :=
| Mime (s : string)
| MimeInherited (name : string).

Record srcset_candidate := {
  transform : Transform;
  c_descriptor : string;
  c_type : mime_value
}.

(** The MIME type of a format (lines 184 to 187).  The format is looked
    up in an object literal, so a format named like a member of
    [Object.prototype] finds that member, which is not nullish. *)
Definition mimeType (format : string) : mime_value :=
  if String.eqb format "svg" then Mime "image/svg+xml"
  else if String.eqb format "ico" then Mime "image/vnd.microsoft.icon"
  else if bool_decide (format ∈ object_prototype_members)
  then MimeInherited format
  else Mime ("image/" +:+ format).

(** [options.src.width] for a [src] that is not a string. *)
Definition width_of_source (s : source) : result (option number) :=
  match s with
  | SrcMetadata m => Return (Some (im_width m))
  | SrcUndefined | SrcNull => Throw (ForeignError "TypeError")
  | _ => Return None
  end.

(** ToNumber of a value that is a number or [undefined]. *)
Definition to_number (n : option number) : number := default NaN n.

Definition density_number (d : density_value) : number :=
  match d with
  | DNumber n => n
  | DString s => parseFloat s
  end.

(** The list [allWidths] (lines 194 to 215). *)
Definition allWidths (options : Transform) (maxWidth : option number)
    : result (list width_entry) :=
  match densities options, widths options with
  | Some densities, _ =>
      '(width, _) ← getTargetDimensions options;
      match width with
      | Some width =>
          let densityValues := sort (density_number <$> densities) in
          Return ((fun density =>
                     {| maxTargetWidth :=
                          Math_min (Math_round (mul width density))
                                   (to_number maxWidth);
                        descriptor := toString density +:+ "x" |})
                    <$> densityValues)
      | None => Return []
      end
  | None, Some widths =>
      Return ((fun width =>
                 {| maxTargetWidth := Math_min width (to_number maxWidth);
                    descriptor := toString width +:+ "w" |}) <$> widths)
  | None, None => Return []
  end.

(** [maxTargetWidth !== imageWidth]. *)
Definition differs (x : number) (y : option number) : bool :=
  match y with
  | Some y => negb (strict_eq x y)
  | None => true
  end.

Definition srcSetTransform (options : Transform) (imageWidth : option number)
    (e : width_entry) : Transform :=
  let transformWithoutDimensions := set_height None (set_width None options) in
  if differs (maxTargetWidth e) imageWidth then
    set_width (Some (maxTargetWidth e)) transformWithoutDimensions
  else if truthy_opt_number (width options) && truthy_opt_number (height options) then
    set_height (height options) (set_width (width options) transformWithoutDimensions)
  else transformWithoutDimensions.

Definition getSrcSet (options : Transform) (config : PrivateConfig)
    : result (list srcset_candidate) :=
  let format := default "avif" (format options) in
  let mimeType := mimeType format in
  '(imageWidth, maxWidth) ←
    match src options with
    | SrcString _ => Return (width options, Some Infinity)
    | s => w ← width_of_source s; Return (w, w)
    end;
  allWidths ← allWidths options maxWidth;
  Return ((fun e => {| transform := srcSetTransform options imageWidth e;
                       c_descriptor := descriptor e;
                       c_type := mimeType |}) <$> (allWidths : list width_entry)).

(** ** Notions used in the statements *)

(** A dimension the query string carries exactly: an absent one, or a
    non-zero integer below 2^53 in magnitude. *)
Definition exact_dimension (d : option number) : Prop :=
  d = None \/ exists z, d = Some (of_Z z) /\ z <> 0 /\ Z.abs z < 2 ^ 53.

(** A number is a valid binary64 value: its mantissa has at most 53 bits
    and is normalised. *)
Definition valid (x : number) : bool := valid_binary prec emax x.

Definition valid_opt (x : option number) : bool :=
  match x with Some x => valid x | None => true end.

(** A byte string that is well-formed UTF-8: the decoder leaves it as it
    is.  The text of every JavaScript string without a lone surrogate is
    such a string. *)
Definition well_formed (s : string) : bool :=
  String.eqb (URLSearchParams.utf8_decode s) s.

Definition well_formed_query (q : URLSearchParams.t) : bool :=
  forallb (fun p => well_formed (fst p) && well_formed (snd p)) q.

(** A string of ASCII bytes. *)
(** Strings with no C0 control and no space. *)
Fixpoint no_blanks (s : string) : bool :=
  match s with
  | EmptyString => true
  | String c s' => negb (is_control_or_space c) && no_blanks s'
  end.

Fixpoint ascii_only (s : string) : bool :=
  match s with
  | EmptyString => true
  | String c s' => (code c <? 128) && ascii_only s'
  end.

Definition well_formed_opt (s : option string) : bool :=
  match s with Some s => well_formed s | None => true end.

(** The strings that [getURL] writes are well-formed UTF-8. *)
Definition well_formed_strings (options : Transform) : bool :=
  match src options with
  | SrcString s => well_formed s
  | SrcMetadata m => well_formed (im_src m)
  | _ => true
  end
  && well_formed_opt (format options)
  && match quality options with
     | Some (QString s) => well_formed s
     | _ => true
     end.



(** The least number that is printed with an exponent: 10^21. *)
Definition plain_limit : number := of_Z (10 ^ 21).

(** A non-zero integer below 10^21 in magnitude: Number::toString writes
    all its digits, and nothing else but a sign. *)
Definition plain_integer (x : number) : bool :=
  valid x && is_integer x && truthy x && SFltb (SFabs x) plain_limit.


(** [given d]: the dimension is present and is neither zero nor [NaN]. *)
Definition given (d : option number) : Prop := truthy_opt_number d = true.

Definition not_given (d : option number) : Prop := truthy_opt_number d = false.

(** The rounding the specification writes, [round(a * b / c)], on exact
    integers: the integer nearest to the quotient, ties upwards. *)
Definition exact_round (a b c : Z) : Z := (2 * (a * b) + c) / (2 * c).

(** An integer, or one of [NaN], [Infinity] and [-Infinity]. *)
Definition integral_or_not_finite (x : number) : bool :=
  is_integer x || is_nan x || is_infinite x.


(** The three directories of the configuration are set. *)
Definition config_complete (config : PrivateConfig) : bool :=
  truthy_opt_string (publicDir config)
  && truthy_opt_string (assets config)
  && truthy_opt_string (outDir config).

(** [thrown_by_probe s config e]: [e] is the error of the URL constructor
    call made for the string [src], or of the probe of the URL it
    gave. *)
Definition thrown_by_probe (URL : Type)
    (new_URL : string -> option string -> result URL)
    (imageInformation : URL -> result (option (number * number)))
    (s : string) (config : PrivateConfig) (e : error) : Prop :=
  probe_URL URL new_URL s config = Throw e
  \/ exists u, probe_URL URL new_URL s config = Return u
               /\ imageInformation u = Throw e.

(** The candidate [getSrcSet] makes of an entry of [allWidths]. *)
Definition candidate_of (options : Transform) (imageWidth : option number)
    (e : width_entry) : srcset_candidate :=
  {| transform := srcSetTransform options imageWidth e;
     c_descriptor := descriptor e;
     c_type := mimeType (default "avif" (format options)) |}.

(** The descriptor of every candidate with the width of its transform. *)
Definition descriptors_and_widths (r : result (list srcset_candidate))
    : list (string * option number) :=
  match r with
  | Return l => (fun c => (c_descriptor c, width (transform c))) <$> l
  | Throw _ => []
  end.

(** ** Sample inputs *)

Definition sample_config : PrivateConfig :=
  {| publicDir := Some "file:///site/public/";
     assets := Some "_astro";
     outDir := Some "file:///site/dist/";
     defaultFormat := None |}.

(** A base service for a site served at [/]: an imported image is served
    by the endpoint [/_image]; this sample refuses every other [src]. *)
Definition sample_endpoint (options : Transform) (config : PrivateConfig)
    : result string :=
  match src options with
  | SrcMetadata _ => Return "/_image"
  | _ => Throw (ForeignError "TypeError")
  end.

(** A probe that finds no image, and a [URL] constructor that accepts
    every string. *)
Definition any_URL (s : string) (base : option string) : result string :=
  Return (from_option (fun b => b +:+ s) s base).

Definition no_information (u : string) : result (option (number * number)) :=
  Return None.

(** A probe that reports a 640 by 480 image. *)
Definition vga_information (u : string) : result (option (number * number)) :=
  Return (Some (of_Z 640, of_Z 480)).

(** A [URL] constructor that, like the platform's, rejects ['http://']
    (a URL without a host) with a [TypeError], and accepts the rest. *)
Definition strict_URL (s : string) (base : option string) : result string :=
  if String.eqb s "http://" then Throw (ForeignError "TypeError: Invalid URL")
  else any_URL s base.

(** A 3000 by 2000 imported image. *)
Definition hero : ImageMetadata :=
  {| im_src := "/_astro/hero.png"; im_width := of_Z 3000;
     im_height := of_Z 2000; im_format := "png" |}.

(** A 101 by 198 imported image. *)
Definition banner : ImageMetadata :=
  {| im_src := "/_astro/banner.png"; im_width := of_Z 101;
     im_height := of_Z 198; im_format := "png" |}.

(** An imported SVG image. *)
Definition logo_svg : ImageMetadata :=
  {| im_src := "/_astro/logo.svg"; im_width := of_Z 64;
     im_height := of_Z 64; im_format := "svg" |}.

(** Options with nothing but a [src] and, maybe, a size. *)
Definition plain_options (s : source) (w h : option number) : Transform :=
  {| src := s; width := w; height := h; format := None; formats := None;
     quality := None; densities := None; widths := None; loading := None;
     decoding := None; attributes := ∅ |}.

(** Options with a [src], a size and a requested format. *)
Definition format_options (s : source) (w h : option number)
    (f : option string) : Transform :=
  {| src := s; width := w; height := h; format := f; formats := None;
     quality := None; densities := None; widths := None; loading := None;
     decoding := None; attributes := ∅ |}.

(** Options for [getSrcSet]: a [src], a width and the two lists. *)
Definition srcset_options (s : source) (w : option number)
    (ds : option (list density_value)) (ws : option (list number)) : Transform :=
  {| src := s; width := w; height := None; format := None; formats := None;
     quality := None; densities := ds; widths := ws; loading := None;
     decoding := None; attributes := ∅ |}.

Definition with_densities (d : list density_value) (o : Transform) : Transform :=
  {| src := src o; width := width o; height := height o; format := format o;
     formats := formats o; quality := quality o; densities := Some d;
     widths := widths o; loading := loading o; decoding := decoding o;
     attributes := attributes o |}.

(** Options of an [<img>] with an [alt] text and a [decoding] hint. *)
Definition logo_options : Transform :=
  {| src := SrcMetadata hero; width := Some (of_Z 300); height := None;
     format := Some "webp"; formats := None; quality := None;
     densities := None; widths := None; loading := None;
     decoding := Some (VString "sync");
     attributes := {[ "alt" := VString "A logo" ]} |}.

(** The number 10.5. *)
Definition ten_and_a_half : number := div (of_Z 21) (of_Z 2).

(** ** transform

    The pixel work is done by sharp and svgo; what the service decides is
    which calls are made, in which order and with which parameters.  The
    embedding returns that sequence of calls. *)

(** [qualityTable] (lines 16 to 21). *)
Definition qualityTable : gmap string number :=
  {[ "low" := of_Z 50; "mid" := of_Z 70; "high" := of_Z 80; "max" := of_Z 100 ]}.

(** What an encoder's [quality] option can hold: a number, or a member of
    [Object.prototype] that the table lookup found. *)
Inductive quality_option :=
| QualityNumber (n : number)
| QualityInherited (name : string).

(** [qualityTable[key]]; [None] is [undefined]. *)
Definition qualityTable_get (key : string) : option quality_option :=
  match qualityTable !! key with
  | Some n => Some (QualityNumber n)
  | None =>
      if bool_decide (key ∈ object_prototype_members)
      then Some (QualityInherited key) else None
  end.

(** The part of the resolved transform that [transform] reads (the type
    is declared in [./config], which is not among the sources). *)
Record ResolvedTransform := {
  t_format : option string;
  t_width : option number;
  t_height : option number;
  t_quality : option quality_value
}.

(** The options given to [toFormat]; [None] is an absent property. *)
Record encoder_options := {
  e_quality : option quality_option;
  e_bitdepth : option Z;
  e_lossless : option bool;
  e_mozjpeg : option bool
}.

(** The calls [transform] makes. *)
Inductive call :=
| Svgo_optimize
| Sharp_new
| Sharp_metadata
| Sharp_rotate
| Sharp_resize (width height : option number)
| Console_warn (message : string)
| Sharp_toFormat (format : string) (options : encoder_options)
| Sharp_pipelineColorspace (space : string)
| Sharp_keepIccProfile
| Sharp_toBuffer.

(** Line 296: a numeric quality is used as it is, any other is looked up
    in the table. *)
Definition resolve_quality (q : option quality_value) : option quality_option :=
  match q with
  | Some (QNumber n) => Some (QualityNumber n)
  | Some (QString s) => qualityTable_get s
  | None => qualityTable_get EmptyString
  end.

(** [options.quality === 100]. *)
Definition quality_is_100 (q : option quality_option) : bool :=
  match q with
  | Some (QualityNumber n) => strict_eq n (of_Z 100)
  | _ => false
  end.

(** The [switch] on the format (lines 306 to 337). *)
Definition encoder_defaults (format : string) (quality : option quality_option)
    : encoder_options :=
  let options := {| e_quality := quality; e_bitdepth := None;
                    e_lossless := None; e_mozjpeg := None |} in
  if String.eqb format "avif" then
    {| e_quality := quality; e_bitdepth := Some 8;
       e_lossless := Some (quality_is_100 quality); e_mozjpeg := None |}
  else if String.eqb format "webp" then
    {| e_quality := quality; e_bitdepth := None;
       e_lossless := Some (quality_is_100 quality); e_mozjpeg := None |}
  else if String.eqb format "png" then options
  else if String.eqb format "jpeg" then
    {| e_quality := quality; e_bitdepth := None;
       e_lossless := None; e_mozjpeg := Some true |}
  else options.

(** The calls of [transform] in program order, given the colour space
    and the ICC profile that [metadata()] reports: the calls that are
    made when none of them throws. *)
Definition transform_calls (transform : ResolvedTransform)
    (space : option string) (icc : bool) : list call :=
  if bool_decide (t_format transform = Some "svg") then [Svgo_optimize]
  else
    let colorspace := default "srgb" space in
    let isHdr := String.eqb colorspace "rgb16" in
    [Sharp_new; Sharp_metadata; Sharp_rotate]
    ++ (match t_width transform, t_height transform with
        | None, None => []
        | w, h => [Sharp_resize (Math_round <$> w) (Math_round <$> h)]
        end)
    ++ (match t_format transform with
        | Some format =>
            if truthy_string format then
              let quality := resolve_quality (t_quality transform) in
              (if isHdr && negb (String.eqb format "png")
               then [Console_warn ("Warning: Sharp does not support writing HDR ."
                                   +:+ format +:+ " images. Converting to SDR…")]
               else [])
              ++ [Sharp_toFormat format (encoder_defaults format quality)]
            else []
        | None => []
        end)
    ++ (if isHdr && bool_decide (t_format transform = Some "png")
        then [Sharp_pipelineColorspace "rgb16"] else [])
    ++ (if icc then [Sharp_keepIccProfile] else [])
    ++ [Sharp_toBuffer].

(** sharp and svgo can refuse a call: [lib] tells of each call whether
    it returns or throws.  The calls are made in order, up to the first
    one that throws. *)
Fixpoint run_calls (lib : call -> result unit) (calls : list call)
    : list call * result unit :=
  match calls with
  | [] => ([], Return tt)
  | c :: calls' =>
      match lib c with
      | Return _ => let '(made, r) := run_calls lib calls' in (c :: made, r)
      | Throw e => ([c], Throw e)
      end
  end.

(** [transform] (lines 248 to 358): the calls it makes, and whether it
    returns or throws. *)
Definition transform_outcome (lib : call -> result unit)
    (transform : ResolvedTransform) (space : option string) (icc : bool)
    : list call * result unit :=
  run_calls lib (transform_calls transform space icc).

(** The host hands the record that [parseURL] returned to [transform]. *)
Definition resolved_of_parsed (p : ParsedTransform) : ResolvedTransform :=
  {| t_format := p_format p; t_width := p_width p; t_height := p_height p;
     t_quality := QString <$> p_quality p |}.

(** The encoder options of the first [toFormat] call, if there is one. *)
Fixpoint toFormat_options (calls : list call) : option encoder_options :=
  match calls with
  | [] => None
  | Sharp_toFormat _ options :: _ => Some options
  | _ :: calls' => toFormat_options calls'
  end.

(** [same_other_options o r]: the records agree on everything but width,
    height and format. *)
Definition same_other_options (o r : Transform) : Prop :=
  src r = src o /\ formats r = formats o /\ quality r = quality o
  /\ densities r = densities o /\ widths r = widths o
  /\ loading r = loading o /\ decoding r = decoding o
  /\ attributes r = attributes o.

(** A string [src] that passes the test of lines 39 to 44. *)
Definition acceptable_src (config : PrivateConfig) (s : string) : bool :=
  isAbsoluteURL s || isBundledAsset (assets config) s || isPublicAsset s.

(** How many candidates [getSrcSet] makes: one per density when there are
    densities and a target width, one per width when there are only
    widths. *)
Definition expected_candidates (options : Transform) : nat :=
  match densities options, widths options with
  | Some ds, _ =>
      match fst <$> getTargetDimensions options with
      | Return (Some _) => length ds
      | _ => 0%nat
      end
  | None, Some ws => length ws
  | None, None => 0%nat
  end.

(** A library that carries out every call. *)
Definition obliging (c : call) : result unit := Return tt.

(** A transform to lossless WebP at twice 320 pixels. *)
Definition webp_max : ResolvedTransform :=
  {| t_format := Some "webp"; t_width := Some (of_Z 640); t_height := None;
     t_quality := Some (QString "max") |}.

(** One half and 2^53. *)
Definition one_half : number := div (of_Z 1) (of_Z 2).

Definition two_53 : number := of_Z (2 ^ 53).

(** [pixel_count x]: a valid number with [1/2 <= x < 2^53], which rounds
    to a positive integer that is a number itself. *)
Definition pixel_count (x : number) : bool :=
  valid x && SFleb one_half x && SFltb x two_53.

Definition pixel_count_opt (d : option number) : bool :=
  match d with Some x => pixel_count x | None => true end.

(** * Properties *)

(** ** The runtime model on sample values *)

Example of_Z_rounds_to_even : of_Z (2 ^ 53 + 1) = of_Z (2 ^ 53).
Proof. vm_compute. reflexivity. Qed.

Example toString_samples :
  toString <$> [of_Z 10; of_Z (-15); ten_and_a_half; div (of_Z 1) (of_Z 3);
                div (of_Z 1) (of_Z 10000000); of_Z (10 ^ 21); of_Z (2 ^ 60);
                NaN; Infinity; S754_zero true]
  = ["10"; "-15"; "10.5"; "0.3333333333333333"; "1e-7"; "1e+21";
     "1152921504606847000"; "NaN"; "Infinity"; "0"].
Proof. vm_compute. reflexivity. Qed.

Example toString_shortest_agrees_on_integers :
  toString_finite 5629499534213120 (-49) = "10"
  /\ toString_finite 9007199254740991 0 = "9007199254740991".
Proof. split; vm_compute; reflexivity. Qed.

Example parseInt_samples :
  toString <$> (parseInt <$> ["640"; "  -42px"; "10.5"; "1e+21"; ""; "px"])
  = ["640"; "-42"; "10"; "1"; "NaN"; "NaN"].
Proof. vm_compute. reflexivity. Qed.

Example parseFloat_samples :
  toString <$> (parseFloat <$> ["2x"; "1.5x"; ".5"; "1e3"; "x"; "-Infinity"])
  = ["2"; "1.5"; "0.5"; "1000"; "NaN"; "-Infinity"].
Proof. vm_compute. reflexivity. Qed.

Example Math_round_samples :
  toString <$> (Math_round <$> [div (of_Z 5) (of_Z 2); div (of_Z (-5)) (of_Z 2);
                                div (of_Z 149) (of_Z 100); Infinity; NaN])
  = ["3"; "-2"; "1"; "Infinity"; "NaN"].
Proof. vm_compute. reflexivity. Qed.

Example Math_round_negative_zero :
  Math_round (div (of_Z (-1)) (of_Z 4)) = S754_zero true.
Proof. vm_compute. reflexivity. Qed.

Example serialize_sample :
  URLSearchParams.serialize [("href", "/my photo.png?v=1&x"); ("w", "640")]
  = "href=%2Fmy+photo.png%3Fv%3D1%26x&w=640".
Proof. vm_compute. reflexivity. Qed.

Example decode_samples :
  URLSearchParams.decode <$> ["a+b%26c"; "%E2%82%AC"; "a%FFb"; "%E2%82"; "%C0%80"]
  = ["a b&c"; "€"; "a" +:+ URLSearchParams.replacement +:+ "b";
     URLSearchParams.replacement;
     URLSearchParams.replacement +:+ URLSearchParams.replacement].
Proof. vm_compute. reflexivity. Qed.

Example plain_integer_samples :
  plain_integer <$> [of_Z 640; of_Z (-7); of_Z (2 ^ 53 + 2); of_Z (10 ^ 20);
                     of_Z (10 ^ 21); ten_and_a_half; S754_zero false; Infinity]
  = [true; true; true; true; false; false; false; false].
Proof. vm_compute. reflexivity. Qed.

Example isAbsoluteURL_samples :
  isAbsoluteURL <$> ["https://example.com/a.png"; "//cdn/a.png"; "/a.png";
                     "a.png"; "data:image/png;base64"]
  = [true; true; false; false; false].
Proof. vm_compute. reflexivity. Qed.

Example isPublicAsset_samples :
  isPublicAsset <$> ["/a.png"; "/"; "//cdn/a.png"; "/@fs/a.png"; "a.png"]
  = [true; true; false; false; false].
Proof. vm_compute. reflexivity. Qed.

(** ** Integers as numbers *)

Section NumberFacts.

Lemma of_Z_small_pos (z : Z) :
  z <> 0 -> Z.abs z < 2 ^ 53 ->
  exists m, Z.shiftl (Z.abs z) (52 - Z.log2 (Z.abs z)) = Zpos m /\
            of_Z z = S754_finite (z <? 0) m (- (52 - Z.log2 (Z.abs z))).
Proof.
  intros Hz Hlt. unfold of_Z.
  destruct (Z.eqb_spec z 0) as [|_]; [done|].
  destruct (Z.ltb_spec (Z.abs z) (2 ^ 53)) as [_|]; [|lia].
  assert (0 < Z.shiftl (Z.abs z) (52 - Z.log2 (Z.abs z))) as Hpos.
  { assert (Z.log2 (Z.abs z) < 53) by (apply Z.log2_lt_pow2; lia).
    rewrite Z.shiftl_mul_pow2 by lia.
    apply Z.mul_pos_pos; [lia|]. apply Z.pow_pos_nonneg; lia. }
  destruct (Z.shiftl (Z.abs z) (52 - Z.log2 (Z.abs z))) as [|m|m]; try lia.
  by exists m.
Qed.

Lemma to_Z_of_Z (z : Z) : Z.abs z < 2 ^ 53 -> to_Z (of_Z z) = Some z.
Proof.
  intros Hlt. destruct (Z.eq_dec z 0) as [->|Hz]; [done|].
  destruct (of_Z_small_pos z Hz Hlt) as (m & Hm & ->).
  assert (Z.log2 (Z.abs z) < 53) as Hlog by (apply Z.log2_lt_pow2; lia).
  set (k := 52 - Z.log2 (Z.abs z)) in *.
  assert (0 <= k) by lia.
  assert (cond_Zopp (z <? 0) (Z.abs z) = z) as Hsign.
  { unfold cond_Zopp. destruct (Z.ltb_spec z 0); lia. }
  unfold to_Z. destruct (Z.leb_spec 0 (- k)).
  - assert (k = 0) as Hk by lia. clearbody k. subst k.
    rewrite Z.shiftl_0_r in Hm. change (- 0) with 0.
    by rewrite Z.shiftl_0_r, <- Hm, Hsign.
  - rewrite Z.opp_involutive, <- Hm.
    rewrite Z.land_ones by lia. rewrite Z.shiftl_mul_pow2 by lia.
    rewrite Z.mod_mul by (apply Z.pow_nonzero; lia). simpl.
    rewrite <- Z.shiftl_mul_pow2 by lia.
    rewrite Z.shiftr_shiftl_l by lia. rewrite Z.sub_diag, Z.shiftl_0_r.
    by rewrite Hsign.
Qed.

Lemma truthy_of_Z (z : Z) : z <> 0 -> Z.abs z < 2 ^ 53 -> truthy (of_Z z) = true.
Proof. intros Hz Hlt. by destruct (of_Z_small_pos z Hz Hlt) as (m & _ & ->). Qed.

Lemma toString_of_Z (z : Z) : Z.abs z < 2 ^ 53 -> toString (of_Z z) = decimal z.
Proof.
  intros Hlt. destruct (Z.eq_dec z 0) as [->|Hz]; [done|].
  pose proof (to_Z_of_Z z Hlt) as HZ.
  destruct (of_Z_small_pos z Hz Hlt) as (m & _ & Heq). rewrite Heq in *.
  unfold toString. rewrite HZ.
  by destruct (Z.ltb_spec (Z.abs z) (2 ^ 53)); [|lia].
Qed.

End NumberFacts.

Section NearestInteger.

Lemma digits2_pos_size (p : positive) : digits2_pos p = Pos.size p.
Proof. induction p as [p IH|p IH|]; cbn [digits2_pos Pos.size]; congruence. Qed.

Lemma log2_digits (p : positive) : Z.log2 (Zpos p) = Zpos (digits2_pos p) - 1.
Proof.
  rewrite digits2_pos_size.
  destruct p as [p|p|]; cbn [Z.log2 Pos.size]; rewrite ?Pos2Z.inj_succ; lia.
Qed.

Lemma digits2_pos_bound (m : positive) : Zpos m < 2 ^ Zpos (digits2_pos m).
Proof.
  induction m as [m IH|m IH|]; cbn [digits2_pos]; [| |done].
  - rewrite Pos2Z.inj_succ, Z.pow_succ_r by lia. lia.
  - rewrite Pos2Z.inj_succ, Z.pow_succ_r by lia. lia.
Qed.

Lemma digits2_pos_lower (m : positive) :
  2 ^ (Zpos (digits2_pos m) - 1) <= Zpos m.
Proof.
  induction m as [m IH|m IH|]; cbn [digits2_pos]; [| |done].
  - rewrite Pos2Z.inj_succ.
    replace (Z.succ (Zpos (digits2_pos m)) - 1)
      with (Z.succ (Zpos (digits2_pos m) - 1)) by lia.
    rewrite Z.pow_succ_r by lia. lia.
  - rewrite Pos2Z.inj_succ.
    replace (Z.succ (Zpos (digits2_pos m)) - 1)
      with (Z.succ (Zpos (digits2_pos m) - 1)) by lia.
    rewrite Z.pow_succ_r by lia. lia.
Qed.

Lemma valid_mantissa (s : bool) (m : positive) (e : Z) :
  valid (S754_finite s m e) = true -> Zpos m < 2 ^ 53.
Proof.
  unfold valid, valid_binary, bounded, canonical_mantissa, fexp, emin, prec, emax.
  intros H. apply andb_true_iff in H as [H _]. apply Z.eqb_eq in H.
  pose proof (digits2_pos_bound m) as Hb.
  assert (Zpos (digits2_pos m) <= 53) as Hd by lia.
  eapply Z.lt_le_trans; [exact Hb|].
  apply Z.pow_le_mono_r; lia.
Qed.

Lemma iter_xO_shiftl (p k : positive) :
  Zpos (Pos.iter xO p k) = Z.shiftl (Zpos p) (Zpos k).
Proof.
  cbn [Z.shiftl].
  apply (Pos.iter_swap_gen _ _ Zpos xO (Z.mul 2)). reflexivity.
Qed.

Lemma digits2_pos_iter_xO (p k : positive) :
  Zpos (digits2_pos (Pos.iter xO p k)) = Zpos (digits2_pos p) + Zpos k.
Proof.
  induction k as [|k IH] using Pos.peano_ind.
  - cbn [Pos.iter digits2_pos]. lia.
  - rewrite Pos.iter_succ. cbn [digits2_pos]. rewrite !Pos2Z.inj_succ. lia.
Qed.

(** A mantissa of 53 bits with an exponent in range is left as it is. *)
Lemma binary_round_aux_exact (s : bool) (m : positive) (e : Z) :
  Zpos (digits2_pos m) = 53 -> -1074 <= e <= 971 ->
  binary_round_aux prec emax s (Zpos m) e loc_Exact = S754_finite s m e.
Proof.
  intros Hd He.
  assert (fexp prec emax (Zdigits2 (Zpos m) + e) - e = 0) as Hf.
  { cbn [Zdigits2]. unfold fexp, emin, prec, emax. lia. }
  unfold binary_round_aux, shr_fexp. rewrite Hf.
  cbn [shr shr_record_of_loc shr_m loc_of_shr_record round_nearest_even].
  rewrite Hf. cbn [shr shr_record_of_loc shr_m].
  unfold prec, emax. by destruct (Z.leb_spec e (1024 - 53)); [|lia].
Qed.

Lemma binary_round_small (s : bool) (p : positive) :
  Zpos p < 2 ^ 53 ->
  exists m, Z.shiftl (Zpos p) (52 - Z.log2 (Zpos p)) = Zpos m
            /\ binary_round prec emax s p 0
               = S754_finite s m (- (52 - Z.log2 (Zpos p))).
Proof.
  intros Hp. rewrite log2_digits.
  assert (Zpos (digits2_pos p) <= 53) as Hd.
  { destruct (Z.le_gt_cases (Zpos (digits2_pos p)) 53) as [|Hgt]; [done|].
    exfalso. pose proof (log2_digits p) as Hl.
    assert (53 <= Z.log2 (Zpos p)) as Hlog by lia.
    apply Z.log2_le_pow2 in Hlog; lia. }
  unfold binary_round, shl_align.
  assert (fexp prec emax (Zpos (digits2_pos p) + 0) = Zpos (digits2_pos p) - 53)
    as -> by (unfold fexp, emin, prec, emax; lia).
  destruct (Zpos (digits2_pos p) - 53 - 0) as [|d|d] eqn:Ed; [|lia|].
  - exists p. replace (52 - (Zpos (digits2_pos p) - 1)) with 0 by lia.
    split; [apply Z.shiftl_0_r|].
    rewrite binary_round_aux_exact by lia. done.
  - exists (Pos.iter xO p d).
    replace (52 - (Zpos (digits2_pos p) - 1)) with (Zpos d) by lia.
    split; [by rewrite iter_xO_shiftl|].
    rewrite binary_round_aux_exact.
    + f_equal. lia.
    + rewrite digits2_pos_iter_xO. lia.
    + lia.
Qed.

(** [of_Z] is the rounding of the standard library on every integer. *)
Lemma of_Z_nearest (z : Z) : of_Z z = binary_normalize prec emax z 0 false.
Proof.
  unfold of_Z. destruct (Z.eqb_spec z 0) as [->|Hz]; [done|].
  destruct (Z.ltb_spec (Z.abs z) (2 ^ 53)) as [Hlt|]; [|done].
  destruct z as [|p|p]; [done| |]; cbn [binary_normalize].
  - change (Z.abs (Z.pos p)) with (Z.pos p) in *.
    destruct (binary_round_small false p Hlt) as (m & -> & ->). done.
  - change (Z.abs (Z.neg p)) with (Z.pos p) in *.
    destruct (binary_round_small true p Hlt) as (m & -> & ->). done.
Qed.

End NearestInteger.

Section ParseFacts.

(** Digits read after a positive accumulator. *)
Lemma read_digits_acc (u : Decimal.uint) (p : positive) (n : nat) :
  read_digits (NilEmpty.string_of_uint u) (Zpos p) n
  = (Zpos (Pos.of_uint_acc u p), (n + Decimal.nb_digits u)%nat, EmptyString).
Proof.
  revert p n.
  induction u; intros p n;
    cbn [NilEmpty.string_of_uint read_digits Decimal.nb_digits Pos.of_uint_acc];
    [ by rewrite Nat.add_0_r | .. ];
    change (is_digit _) with true; cbv iota;
    match goal with
    | |- read_digits _ (_ + digit_value ?c) _ = _ =>
        let v := eval vm_compute in (digit_value c) in
        change (digit_value c) with v
    end;
    match goal with
    | |- read_digits _ ?a _ = (Z.pos (Pos.of_uint_acc _ ?q), _, _) =>
        replace a with (Z.pos q) by lia
    end;
    by rewrite IHu, Nat.add_succ_r.
Qed.

Lemma read_digits_uint (u : Decimal.uint) (n : nat) :
  read_digits (NilEmpty.string_of_uint u) 0 n
  = (Z.of_N (Pos.of_uint u), (n + Decimal.nb_digits u)%nat, EmptyString).
Proof.
  revert n.
  induction u; intros n;
    cbn [NilEmpty.string_of_uint read_digits Decimal.nb_digits Pos.of_uint];
    [ by rewrite Nat.add_0_r
    | change (is_digit _) with true; cbv iota;
      change (10 * 0 + digit_value _) with 0;
      by rewrite IHu, Nat.add_succ_r
    | change (is_digit _) with true; cbv iota;
      match goal with
      | |- read_digits _ ?a _ = _ =>
          let v := eval vm_compute in a in change a with v
      end;
      by rewrite read_digits_acc, Nat.add_succ_r .. ].
Qed.

Lemma nb_digits_to_uint (n : N) : (0 < Decimal.nb_digits (N.to_uint n))%nat.
Proof.
  destruct n as [|p]; [simpl; lia|].
  simpl. unfold Pos.to_uint.
  destruct (Decimal.nb_digits (Decimal.rev (Pos.to_little_uint p))) eqn:E; [|lia].
  exfalso. 
  assert (Pos.of_uint (Pos.to_uint p) = Npos p) as H by apply DecimalPos.Unsigned.of_to.
  unfold Pos.to_uint in H.
  destruct (Decimal.rev (Pos.to_little_uint p)); simpl in *; discriminate.
Qed.

Lemma read_digits_of_Z (z : Z) :
  0 <= z ->
  exists n, read_digits (digits_of_Z z) 0 0 = (z, S n, EmptyString).
Proof.
  intros Hz. unfold digits_of_Z. rewrite read_digits_uint.
  change (Pos.of_uint ?u) with (N.of_uint u).
  rewrite DecimalN.Unsigned.of_to, Z2N.id by done.
  pose proof (nb_digits_to_uint (Z.to_N z)).
  destruct (Decimal.nb_digits (N.to_uint (Z.to_N z))) as [|n] eqn:E; [lia|].
  by exists n.
Qed.

End ParseFacts.

Section ParseIntFacts.

Lemma trim_start_keeps (c : ascii) (s : string) :
  is_digit c = true \/ c = "-"%char ->
  trim_start (String c s) = String c s.
Proof.
  intros [H| ->].
  - destruct c as [[] [] [] [] [] [] [] []]; vm_compute in H; try discriminate H;
      destruct s as [|c2 [|c3 s3]]; reflexivity.
  - destruct s as [|c2 [|c3 s3]]; reflexivity.
Qed.

Lemma read_sign_digit (c : ascii) (s : string) :
  is_digit c = true -> read_sign (String c s) = (false, String c s).
Proof.
  intros H.
  destruct c as [[] [] [] [] [] [] [] []]; vm_compute in H; try discriminate H;
    reflexivity.
Qed.

Lemma digits_of_Z_head (z : Z) :
  exists c s, digits_of_Z z = String c s /\ is_digit c = true.
Proof.
  unfold digits_of_Z. pose proof (nb_digits_to_uint (Z.to_N z)) as H.
  destruct (N.to_uint (Z.to_N z)); simpl in H; [lia| ..];
    eexists _, _; (split; [reflexivity|reflexivity]).
Qed.

Lemma parseInt_digits (z : Z) :
  0 <= z -> parseInt (digits_of_Z z) = of_Z z.
Proof.
  intros Hz. destruct (digits_of_Z_head z) as (c & s & E & Hc).
  destruct (read_digits_of_Z z Hz) as (n & Hr).
  unfold parseInt. rewrite E, trim_start_keeps, read_sign_digit by auto.
  rewrite <- E, Hr. unfold of_Z, cond_Zopp.
  by destruct (Z.eqb_spec z 0).
Qed.

Lemma parseInt_decimal (z : Z) : parseInt (decimal z) = of_Z z.
Proof.
  unfold decimal. destruct (Z.ltb_spec z 0) as [Hneg|Hpos];
    [|by apply parseInt_digits].
  destruct (read_digits_of_Z (- z)) as (n & Hr); [lia|].
  unfold parseInt. rewrite trim_start_keeps by auto.
  cbn [read_sign]. rewrite Hr.
  destruct (Z.eqb_spec (- z) 0); [lia|].
  unfold cond_Zopp. by rewrite Z.opp_involutive.
Qed.


End ParseIntFacts.

(** ** The query string *)

Module URLFacts.
Import URLSearchParams.

Lemma app_cons (c : ascii) (a b : string) :
  String c a +:+ b = String c (a +:+ b).
Proof. reflexivity. Qed.

Lemma app_nil (b : string) : EmptyString +:+ b = b.
Proof. reflexivity. Qed.

Lemma free_of_app sep a b :
  free_of sep (a +:+ b) = free_of sep a && free_of sep b.
Proof.
  induction a as [|c a IH]; [done|].
  rewrite app_cons. simpl. by rewrite IH, andb_assoc.
Qed.

Lemma app_assoc (a b c : string) : (a +:+ b) +:+ c = a +:+ (b +:+ c).
Proof. induction a as [|x a IH]; [done|]. by rewrite !app_cons, IH. Qed.

Lemma cut_free sep a :
  free_of sep a = true -> cut sep a = (a, EmptyString).
Proof.
  induction a as [|c a IH]; simpl; [done|].
  destruct (Ascii.eqb c sep); simpl; [done|]. intros H. by rewrite IH.
Qed.

Lemma cut_app sep a b :
  free_of sep a = true -> cut sep (a +:+ String sep b) = (a, b).
Proof.
  induction a as [|c a IH]; rewrite ?app_cons, ?app_nil; simpl.
  - by rewrite Ascii.eqb_refl.
  - destruct (Ascii.eqb c sep); simpl; [done|]. intros H. by rewrite IH.
Qed.

Lemma split_on_free sep a :
  free_of sep a = true -> split_on sep a = [a].
Proof.
  induction a as [|c a IH]; simpl; [done|].
  destruct (Ascii.eqb c sep); simpl; [done|]. intros H. by rewrite IH.
Qed.

Lemma split_on_app sep a b :
  free_of sep a = true ->
  split_on sep (a +:+ String sep b) = a :: split_on sep b.
Proof.
  induction a as [|c a IH]; rewrite ?app_cons, ?app_nil; simpl.
  - by rewrite Ascii.eqb_refl.
  - destruct (Ascii.eqb c sep); simpl; [done|]. intros H. by rewrite IH.
Qed.

Lemma encoded_shape_all (c : ascii) : encoded_shape c = true.
Proof. destruct c as [[] [] [] [] [] [] [] []]; vm_compute; reflexivity. Qed.

Lemma unescape_plain (c : ascii) (s : string) :
  (code c =? 37) = false -> (code c =? 43) = false ->
  unescape (String c s) = String c (unescape s).
Proof.
  intros H1 H2. unfold unescape. cbn [plus_to_space percent_decode].
  by rewrite H2, H1.
Qed.

Lemma unescape_plus (c : ascii) (s : string) :
  (code c =? 43) = true -> unescape (String c s) = String " " (unescape s).
Proof.
  intros H. unfold unescape. cbn [plus_to_space percent_decode]. by rewrite H.
Qed.

Lemma unescape_percent (p x y : ascii) (a b : Z) (s : string) :
  (code p =? 37) = true -> (code x =? 43) = false -> (code y =? 43) = false ->
  hex_value x = Some a -> hex_value y = Some b ->
  unescape (String p (String x (String y s)))
  = String (ascii_of_nat (Z.to_nat (16 * a + b))) (unescape s).
Proof.
  intros Hp Hx Hy Ha Hb. unfold unescape. cbn [plus_to_space percent_decode].
  assert ((code p =? 43) = false) as Hp'.
  { apply Z.eqb_eq in Hp. apply Z.eqb_neq. lia. }
  by rewrite Hp', Hx, Hy, Hp, Ha, Hb.
Qed.

Lemma unescape_encode_byte (c : ascii) (s : string) :
  unescape (encode_byte c +:+ s) = String c (unescape s).
Proof.
  pose proof (encoded_shape_all c) as H. unfold encoded_shape in H.
  destruct (encode_byte c) as [|x [|y [|z [|]]]]; try discriminate H.
  - rewrite app_cons, app_nil.
    apply andb_true_iff in H as [H1 H2]. apply negb_true_iff in H1.
    destruct (code c =? 32) eqn:Hc.
    + rewrite unescape_plus by done. f_equal.
      apply Z.eqb_eq in Hc. unfold code in Hc.
      rewrite <- (ascii_nat_embedding c).
      replace (nat_of_ascii c) with 32%nat by lia. done.
    + apply andb_true_iff in H2 as [H2 H3]. apply negb_true_iff in H3.
      apply Ascii.eqb_eq in H2 as ->. by apply unescape_plain.
  - rewrite !app_cons, app_nil.
    repeat (apply andb_true_iff in H as [H ?]).
    destruct (hex_value y) as [a|] eqn:Ha; [|done].
    destruct (hex_value z) as [b|] eqn:Hb; [|done].
    rewrite (unescape_percent x y z a b) by (done || by apply negb_true_iff).
    f_equal. by apply Ascii.eqb_eq.
Qed.

Lemma free_of_encode_byte (c : ascii) :
  free_of "&" (encode_byte c) = true
  /\ free_of "=" (encode_byte c) = true
  /\ free_of "#" (encode_byte c) = true.
Proof. destruct c as [[] [] [] [] [] [] [] []]; vm_compute; auto. Qed.

Lemma unescape_encode (s : string) : unescape (encode s) = s.
Proof.
  induction s as [|c s IH]; [done|].
  cbn [encode]. by rewrite unescape_encode_byte, IH.
Qed.

Lemma decode_encode (s : string) :
  well_formed s = true -> decode (encode s) = s.
Proof.
  intros H. unfold decode. rewrite unescape_encode.
  by apply String.eqb_eq.
Qed.

Lemma free_of_encode (s : string) :
  free_of "&" (encode s) = true
  /\ free_of "=" (encode s) = true
  /\ free_of "#" (encode s) = true.
Proof.
  induction s as [|c s (IH1 & IH2 & IH3)]; [done|].
  cbn [encode]. rewrite !free_of_app, IH1, IH2, IH3.
  destruct (free_of_encode_byte c) as (-> & -> & ->). done.
Qed.

Lemma free_of_pair name v :
  free_of "&" (pair_string name v) = true
  /\ free_of "#" (pair_string name v) = true.
Proof.
  unfold pair_string. rewrite !free_of_app. cbn [free_of].
  destruct (free_of_encode name) as (-> & _ & ->).
  destruct (free_of_encode v) as (-> & _ & ->). done.
Qed.

Lemma parse_piece name v :
  well_formed name = true -> well_formed v = true ->
  match pair_string name v with
  | EmptyString => None
  | _ => let '(n, w) := cut "=" (pair_string name v) in Some (decode n, decode w)
  end = Some (name, v).
Proof.
  intros Hn Hv.
  assert (cut "=" (pair_string name v) = (encode name, encode v)) as E.
  { apply cut_app, free_of_encode. }
  rewrite E, !decode_encode by done.
  unfold pair_string. by destruct (encode name).
Qed.

Lemma serialize_cons name v q :
  serialize ((name, v) :: q)
  = match q with
    | [] => pair_string name v
    | _ => pair_string name v +:+ String "&" (serialize q)
    end.
Proof.
  unfold pair_string. destruct q; cbn [serialize]; by rewrite ?app_assoc.
Qed.

(** Reading back what [toString] wrote gives the same pairs. *)
Lemma parse_serialize (q : t) :
  well_formed_query q = true -> parse (serialize q) = q.
Proof.
  induction q as [|[name v] q IH]; [done|].
  cbn [well_formed_query forallb fst snd]. intros H.
  apply andb_true_iff in H as [H Hq]. apply andb_true_iff in H as [Hn Hv].
  rewrite serialize_cons. destruct q as [|p q].
  - unfold parse. rewrite split_on_free by apply free_of_pair.
    cbn [omap list_omap]. by rewrite parse_piece.
  - unfold parse. rewrite split_on_app by apply free_of_pair.
    cbn [omap list_omap]. rewrite parse_piece by done. f_equal. by apply IH.
Qed.

Lemma free_of_serialize (q : t) : free_of "#" (serialize q) = true.
Proof.
  induction q as [|[name v] q IH]; [done|].
  rewrite serialize_cons. destruct q as [|p q]; [apply free_of_pair|].
  rewrite free_of_app. cbn [free_of]. rewrite IH.
  by destruct (free_of_pair name v) as (_ & ->).
Qed.

Lemma no_blanks_app a b : no_blanks (a +:+ b) = no_blanks a && no_blanks b.
Proof.
  induction a as [|c a IH]; [done|].
  rewrite app_cons. cbn [no_blanks]. by rewrite IH, andb_assoc.
Qed.

Lemma no_blanks_encode_byte (c : ascii) : no_blanks (encode_byte c) = true.
Proof. destruct c as [[] [] [] [] [] [] [] []]; vm_compute; auto. Qed.

Lemma no_blanks_encode (s : string) : no_blanks (encode s) = true.
Proof.
  induction s as [|c s IH]; [done|].
  cbn [encode]. by rewrite no_blanks_app, no_blanks_encode_byte, IH.
Qed.

Lemma no_blanks_serialize (q : t) : no_blanks (serialize q) = true.
Proof.
  induction q as [|[name v] q IH]; [done|].
  rewrite serialize_cons. unfold pair_string.
  destruct q as [|p q];
    rewrite !no_blanks_app, ?app_cons; cbn [no_blanks];
    by rewrite ?no_blanks_app, !no_blanks_encode, ?IH.
Qed.

Lemma strip_leading_app (a : string) (c : ascii) (b : string) :
  is_control_or_space c = false ->
  strip_leading (a +:+ String c b) = strip_leading a +:+ String c b.
Proof.
  intros Hc. induction a as [|x a IH].
  - rewrite !app_nil. cbn [strip_leading]. by rewrite Hc.
  - rewrite app_cons. cbn [strip_leading].
    destruct (is_control_or_space x); [done|]. by rewrite app_cons.
Qed.

Lemma strip_trailing_no_blanks (b : string) :
  no_blanks b = true -> strip_trailing b = b.
Proof.
  induction b as [|c b IH]; [done|]. cbn [no_blanks strip_trailing].
  intros H. apply andb_true_iff in H as [Hc Hb]. apply negb_true_iff in Hc.
  rewrite IH, Hc by done. by destruct b.
Qed.

Lemma strip_trailing_app (a : string) (c : ascii) (b : string) :
  no_blanks (String c b) = true ->
  strip_trailing (a +:+ String c b) = a +:+ String c b.
Proof.
  intros H. induction a as [|x a IH].
  - rewrite app_nil. by apply strip_trailing_no_blanks.
  - rewrite app_cons. cbn [strip_trailing]. rewrite IH.
    destruct a; by rewrite ?app_nil, ?app_cons.
Qed.

Lemma remove_tabs_newlines_app (a b : string) :
  remove_tabs_newlines (a +:+ b)
  = remove_tabs_newlines a +:+ remove_tabs_newlines b.
Proof.
  induction a as [|x a IH]; [done|].
  rewrite app_cons. cbn [remove_tabs_newlines].
  destruct (is_tab_or_newline x); [done|]. by rewrite app_cons, IH.
Qed.

Lemma tab_or_newline_blank (c : ascii) :
  is_control_or_space c = false -> is_tab_or_newline c = false.
Proof.
  unfold is_control_or_space, is_tab_or_newline. intros H.
  apply Z.leb_gt in H.
  repeat (apply orb_false_iff; split); apply Z.eqb_neq; lia.
Qed.

Lemma remove_tabs_newlines_no_blanks (b : string) :
  no_blanks b = true -> remove_tabs_newlines b = b.
Proof.
  induction b as [|c b IH]; [done|]. cbn [no_blanks remove_tabs_newlines].
  intros H. apply andb_true_iff in H as [Hc Hb]. apply negb_true_iff in Hc.
  by rewrite tab_or_newline_blank, IH.
Qed.

Lemma free_of_strip_leading sep (a : string) :
  free_of sep a = true -> free_of sep (strip_leading a) = true.
Proof.
  induction a as [|c a IH]; [done|]. cbn [strip_leading].
  destruct (is_control_or_space c); [|done].
  cbn [free_of]. intros H. apply andb_true_iff in H as [_ H]. by apply IH.
Qed.

Lemma free_of_remove_tabs_newlines sep (a : string) :
  free_of sep a = true -> free_of sep (remove_tabs_newlines a) = true.
Proof.
  induction a as [|c a IH]; [done|]. cbn [remove_tabs_newlines free_of].
  intros H. apply andb_true_iff in H as [Hc H].
  destruct (is_tab_or_newline c); [by apply IH|].
  cbn [free_of]. by rewrite Hc, IH.
Qed.

(** What the URL parser keeps of [path?query]: the path may lose blanks,
    the query written by [toString] has none. *)
Lemma url_input_serialize (path : string) (q : t) :
  url_input (path +:+ String "?" (serialize q))
  = remove_tabs_newlines (strip_leading path) +:+ String "?" (serialize q).
Proof.
  assert (no_blanks (String "?" (serialize q)) = true) as Hb.
  { cbn [no_blanks]. by rewrite no_blanks_serialize. }
  unfold url_input.
  rewrite strip_leading_app by done.
  rewrite strip_trailing_app by done.
  rewrite remove_tabs_newlines_app.
  by rewrite (remove_tabs_newlines_no_blanks (String "?" _)).
Qed.

(** The query of [path?query] is read back whole when the path holds
    neither [?] nor [#]. *)
Lemma searchParams_serialize (path : string) (q : t) :
  free_of "?" path = true -> free_of "#" path = true ->
  well_formed_query q = true ->
  searchParams (path +:+ "?" +:+ serialize q) = q.
Proof.
  intros H1 H2 Hq. unfold searchParams, query_of.
  change ("?" +:+ serialize q) with (String "?" (serialize q)).
  rewrite url_input_serialize.
  set (kept := remove_tabs_newlines (strip_leading path)).
  assert (free_of "?" kept = true) as K1
    by by apply free_of_remove_tabs_newlines, free_of_strip_leading.
  assert (free_of "#" kept = true) as K2
    by by apply free_of_remove_tabs_newlines, free_of_strip_leading.
  rewrite (cut_free "#").
  - cbn [fst]. rewrite cut_app by done. by apply parse_serialize.
  - rewrite free_of_app. cbn [free_of]. by rewrite K2, free_of_serialize.
Qed.

(** Blanks around the URL and a tab inside it are dropped before the
    query is cut out. *)
Example query_of_samples :
  query_of " /_image?w=10#top " = "w=10"
  /\ query_of ("/_image?w=1" +:+ String (ascii_of_nat 9) "0") = "w=10"
  /\ query_of "/_image?w=1 0" = "w=1 0".
Proof. by vm_compute. Qed.

End URLFacts.

(** ** ASCII strings *)

Section AsciiFacts.

Lemma ascii_only_app (a b : string) :
  ascii_only (a +:+ b) = ascii_only a && ascii_only b.
Proof.
  induction a as [|c a IH]; [done|].
  rewrite URLFacts.app_cons. cbn [ascii_only]. by rewrite IH, andb_assoc.
Qed.

Lemma ascii_only_substring (s : string) (n m : nat) :
  ascii_only s = true -> ascii_only (String.substring n m s) = true.
Proof.
  revert n m. induction s as [|c s IH]; intros n m H.
  - by destruct n, m.
  - cbn [ascii_only] in H. apply andb_true_iff in H as [Hc Hs].
    destruct n as [|n]; [destruct m as [|m]; [done|]|]; cbn [String.substring].
    + cbn [ascii_only]. by rewrite Hc, IH.
    + by apply IH.
Qed.

Lemma ascii_only_uint (u : Decimal.uint) :
  ascii_only (NilEmpty.string_of_uint u) = true.
Proof. induction u; cbn [NilEmpty.string_of_uint ascii_only]; done. Qed.

Lemma ascii_only_digits (z : Z) : ascii_only (digits_of_Z z) = true.
Proof. apply ascii_only_uint. Qed.

Lemma ascii_only_zeros (n : nat) : ascii_only (zeros n) = true.
Proof. induction n as [|n IH]; [done|]. cbn [zeros ascii_only]. by rewrite IH. Qed.

Lemma ascii_only_decimal (z : Z) : ascii_only (decimal z) = true.
Proof.
  unfold decimal. destruct (z <? 0); cbn [ascii_only];
    by rewrite ascii_only_digits.
Qed.

Lemma ascii_only_layout (ds : string) (n : Z) :
  ascii_only ds = true -> ascii_only (layout ds n) = true.
Proof.
  intros H. unfold layout, substring_from. cbv zeta.
  repeat match goal with
         | |- context [if ?c then _ else _] => destruct c
         end;
    rewrite ?ascii_only_app, ?ascii_only_substring, ?ascii_only_zeros,
      ?ascii_only_digits, ?H by done; done.
Qed.

Lemma ascii_only_toString_finite (m e : Z) :
  ascii_only (toString_finite m e) = true.
Proof.
  unfold toString_finite. cbv zeta.
  destruct (shortest 60 m e _) as [s t].
  apply ascii_only_layout, ascii_only_digits.
Qed.

(** Every number is printed in ASCII. *)
Lemma ascii_only_toString (x : number) : ascii_only (toString x) = true.
Proof.
  destruct x as [s|[]| |s m e]; try done. unfold toString.
  destruct (to_Z _) as [z|]; [destruct (Z.abs z <? 2 ^ 53)|];
    rewrite ?ascii_only_app, ?ascii_only_decimal, ?ascii_only_toString_finite;
    by try destruct s.
Qed.

Lemma utf8_scan_ascii (s : string) :
  ascii_only s = true -> URLSearchParams.utf8_scan s EmptyString 0 128 191 = s.
Proof.
  induction s as [|c s IH]; [done|].
  cbn [ascii_only URLSearchParams.utf8_scan]. intros H.
  apply andb_true_iff in H as [-> Hs]. by rewrite IH.
Qed.

(** ASCII text is well-formed UTF-8. *)
Lemma ascii_well_formed (s : string) :
  ascii_only s = true -> well_formed s = true.
Proof.
  intros H. unfold well_formed, URLSearchParams.utf8_decode.
  rewrite utf8_scan_ascii by done. apply String.eqb_refl.
Qed.

Lemma app_truthy (a b : string) :
  truthy_string a = true -> truthy_string (a +:+ b) = true.
Proof. by destruct a. Qed.

Lemma app_truthy_r (a b : string) :
  truthy_string b = true -> truthy_string (a +:+ b) = true.
Proof. by destruct a, b. Qed.

Lemma digits_truthy (z : Z) : truthy_string (digits_of_Z z) = true.
Proof. by destruct (digits_of_Z_head z) as (c & s & -> & _). Qed.

Lemma layout_truthy (ds : string) (n : Z) :
  truthy_string ds = true -> truthy_string (layout ds n) = true.
Proof.
  intros H. unfold layout. cbv zeta.
  repeat match goal with
         | |- context [if ?c then _ else _] => destruct c
         end;
    first [ by apply app_truthy
          | by apply app_truthy_r, app_truthy
          | by apply app_truthy_r, app_truthy_r, app_truthy ].
Qed.

(** No number is printed as the empty string. *)
Lemma toString_truthy (x : number) : truthy_string (toString x) = true.
Proof.
  destruct x as [s|[]| |s m e]; try done. unfold toString.
  assert (truthy_string ((if s then "-" else "") +:+ toString_finite (Zpos m) e)
          = true) as H.
  { apply app_truthy_r. unfold toString_finite. cbv zeta.
    destruct (shortest 60 _ e _) as [d t]. apply layout_truthy, digits_truthy. }
  destruct (to_Z _) as [z|]; [destruct (Z.abs z <? 2 ^ 53)|]; try exact H.
  unfold decimal. destruct (z <? 0); [done|apply digits_truthy].
Qed.

End AsciiFacts.

(** ** Rounding an integer to a number *)

Section ShiftRight.






End ShiftRight.

Section RoundInterval.




End RoundInterval.

Section RoundToNumber.



End RoundToNumber.

Section ShortestDigits.




End ShortestDigits.

Section DigitStrings.






End DigitStrings.

Section LargeIntegers.




End LargeIntegers.

(** ** Integers that are printed in full *)

Section PlainIntegers.






End PlainIntegers.

(** ** C1: getURL and parseURL *)

Section RoundTrip.

Variable endpoint : Transform -> PrivateConfig -> result string.

Lemma decimal_truthy (z : Z) : truthy_string (decimal z) = true.
Proof.
  unfold decimal. destruct (z <? 0); [done|].
  by destruct (digits_of_Z_head z) as (c & s & -> & _).
Qed.

(** What [parseURL] reads for a dimension that [getURL] wrote. *)
Lemma dimension_read_back (d : option number) :
  exact_dimension d ->
  (if truthy_opt_number d
   then (fun w => parseInt (toString w)) <$> d else None) = d.
Proof.
  intros [->|(z & -> & Hz & Hlt)]; [done|].
  cbn [truthy_opt_number fmap option_fmap option_map].
  by rewrite truthy_of_Z, toString_of_Z, parseInt_decimal by done.
Qed.

Lemma get_append (k name v : string) (q : URLSearchParams.t) :
  URLSearchParams.get k (URLSearchParams.append name v q)
  = match URLSearchParams.get k q with
    | Some x => Some x
    | None => if String.eqb name k then Some v else None
    end.
Proof.
  unfold URLSearchParams.get, URLSearchParams.append.
  induction q as [|[n w] q IH]; cbn [app List.find fst snd].
  - by destruct (String.eqb name k).
  - destruct (String.eqb n k); [done|exact IH].
Qed.

Lemma append_well_formed (name v : string) (q : URLSearchParams.t) :
  well_formed name = true -> well_formed v = true ->
  well_formed_query q = true ->
  well_formed_query (URLSearchParams.append name v q) = true.
Proof.
  intros Hn Hv Hq. unfold well_formed_query, URLSearchParams.append in *.
  rewrite forallb_app, Hq. cbn [forallb fst snd]. by rewrite Hn, Hv.
Qed.

Lemma well_formed_href (options : Transform) (href : string) :
  src_of_source (src options) = Return href ->
  well_formed_strings options = true -> well_formed href = true.
Proof.
  unfold well_formed_strings. intros Hs H.
  apply andb_true_iff in H as [H _]. apply andb_true_iff in H as [H _].
  destruct (src options); try discriminate Hs; injection Hs as <-;
    first [exact H | reflexivity].
Qed.

Lemma well_formed_quality (options : Transform) :
  well_formed_strings options = true ->
  well_formed (from_option quality_toString "undefined" (quality options)) = true.
Proof.
  unfold well_formed_strings. intros H. apply andb_true_iff in H as [_ H].
  destruct (quality options) as [[n|s]|]; cbn [from_option quality_toString];
    [apply ascii_well_formed, ascii_only_toString|exact H|reflexivity].
Qed.

Lemma well_formed_format (options : Transform) :
  well_formed_strings options = true ->
  well_formed (interpolate (format options)) = true.
Proof.
  unfold well_formed_strings. intros H.
  apply andb_true_iff in H as [H _]. apply andb_true_iff in H as [_ H].
  destruct (format options); [exact H|reflexivity].
Qed.

Lemma well_formed_dimension (d : option number) :
  well_formed (from_option toString "undefined" d) = true.
Proof.
  destruct d; [apply ascii_well_formed, ascii_only_toString|reflexivity].
Qed.

(** The query that [getURL] writes, and what [parseURL] makes of it. *)
Lemma getURL_query_parsed options config' href :
  src_of_source (src options) = Return href ->
  href <> EmptyString ->
  well_formed_strings options = true ->
  exists q,
    getURL_query options = Return q
    /\ well_formed_query q = true
    /\ parseURL q config'
       = Some {| p_src := href;
                 p_width := if truthy_opt_number (width options)
                            then (fun w => parseInt (toString w)) <$> width options
                            else None;
                 p_height := if truthy_opt_number (height options)
                             then (fun h => parseInt (toString h)) <$> height options
                             else None;
                 p_quality := if truthy_quality (quality options)
                              then quality_toString <$> quality options
                              else None;
                 p_format := if truthy_opt_string (format options)
                             then format options else None;
                 p_lossless := false |}.
Proof.
  intros Hsrc Hne Hwf.
  pose proof (well_formed_href _ _ Hsrc Hwf) as Wh.
  pose proof (well_formed_quality _ Hwf) as Wq.
  pose proof (well_formed_format _ Hwf) as Wf.
  pose proof (well_formed_dimension (width options)) as Ww.
  pose proof (well_formed_dimension (height options)) as Wd.
  assert (truthy_string href = true) as Hhref by (by destruct href).
  unfold getURL_query. rewrite Hsrc. cbn [mbind result_bind].
  eexists. split; [reflexivity|].
  split.
  - repeat match goal with
           | |- context [if ?c then _ else _] => destruct c
           end;
      repeat (apply append_well_formed; try done).
  - unfold parseURL.
    destruct (truthy_opt_number (width options)) eqn:Tw,
      (truthy_opt_number (height options)) eqn:Th,
      (truthy_quality (quality options)) eqn:Tq,
      (truthy_opt_string (format options)) eqn:Tf.
    all: rewrite !get_append; cbn [URLSearchParams.get List.find fmap option_fmap option_map String.eqb Ascii.eqb Bool.eqb fst snd].
    all: cbn [truthy_opt_string default]; rewrite Hhref; cbn [negb].
    all: rewrite ?bool_decide_eq_false_2 by discriminate.
    all: destruct (width options) as [w|]; try discriminate Tw;
      destruct (height options) as [h|]; try discriminate Th;
      destruct (quality options) as [qv|]; try discriminate Tq;
      destruct (format options) as [f|]; try discriminate Tf.
    all: cbn [from_option interpolate fmap option_fmap option_map].
    all: rewrite ?toString_truthy; reflexivity.
Qed.



End RoundTrip.



(** ** The default sort *)

Section DefaultSort.



Lemma sort_insert_perm (x : number) (l : list number) :
  sort_insert x l ≡ₚ x :: l.
Proof.
  induction l as [|y l IH]; cbn [sort_insert]; [done|].
  destruct (String.ltb (toString y) (toString x)); [|done].
  rewrite IH. apply Permutation_swap.
Qed.

(** The sorted array holds the same numbers. *)
Lemma sort_perm (l : list number) : sort l ≡ₚ l.
Proof.
  induction l as [|x l IH]; [done|].
  cbn [sort foldr]. rewrite sort_insert_perm. by f_equiv.
Qed.




End DefaultSort.

(** ** C2: the order of density candidates *)

(** [Array.prototype.sort] orders numbers by their string forms. *)
Example sort_compares_strings :
  toString <$> sort [of_Z 2; of_Z 10; of_Z 1] = ["1"; "10"; "2"].
Proof. vm_compute. reflexivity. Qed.

(** C2 fails on the code: for the densities [2, 10] of a 100 pixel wide
    rendering of a 3000 pixel wide image the candidates come out as
    [10x] then [2x], with widths 1000 then 200. *)
Theorem getSrcSet_densities_by_string_order :
  descriptors_and_widths
    (getSrcSet
       (with_densities [DNumber (of_Z 2); DNumber (of_Z 10)]
          (plain_options (SrcMetadata hero) (Some (of_Z 100)) None))
       sample_config)
  = [("10x", Some (of_Z 1000)); ("2x", Some (of_Z 200))].
Proof. vm_compute. reflexivity. Qed.

(** ** C4: getTargetDimensions *)

Section TargetDimensions.

Variable options : Transform.

(** C4 (amended): the missing dimension is computed with the rounded
    aspect ratio [src.width / src.height]; a dimension counts as given
    when it is present, non-zero and not NaN. *)
Theorem getTargetDimensions_cases :
  (forall m h,
      src options = SrcMetadata m -> height options = Some h ->
      given (height options) -> not_given (width options) ->
      getTargetDimensions options
      = Return (Some (Math_round (mul h (div (im_width m) (im_height m)))), Some h))
  /\ (forall m w,
      src options = SrcMetadata m -> width options = Some w ->
      given (width options) -> not_given (height options) ->
      getTargetDimensions options
      = Return (Some w, Some (Math_round (div w (div (im_width m) (im_height m))))))
  /\ (forall m,
      src options = SrcMetadata m ->
      not_given (width options) -> not_given (height options) ->
      getTargetDimensions options
      = Return (Some (im_width m), Some (im_height m)))
  /\ (forall s,
      src options = SrcString s ->
      getTargetDimensions options = Return (width options, height options)).
Proof.
  unfold given, not_given, getTargetDimensions.
  repeat split.
  - intros m h -> Hh Gh Gw. rewrite Gh, Gw, Hh. reflexivity.
  - intros m w -> Hw Gw Gh. rewrite Gw, Gh, Hw. reflexivity.
  - intros m -> Gw Gh. rewrite Gw, Gh. reflexivity.
  - intros s ->. reflexivity.
Qed.

End TargetDimensions.

Lemma getTargetDimensions_cases_witness :
  getTargetDimensions (plain_options (SrcMetadata hero) None (Some (of_Z 200)))
  = Return (Some (of_Z 300), Some (of_Z 200))
  /\ getTargetDimensions (plain_options (SrcMetadata hero) (Some (of_Z 300)) None)
     = Return (Some (of_Z 300), Some (of_Z 200))
  /\ getTargetDimensions (plain_options (SrcMetadata hero) None None)
     = Return (Some (of_Z 3000), Some (of_Z 2000))
  /\ getTargetDimensions (plain_options (SrcString "/logo.png") (Some (of_Z 64)) None)
     = Return (Some (of_Z 64), None).
Proof.
  split; [|split; [|split]].
  - apply (proj1 (getTargetDimensions_cases
             (plain_options (SrcMetadata hero) None (Some (of_Z 200))))
             hero (of_Z 200)); reflexivity.
  - apply (proj1 (proj2 (getTargetDimensions_cases
             (plain_options (SrcMetadata hero) (Some (of_Z 300)) None)))
             hero (of_Z 300)); reflexivity.
  - apply (proj1 (proj2 (proj2 (getTargetDimensions_cases
             (plain_options (SrcMetadata hero) None None))))
             hero); reflexivity.
  - apply (proj2 (proj2 (proj2 (getTargetDimensions_cases
             (plain_options (SrcString "/logo.png") (Some (of_Z 64)) None))))
             "/logo.png"); reflexivity.
Defined.

(** C4 as stated fails: for a 101 by 198 image and a height of 99 the
    exact quotient 99 * 101 / 198 is 50.5, which rounds to 51; the code
    multiplies by the rounded ratio and returns 50. *)
Lemma getTargetDimensions_inexact_ratio :
  getTargetDimensions (plain_options (SrcMetadata banner) None (Some (of_Z 99)))
  = Return (Some (of_Z 50), Some (of_Z 99))
  /\ exact_round 99 101 198 = 51
  /\ of_Z 50 <> of_Z (exact_round 99 101 198).
Proof. repeat split; [vm_compute; reflexivity .. | vm_compute; discriminate]. Qed.

(** ** C5: the widths of the srcset candidates *)


Section AllWidths.

Variable options : Transform.
Variable config : PrivateConfig.



End AllWidths.



(** ** C7: getHTMLAttributes *)

Lemma lookup_without_named (m : gmap string value) (k : string) :
  k ∉ named_properties -> foldr delete m named_properties !! k = m !! k.
Proof.
  unfold named_properties. intros Hk. cbn [foldr].
  repeat (rewrite lookup_delete_ne;
          [| intros <-; apply Hk; repeat constructor]).
  reflexivity.
Qed.

Lemma lookup_named_removed (m : gmap string value) (k : string) :
  k ∈ named_properties -> foldr delete m named_properties !! k = None.
Proof.
  unfold named_properties. intros Hk. cbn [foldr].
  repeat (apply elem_of_cons in Hk as [->|Hk];
          [ repeat first [ apply lookup_delete_eq
                         | rewrite lookup_delete_ne by discriminate ] |]).
  by apply elem_of_nil in Hk.
Qed.

Section HTMLAttributes.

Variable options : Transform.
Variable config : PrivateConfig.

(** C7: for every options record whose [src] is not [null],
    getHTMLAttributes returns; every attribute besides the named ones is
    returned unchanged; width and height are those of
    getTargetDimensions; loading and decoding get their defaults when not
    supplied; and src, format, formats, quality, densities and widths are
    left out.  For a [null] src the type guard throws. *)
Theorem getHTMLAttributes_frame :
  (src options = SrcNull ->
   getHTMLAttributes options config = Throw (ForeignError "TypeError"))
  /\ (src options <> SrcNull ->
      exists w h r,
        getTargetDimensions options = Return (w, h)
        /\ getHTMLAttributes options config = Return r
        /\ (forall k, k ∉ named_properties -> r !! k = attributes options !! k)
        /\ r !! "width" = Some (value_of_number w)
        /\ r !! "height" = Some (value_of_number h)
        /\ (loading options = None \/ loading options = Some VUndefined ->
            r !! "loading" = Some (VString "lazy"))
        /\ (forall v, loading options = Some v -> v <> VUndefined ->
            r !! "loading" = Some v)
        /\ (decoding options = None \/ decoding options = Some VUndefined ->
            r !! "decoding" = Some (VString "async"))
        /\ (forall v, decoding options = Some v -> v <> VUndefined ->
            r !! "decoding" = Some v)
        /\ (forall k,
            k ∈ ["src"; "format"; "formats"; "quality"; "densities"; "widths"] ->
            r !! k = None)).
Proof.
  split.
  { intros Hs. unfold getHTMLAttributes, getTargetDimensions. by rewrite Hs. }
  intros Hs.
  assert (exists w h, getTargetDimensions options = Return (w, h))
    as (w & h & E).
  { unfold getTargetDimensions. cbv zeta.
    destruct (src options) as [| | | | |m|]; try done;
      cbn [isImageMetadata mbind result_bind];
      repeat match goal with
             | |- context [if ?c then _ else _] => destruct c
             end; by eexists _, _. }
  exists w, h. unfold getHTMLAttributes. rewrite E. cbn [mbind result_bind].
  eexists. split; [reflexivity|]. split; [reflexivity|].
  repeat split.
  - intros k Hk.
    assert (k <> "width" /\ k <> "height" /\ k <> "loading" /\ k <> "decoding")
      as (? & ? & ? & ?).
    { repeat split; intros ->; apply Hk; repeat constructor. }
    rewrite !lookup_insert_ne by done. by apply lookup_without_named.
  - rewrite !lookup_insert_ne by discriminate. apply lookup_insert_eq.
  - rewrite !lookup_insert_ne by discriminate. apply lookup_insert_eq.
  - intros [->| ->]; rewrite lookup_insert_ne by discriminate;
      apply lookup_insert_eq.
  - intros v -> Hv. rewrite lookup_insert_ne by discriminate.
    rewrite lookup_insert_eq. by destruct v.
  - intros [->| ->]; apply lookup_insert_eq.
  - intros v -> Hv. rewrite lookup_insert_eq. by destruct v.
  - intros k Hk.
    repeat (apply elem_of_cons in Hk as [->|Hk];
            [ rewrite !lookup_insert_ne by discriminate;
              apply lookup_named_removed; repeat constructor |]).
    by apply elem_of_nil in Hk.
Qed.

End HTMLAttributes.

Lemma getHTMLAttributes_frame_witness :
  exists r,
    getHTMLAttributes logo_options sample_config = Return r
    /\ r !! "alt" = Some (VString "A logo")
    /\ r !! "loading" = Some (VString "lazy")
    /\ r !! "decoding" = Some (VString "sync")
    /\ r !! "src" = None.
Proof.
  destruct (proj2 (getHTMLAttributes_frame logo_options sample_config))
    as (w & h & r & _ & Hr & Hframe & _ & _ & Hlazy & _ & _ & Hdecoding & Hout);
    [discriminate|].
  exists r. split; [exact Hr|]. split; [|split; [|split]].
  - rewrite (Hframe "alt"); [reflexivity|].
    intros H. unfold named_properties in H.
    repeat (apply elem_of_cons in H as [H|H]; [discriminate H|]).
    by apply elem_of_nil in H.
  - apply Hlazy. left. reflexivity.
  - apply (Hdecoding (VString "sync")); [reflexivity | discriminate].
  - apply Hout. repeat constructor.
Defined.

(** ** C9: parseURL *)

Section ParseURL.

Variable query : URLSearchParams.t.
Variable config : PrivateConfig.

(** C9 (amended): parseURL returns undefined exactly when the query has no
    non-empty [href]; otherwise src is that value, width and height are
    the parses of [w] and [h] when these are present and not empty and
    undefined otherwise, and lossless holds exactly when [lossless] is
    ['1']. *)
Theorem parseURL_cases :
  (parseURL query config = None
   <-> URLSearchParams.get "href" query = None \/ URLSearchParams.get "href" query = Some EmptyString)
  /\ (forall s,
      URLSearchParams.get "href" query = Some s -> s <> EmptyString ->
      exists r,
        parseURL query config = Some r
        /\ p_src r = s
        /\ (forall w, URLSearchParams.get "w" query = Some w -> w <> EmptyString ->
            p_width r = Some (parseInt w))
        /\ (URLSearchParams.get "w" query = None \/ URLSearchParams.get "w" query = Some EmptyString ->
            p_width r = None)
        /\ (forall h, URLSearchParams.get "h" query = Some h -> h <> EmptyString ->
            p_height r = Some (parseInt h))
        /\ (URLSearchParams.get "h" query = None \/ URLSearchParams.get "h" query = Some EmptyString ->
            p_height r = None)
        /\ (p_lossless r = true <-> URLSearchParams.get "lossless" query = Some "1")).
Proof.
  unfold parseURL. split.
  - destruct (URLSearchParams.get "href" query) as [[|c s]|]; cbn [truthy_opt_string truthy_string negb];
      split; intros H; try done; auto; by destruct H.
  - intros s -> Hs.
    cbn [truthy_opt_string].
    assert (truthy_string s = true) as -> by (by destruct s).
    cbn [negb default]. eexists. split; [reflexivity|].
    cbn [p_src p_width p_height p_lossless]. repeat split.
    + intros w -> Hw. by destruct w.
    + by intros [->| ->].
    + intros h -> Hh. by destruct h.
    + by intros [->| ->].
    + apply bool_decide_eq_true_1.
    + apply bool_decide_eq_true_2.
Qed.

End ParseURL.

Lemma parseURL_cases_witness :
  exists r,
    parseURL (searchParams "/_image?href=%2Fphoto.png&w=640&lossless=1")
      sample_config = Some r
    /\ p_src r = "/photo.png"
    /\ p_width r = Some (of_Z 640)
    /\ p_height r = None
    /\ p_lossless r = true.
Proof.
  destruct (proj2 (parseURL_cases
              (searchParams "/_image?href=%2Fphoto.png&w=640&lossless=1")
              sample_config) "/photo.png")
    as (r & Hr & Hsrc & Hw & _ & _ & Hh & Hl); [reflexivity | discriminate |].
  exists r. split; [exact Hr|]. split; [exact Hsrc|]. split; [|split].
  - rewrite (Hw "640"); [reflexivity | reflexivity | discriminate].
  - apply Hh. left. reflexivity.
  - apply Hl. reflexivity.
Defined.

(** C9 as stated fails for a parameter that is present and empty: with
    [w=] the width is undefined, not the parse of the empty string. *)
Lemma parseURL_empty_width :
  let query := searchParams "/_image?href=%2Fphoto.png&w=" in
  URLSearchParams.get "w" query = Some EmptyString
  /\ (p_width <$> parseURL query sample_config) = Some None
  /\ Some (parseInt EmptyString) <> (None : option number).
Proof. repeat split; [vm_compute; reflexivity .. | discriminate]. Qed.

(** ** C3: the errors of validateOptions *)

Section ValidateErrors.

Variable URL : Type.
Variable new_URL : string -> option string -> result URL.
Variable imageInformation : URL -> result (option (number * number)).

Lemma validate_string_errors s options config e :
  validate_string URL new_URL imageInformation s options config = Throw e ->
  is_astro_error e = true
  \/ ((not_given (width options) \/ not_given (height options))
      /\ thrown_by_probe URL new_URL imageInformation s config e).
Proof.
  unfold validate_string, thrown_by_probe, not_given. cbv zeta.
  destruct (negb (isAbsoluteURL s) && negb (isBundledAsset (assets config) s)
            && negb (isPublicAsset s)); [intros [= <-]; by left|].
  destruct (truthy_opt_number (width options)) eqn:Tw,
    (truthy_opt_number (height options)) eqn:Th; cbn [negb orb];
    try discriminate.
  all: destruct (probe_URL URL new_URL s config) as [u|e'] eqn:Eu;
    cbn [mbind result_bind];
    [ destruct (imageInformation u) as [[[w h]|]|e''] eqn:Ei;
      cbn [mbind result_bind];
      [ discriminate
      | intros [= <-]; by left
      | intros [= <-]; right; split; [auto|right; eauto] ]
    | intros [= <-]; right; split; [auto|by left] ].
Qed.

(** An error of the URL constructor or of the probe leaves
    [validate_string] as it is. *)
Lemma validate_string_rethrows s options config e :
  acceptable_src config s = true ->
  not_given (width options) \/ not_given (height options) ->
  thrown_by_probe URL new_URL imageInformation s config e ->
  validate_string URL new_URL imageInformation s options config = Throw e.
Proof.
  unfold validate_string, acceptable_src, thrown_by_probe, not_given. cbv zeta.
  intros Ha Hd Hp.
  assert (negb (isAbsoluteURL s) && negb (isBundledAsset (assets config) s)
          && negb (isPublicAsset s) = false) as ->.
  { destruct (isAbsoluteURL s), (isBundledAsset (assets config) s),
      (isPublicAsset s); done. }
  assert (negb (truthy_opt_number (width options))
          || negb (truthy_opt_number (height options)) = true) as ->.
  { destruct Hd as [-> | ->]; [done|]. by destruct (truthy_opt_number _). }
  destruct Hp as [-> |(u & -> & Hu)]; cbn [mbind result_bind]; [done|].
  by rewrite Hu.
Qed.

Lemma validate_string_keeps s options config r :
  validate_string URL new_URL imageInformation s options config = Return r ->
  densities r = densities options /\ widths r = widths options
  /\ format r = format options.
Proof.
  unfold validate_string.
  destruct (negb (isAbsoluteURL s) && negb (isBundledAsset (assets config) s)
            && negb (isPublicAsset s)); [discriminate|].
  destruct (negb (truthy_opt_number (width options))
            || negb (truthy_opt_number (height options)));
    [|by intros [= <-]].
  match goal with
  | |- (?x ≫= _) = _ -> _ => destruct x as [u|]; [|discriminate]
  end.
  cbn [mbind result_bind].
  destruct (imageInformation u) as [[[w h]|]|]; cbn [mbind result_bind];
    try discriminate.
  by intros [= <-].
Qed.

Lemma validate_metadata_keeps m options r :
  validate_metadata m options = Return r ->
  densities r = densities options /\ widths r = widths options.
Proof.
  unfold validate_metadata.
  repeat match goal with
         | |- context [if ?c then _ else _] => destruct c
         end; try discriminate; by intros [= <-].
Qed.

(** C3: validateOptions throws an AstroError when src is missing, when
    a string src is neither an absolute URL nor a bundled nor a public
    asset, and when src is neither a string nor an ImageMetadata, and it
    throws when densities and widths are both supplied.  What it throws
    is an AstroError, but for one path: while the dimensions of a string
    src are looked up, an error of the URL constructor or of the probe
    is thrown on as it is. *)
Theorem validateOptions_throws options config :
  (truthy_source (src options) = false ->
   exists msg, validateOptions URL new_URL imageInformation options config
               = Throw (AstroError msg))
  /\ (forall s,
      src options = SrcString s ->
      isAbsoluteURL s = false ->
      isBundledAsset (assets config) s = false ->
      isPublicAsset s = false ->
      exists msg, validateOptions URL new_URL imageInformation options config
                  = Throw (AstroError msg))
  /\ ((forall s, src options <> SrcString s) ->
      isImageMetadata (src options) = Return false ->
      exists msg, validateOptions URL new_URL imageInformation options config
                  = Throw (AstroError msg))
  /\ (forall ds ws,
      densities options = Some ds -> widths options = Some ws ->
      exists e, validateOptions URL new_URL imageInformation options config
                = Throw e)
  /\ (forall e,
      validateOptions URL new_URL imageInformation options config = Throw e ->
      is_astro_error e = true
      \/ exists s,
           src options = SrcString s
           /\ (not_given (width options) \/ not_given (height options))
           /\ thrown_by_probe URL new_URL imageInformation s config e)
  /\ (forall s e,
      config_complete config = true ->
      src options = SrcString s ->
      acceptable_src config s = true ->
      not_given (width options) \/ not_given (height options) ->
      thrown_by_probe URL new_URL imageInformation s config e ->
      validateOptions URL new_URL imageInformation options config = Throw e).
Proof.
  unfold validateOptions, config_complete. cbv zeta.
  destruct (truthy_opt_string (publicDir config)
            && truthy_opt_string (assets config)
            && truthy_opt_string (outDir config)) eqn:Hc.
  2:{ assert (negb (truthy_opt_string (publicDir config))
              || negb (truthy_opt_string (assets config))
              || negb (truthy_opt_string (outDir config)) = true) as ->.
      { destruct (truthy_opt_string (publicDir config)),
          (truthy_opt_string (assets config)),
          (truthy_opt_string (outDir config)); done. }
      repeat split; intros; eauto; try discriminate.
      match goal with H : Throw _ = Throw _ |- _ => injection H as <- end.
      by left. }
  assert (negb (truthy_opt_string (publicDir config))
          || negb (truthy_opt_string (assets config))
          || negb (truthy_opt_string (outDir config)) = false) as ->.
  { destruct (truthy_opt_string (publicDir config)),
      (truthy_opt_string (assets config)),
      (truthy_opt_string (outDir config)); done. }
  repeat split.
  - intros ->. cbn [negb]. eauto.
  - intros s -> Ha Hb Hp. cbn [truthy_source].
    destruct (negb (truthy_string s)); [eauto|].
    unfold validate_string. rewrite Ha, Hb, Hp. cbn. eauto.
  - intros Hs Hm.
    destruct (negb (truthy_source (src options))); [eauto|].
    destruct (src options); try discriminate Hm; cbn; eauto.
    by destruct (Hs s).
  - intros ds ws Hd Hw.
    destruct (negb (truthy_source (src options))); [eauto|].
    destruct (src options) as [| | | |s|m|]; cbn [mbind result_bind]; eauto.
    + destruct (validate_string URL new_URL imageInformation s options config)
        as [r|e] eqn:E; cbn [mbind result_bind]; [|eauto].
      apply validate_string_keeps in E as (-> & -> & _).
      rewrite Hd, Hw. cbn. eauto.
    + destruct (validate_metadata m options) as [r|e] eqn:E;
        cbn [mbind result_bind]; [|eauto].
      apply validate_metadata_keeps in E as (-> & ->).
      rewrite Hd, Hw. cbn. eauto.
  - intros e.
    destruct (negb (truthy_source (src options))); [intros [= <-]; by left|].
    destruct (src options) as [| | | |s|m|]; cbn [mbind result_bind];
      try (intros [= <-]; by left).
    + destruct (validate_string URL new_URL imageInformation s options config)
        as [r|e'] eqn:E; cbn [mbind result_bind].
      * destruct (truthy_array (densities r) && truthy_array (widths r));
          [intros [= <-]; by left | discriminate].
      * intros [= <-]. apply validate_string_errors in E as [E|[E1 E2]];
          [by left|right; eauto].
    + unfold validate_metadata.
      repeat match goal with
             | |- context [if ?c then _ else _] => destruct c
             end; cbn [mbind result_bind];
        repeat match goal with
               | |- context [if ?c then _ else _] => destruct c
               end; try discriminate; intros [= <-]; by left.
  - intros s e _ Hs Ha Hd Hp. rewrite Hs. cbn [truthy_source].
    assert (truthy_string s = true) as ->.
    { destruct s; [|done]. by vm_compute in Ha; destruct (assets config). }
    cbn [negb].
    by rewrite (validate_string_rethrows s options config e Ha Hd Hp).
Qed.

End ValidateErrors.

Lemma validateOptions_throws_witness :
  (exists msg,
      validateOptions string strict_URL no_information
        (plain_options SrcUndefined None None) sample_config
      = Throw (AstroError msg))
  /\ (exists msg,
      validateOptions string strict_URL no_information
        (plain_options (SrcString "photo.png") None None) sample_config
      = Throw (AstroError msg))
  /\ (exists msg,
      validateOptions string strict_URL no_information
        (plain_options (SrcNumber (of_Z 5)) None None) sample_config
      = Throw (AstroError msg))
  /\ (exists e,
      validateOptions string strict_URL no_information
        (srcset_options (SrcMetadata hero) None
           (Some [DNumber (of_Z 2)]) (Some [of_Z 640])) sample_config
      = Throw e)
  /\ validateOptions string strict_URL no_information
       (plain_options (SrcString "http://") None None) sample_config
     = Throw (ForeignError "TypeError: Invalid URL").
Proof.
  split; [|split; [|split; [|split]]].
  - apply (proj1 (validateOptions_throws string strict_URL no_information
                    (plain_options SrcUndefined None None) sample_config)).
    reflexivity.
  - apply (proj1 (proj2 (validateOptions_throws string strict_URL no_information
                    (plain_options (SrcString "photo.png") None None)
                    sample_config)) "photo.png"); reflexivity.
  - apply (proj1 (proj2 (proj2 (validateOptions_throws string strict_URL
                    no_information
                    (plain_options (SrcNumber (of_Z 5)) None None)
                    sample_config)))); [discriminate | reflexivity].
  - apply (proj1 (proj2 (proj2 (proj2 (validateOptions_throws string strict_URL
                    no_information
                    (srcset_options (SrcMetadata hero) None
                       (Some [DNumber (of_Z 2)]) (Some [of_Z 640]))
                    sample_config)))) [DNumber (of_Z 2)] [of_Z 640]);
      reflexivity.
  - apply (proj2 (proj2 (proj2 (proj2 (proj2 (validateOptions_throws string
                    strict_URL no_information
                    (plain_options (SrcString "http://") None None)
                    sample_config))))) "http://").
    + reflexivity.
    + reflexivity.
    + reflexivity.
    + left. reflexivity.
    + left. reflexivity.
Defined.

(** At the failing input of C3: the URL constructor rejects ['http://'],
    and its error, which is no AstroError, is what validateOptions
    throws; so also when densities and widths are both supplied. *)
Lemma validateOptions_invalid_URL :
  validateOptions string strict_URL no_information
    (plain_options (SrcString "http://") None None) sample_config
  = Throw (ForeignError "TypeError: Invalid URL")
  /\ validateOptions string strict_URL no_information
       (srcset_options (SrcString "http://") None
          (Some [DNumber (of_Z 2)]) (Some [of_Z 640])) sample_config
     = Throw (ForeignError "TypeError: Invalid URL")
  /\ is_astro_error (ForeignError "TypeError: Invalid URL") = false.
Proof. repeat split; vm_compute; reflexivity. Qed.

(** ** C6: the output format *)

Section ValidateFormat.

Variable URL : Type.
Variable new_URL : string -> option string -> result URL.
Variable imageInformation : URL -> result (option (number * number)).

(** What a successful validation returns: the options of the [src] branch
    with their dimensions rounded and their format settled. *)
Lemma validateOptions_returns options config r :
  validateOptions URL new_URL imageInformation options config = Return r ->
  exists o,
    match src options with
    | SrcString s =>
        validate_string URL new_URL imageInformation s options config = Return o
    | SrcMetadata m => validate_metadata m options = Return o
    | _ => False
    end
    /\ width r = (if truthy_opt_number (width o)
                  then Math_round <$> width o else width o)
    /\ height r = (if truthy_opt_number (height o)
                   then Math_round <$> height o else height o)
    /\ format r = (if negb (truthy_opt_string (format o))
                   then Some (default "avif" (defaultFormat config))
                   else if bool_decide (format o = Some "jpg")
                        then Some "jpeg" else format o).
Proof.
  unfold validateOptions. cbv zeta.
  destruct (negb (truthy_opt_string (publicDir config))
            || negb (truthy_opt_string (assets config))
            || negb (truthy_opt_string (outDir config))); [discriminate|].
  destruct (negb (truthy_source (src options))); [discriminate|].
  intros H.
  assert (exists o,
    match src options with
    | SrcString s =>
        validate_string URL new_URL imageInformation s options config = Return o
    | SrcMetadata m => validate_metadata m options = Return o
    | _ => False
    end
    /\ (if truthy_array (densities o) && truthy_array (widths o)
        then Throw (AstroError "`densities` and `widths` cannot be used together")
        else Return
               (let o1 := if truthy_opt_number (width o)
                          then set_width (Math_round <$> width o) o else o in
                let o2 := if truthy_opt_number (height o1)
                          then set_height (Math_round <$> height o1) o1 else o1 in
                if negb (truthy_opt_string (format o2))
                then set_format (Some (default "avif" (defaultFormat config))) o2
                else if bool_decide (format o2 = Some "jpg")
                     then set_format (Some "jpeg") o2 else o2)) = Return r)
    as (o & Ho & Hr).
  { destruct (src options) as [| | | |s|m|]; try discriminate H.
    - destruct (validate_string URL new_URL imageInformation s options config)
        as [o|]; [|discriminate H]. by exists o.
    - destruct (validate_metadata m options) as [o|]; [|discriminate H].
      by exists o. }
  exists o. split; [exact Ho|].
  destruct (truthy_array (densities o) && truthy_array (widths o));
    [discriminate|].
  injection Hr as <-. clear Ho H.
  destruct o as [s0 w h f fs q ds ws l d a]. cbv zeta.
  unfold set_width, set_height, set_format. cbn [width height format].
  destruct (truthy_opt_number w); cbn [width height format];
    destruct (truthy_opt_number h); cbn [width height format];
    destruct (negb (truthy_opt_string f)); cbn [width height format];
    try destruct (bool_decide (f = Some "jpg"));
    cbn [width height format]; auto.
Qed.

Lemma validateOptions_metadata_total options config m :
  src options = SrcMetadata m ->
  config_complete config = true ->
  densities options = None \/ widths options = None ->
  im_format m = "svg" \/ format options <> Some "svg" ->
  exists r, validateOptions URL new_URL imageInformation options config = Return r.
Proof.
  intros Hs Hc Hl Hf. unfold validateOptions, config_complete in *. cbv zeta.
  apply andb_true_iff in Hc as [Hc ->]. apply andb_true_iff in Hc as [-> ->].
  rewrite Hs. cbn [negb orb truthy_source].
  assert (exists o, validate_metadata m options = Return o) as (o & Ho).
  { unfold validate_metadata.
    destruct (String.eqb_spec (im_format m) "svg") as [E|E]; cbn [negb andb].
    - destruct (bool_decide (format options = None)); eauto.
    - destruct Hf as [Hf|Hf]; [done|].
      rewrite bool_decide_eq_false_2 by done. eauto. }
  rewrite Ho. cbn [mbind result_bind].
  apply validate_metadata_keeps in Ho as (-> & ->).
  destruct Hl as [-> | ->]; cbn [truthy_array andb];
    rewrite ?andb_false_r; eauto.
Qed.

(** C6: an SVG source with no requested format is output as SVG; a
    request to turn another source into SVG is refused; without a
    requested format the configured default is used, which is ['avif']
    when none is configured; and ['jpg'] becomes ['jpeg']. *)
Theorem validateOptions_format options config :
  (forall m,
      src options = SrcMetadata m -> im_format m = "svg" ->
      format options = None ->
      config_complete config = true ->
      densities options = None \/ widths options = None ->
      exists r,
        validateOptions URL new_URL imageInformation options config = Return r
        /\ format r = Some "svg")
  /\ (forall m,
      src options = SrcMetadata m -> im_format m <> "svg" ->
      format options = Some "svg" ->
      exists msg,
        validateOptions URL new_URL imageInformation options config
        = Throw (AstroError msg))
  /\ (forall r,
      validateOptions URL new_URL imageInformation options config = Return r ->
      format options = None ->
      (forall m, src options = SrcMetadata m -> im_format m <> "svg") ->
      format r = Some (default "avif" (defaultFormat config))
      /\ (defaultFormat config = None -> format r = Some "avif"))
  /\ (forall r,
      validateOptions URL new_URL imageInformation options config = Return r ->
      format options = Some "jpg" ->
      format r = Some "jpeg").
Proof.
  split; [|split; [|split]].
  - intros m Hs Hsvg Hf Hc Hl.
    destruct (validateOptions_metadata_total options config m) as (r & Hr); auto.
    exists r. split; [exact Hr|].
    apply validateOptions_returns in Hr as (o & Ho & _ & _ & ->).
    rewrite Hs in Ho. unfold validate_metadata in Ho.
    rewrite Hsvg, Hf in Ho. cbn in Ho. by injection Ho as <-.
  - intros m Hs Hsvg Hf. unfold validateOptions. cbv zeta.
    destruct (negb (truthy_opt_string (publicDir config))
              || negb (truthy_opt_string (assets config))
              || negb (truthy_opt_string (outDir config))); [eauto|].
    rewrite Hs. cbn [truthy_source negb]. unfold validate_metadata.
    apply String.eqb_neq in Hsvg. rewrite Hsvg, Hf. cbn. eauto.
  - intros r Hr Hf Hm.
    assert (format r = Some (default "avif" (defaultFormat config))) as E.
    { apply validateOptions_returns in Hr as (o & Ho & _ & _ & ->).
      assert (format o = None) as ->; [|done].
      destruct (src options) as [| | | |s|m|] eqn:Hs; try done.
      - apply validate_string_keeps in Ho as (_ & _ & ->). done.
      - unfold validate_metadata in Ho.
        specialize (Hm m eq_refl). apply String.eqb_neq in Hm.
        rewrite Hm, Hf in Ho. cbn in Ho. injection Ho as <-. done. }
    split; [exact E|]. intros Hd. by rewrite E, Hd.
  - intros r Hr Hf.
    apply validateOptions_returns in Hr as (o & Ho & _ & _ & ->).
    assert (format o = Some "jpg") as ->; [|done].
    destruct (src options) as [| | | |s|m|] eqn:Hs; try done.
    + apply validate_string_keeps in Ho as (_ & _ & ->). done.
    + unfold validate_metadata in Ho. rewrite Hf in Ho.
      destruct (String.eqb (im_format m) "svg"); cbn in Ho;
        by injection Ho as <-.
Qed.

End ValidateFormat.

Lemma validateOptions_format_witness :
  (exists r,
      validateOptions string any_URL no_information
        (format_options (SrcMetadata logo_svg) None None None) sample_config
      = Return r
      /\ format r = Some "svg")
  /\ (exists msg,
      validateOptions string any_URL no_information
        (format_options (SrcMetadata hero) None None (Some "svg")) sample_config
      = Throw (AstroError msg))
  /\ (exists r,
      validateOptions string any_URL no_information
        (format_options (SrcMetadata hero) None None None) sample_config
      = Return r
      /\ format r = Some "avif")
  /\ (exists r,
      validateOptions string any_URL no_information
        (format_options (SrcMetadata hero) None None (Some "jpg")) sample_config
      = Return r
      /\ format r = Some "jpeg").
Proof.
  split; [|split; [|split]].
  - apply (proj1 (validateOptions_format string any_URL no_information
                    (format_options (SrcMetadata logo_svg) None None None)
                    sample_config) logo_svg);
      [reflexivity | reflexivity | reflexivity | reflexivity | left; reflexivity].
  - apply (proj1 (proj2 (validateOptions_format string any_URL no_information
                    (format_options (SrcMetadata hero) None None (Some "svg"))
                    sample_config)) hero);
      [reflexivity | discriminate | reflexivity].
  - eexists. split; [vm_compute; reflexivity|].
    apply (proj1 (proj2 (proj2 (validateOptions_format string any_URL
                    no_information
                    (format_options (SrcMetadata hero) None None None)
                    sample_config))) _ eq_refl eq_refl).
    + intros m [= <-]. discriminate.
    + reflexivity.
  - eexists. split; [vm_compute; reflexivity|].
    apply (proj2 (proj2 (proj2 (validateOptions_format string any_URL
                    no_information
                    (format_options (SrcMetadata hero) None None (Some "jpg"))
                    sample_config))) _ eq_refl eq_refl).
Defined.

(** ** Math.round yields integers *)

Section RoundFacts.

Lemma round_bound (v k : Z) :
  Z.abs v < 2 ^ 53 -> 1 <= k ->
  Z.abs (Z.shiftr (2 * v + 2 ^ k) (1 + k)) < 2 ^ 53.
Proof.
  intros Hv Hk. rewrite Z.shiftr_div_pow2 by lia.
  rewrite Z.pow_add_r, Z.pow_1_r by lia.
  assert (2 <= 2 ^ k) as HP.
  { change 2 with (2 ^ 1) at 1. apply Z.pow_le_mono_r; lia. }
  change (2 ^ 53) with 9007199254740992 in *.
  set (P := 2 ^ k) in *. clearbody P.
  assert ((2 * v + P) / (2 * P) < 9007199254740992).
  { apply Z.div_lt_upper_bound; nia. }
  assert (- 9007199254740992 < (2 * v + P) / (2 * P)).
  { apply Z.lt_le_trans with (- 9007199254740991); [lia|].
    apply Z.div_le_lower_bound; nia. }
  lia.
Qed.

Lemma Math_round_integral (x : number) :
  valid x = true -> integral_or_not_finite (Math_round x) = true.
Proof.
  intros Hx. destruct x as [s|s| |s m e]; try reflexivity.
  unfold Math_round. destruct (Z.leb_spec 0 e) as [He|He].
  - unfold integral_or_not_finite, is_integer, to_Z.
    by destruct (Z.leb_spec 0 e); [|lia].
  - apply valid_mantissa in Hx.
    set (n := Z.shiftr _ _).
    destruct (Z.eqb_spec n 0); [reflexivity|].
    assert (Z.abs n < 2 ^ 53) as Hn.
    { subst n. replace (1 - e) with (1 + - e) by lia.
      apply round_bound; [|lia]. unfold cond_Zopp. destruct s; lia. }
    unfold integral_or_not_finite, is_integer.
    by rewrite to_Z_of_Z.
Qed.

(** A falsy number is a zero or [NaN]. *)
Lemma falsy_integral (x : number) :
  truthy x = false -> integral_or_not_finite x = true.
Proof. by destruct x as [s|s| |s m e]. Qed.

End RoundFacts.

(** ** C10: what validateOptions returns *)

Section ValidatePost.

Variable URL : Type.
Variable new_URL : string -> option string -> result URL.
Variable imageInformation : URL -> result (option (number * number)).

(** The dimensions after the [src] branch are those given or those the
    probe reported. *)
Lemma validate_string_dimensions s options config o :
  validate_string URL new_URL imageInformation s options config = Return o ->
  (width o = width options /\ height o = height options)
  \/ (exists u w h, imageInformation u = Return (Some (w, h))
                    /\ width o = Some w /\ height o = Some h).
Proof.
  unfold validate_string. cbv zeta.
  destruct (negb (isAbsoluteURL s) && negb (isBundledAsset (assets config) s)
            && negb (isPublicAsset s)); [discriminate|].
  destruct (negb (truthy_opt_number (width options))
            || negb (truthy_opt_number (height options)));
    [|intros [= <-]; by left].
  match goal with
  | |- (?x ≫= _) = _ -> _ => destruct x as [u|]; [|discriminate]
  end.
  cbn [mbind result_bind].
  destruct (imageInformation u) as [[[w h]|]|] eqn:Ei; cbn [mbind result_bind];
    try discriminate.
  intros [= <-]. right. by exists u, w, h.
Qed.

Lemma validate_metadata_dimensions m options o :
  validate_metadata m options = Return o ->
  width o = width options /\ height o = height options
  /\ (format o = format options
      \/ (format options = None /\ format o = Some "svg")).
Proof.
  unfold validate_metadata.
  destruct (String.eqb (im_format m) "svg"); cbn [negb andb].
  - destruct (bool_decide (format options = None)) eqn:E.
    + apply bool_decide_eq_true_1 in E. intros [= <-]. auto.
    + intros [= <-]. auto.
  - destruct (bool_decide (format options = Some "svg")); [discriminate|].
    intros [= <-]. auto.
Qed.

Lemma rounded_dimension (d : option number) (x : number) :
  valid_opt d = true ->
  (if truthy_opt_number d then Math_round <$> d else d) = Some x ->
  integral_or_not_finite x = true.
Proof.
  destruct d as [y|]; cbn [valid_opt truthy_opt_number fmap option_fmap option_map].
  - intros Hv. destruct (truthy y) eqn:E; intros [= <-].
    + by apply Math_round_integral.
    + by apply falsy_integral.
  - intros _. discriminate.
Qed.

(** C10 (amended): after a successful validation a width or height, when
    present, is an integer unless it is NaN or infinite; the format is
    defined; and it is not ['jpg'] when a format was requested or the
    configured default is not ['jpg']. *)
Theorem validateOptions_postcondition options config r :
  validateOptions URL new_URL imageInformation options config = Return r ->
  valid_opt (width options) = true ->
  valid_opt (height options) = true ->
  (forall u w h, imageInformation u = Return (Some (w, h)) ->
                 valid w = true /\ valid h = true) ->
  (forall w, width r = Some w -> integral_or_not_finite w = true)
  /\ (forall h, height r = Some h -> integral_or_not_finite h = true)
  /\ (exists f,
      format r = Some f
      /\ (truthy_opt_string (format options) = true
          \/ defaultFormat config <> Some "jpg" -> f <> "jpg")).
Proof.
  intros Hr Hw Hh Hinfo.
  apply validateOptions_returns in Hr as (o & Ho & Ew & Eh & Ef).
  assert (valid_opt (width o) = true /\ valid_opt (height o) = true
          /\ (format o = format options
              \/ (format options = None /\ format o = Some "svg")))
    as (Vw & Vh & Hf).
  { destruct (src options) as [| | | |s|m|]; try done.
    - pose proof (validate_string_keeps _ _ _ _ _ _ _ Ho) as (_ & _ & ->).
      apply validate_string_dimensions in Ho
        as [[-> ->]|(u & w & h & Hi & -> & ->)]; [auto|].
      apply Hinfo in Hi as [? ?]. auto.
    - apply validate_metadata_dimensions in Ho as (-> & -> & ?). auto. }
  split; [|split].
  - intros w Hrw. rewrite Ew in Hrw. by apply (rounded_dimension (width o)).
  - intros h Hrh. rewrite Eh in Hrh. by apply (rounded_dimension (height o)).
  - rewrite Ef. destruct (truthy_opt_string (format o)) eqn:Et; cbn [negb].
    + destruct (bool_decide (format o = Some "jpg")) eqn:Ej.
      * eexists. split; [reflexivity|]. discriminate.
      * apply bool_decide_eq_false_1 in Ej.
        destruct (format o) as [f|]; [|discriminate Et].
        exists f. split; [reflexivity|]. intros _ ->. by apply Ej.
    + eexists. split; [reflexivity|]. intros [Hreq|Hdef].
      * destruct Hf as [Hf|[Hf _]];
          [rewrite Hf in Et; congruence | rewrite Hf in Hreq; discriminate].
      * destruct (defaultFormat config) as [d|]; simpl; [|discriminate].
        intros E. apply Hdef. by rewrite E.
Qed.

End ValidatePost.

Lemma validateOptions_postcondition_witness :
  let r := format_options (SrcString "/photo.png") (Some (of_Z 640))
             (Some (of_Z 480)) (Some "jpeg") in
  (forall w, width r = Some w -> integral_or_not_finite w = true)
  /\ (forall h, height r = Some h -> integral_or_not_finite h = true)
  /\ (exists f,
      format r = Some f
      /\ (truthy_opt_string (Some "jpg") = true
          \/ defaultFormat sample_config <> Some "jpg" -> f <> "jpg")).
Proof.
  apply (validateOptions_postcondition string any_URL vga_information
           (format_options (SrcString "/photo.png")
              (Some ten_and_a_half) None (Some "jpg"))
           sample_config).
  - vm_compute. reflexivity.
  - reflexivity.
  - reflexivity.
  - intros u w h [= <- <-]. split; reflexivity.
Defined.

(** C10 as stated fails: an infinite width is returned as it is, and it
    is not an integer. *)
Lemma validateOptions_infinite_width :
  validateOptions string any_URL no_information
    (format_options (SrcMetadata hero) (Some Infinity) None None) sample_config
  = Return (format_options (SrcMetadata hero) (Some Infinity) None (Some "avif"))
  /\ is_integer Infinity = false.
Proof. split; [vm_compute; reflexivity | reflexivity]. Qed.

(** ** More on Math.round *)

Section RoundMore.

Lemma shr_exponent (mrs : shr_record) (e n : Z) : e <= snd (shr mrs e n).
Proof. destruct n; cbn [shr snd]; lia. Qed.

(** Rounding never lowers the exponent it is given. *)
Lemma binary_round_aux_exponent (s : bool) (m e : Z) (l : location) :
  match binary_round_aux prec emax s m e l with
  | S754_finite _ _ e' => e <= e'
  | _ => True
  end.
Proof.
  unfold binary_round_aux, shr_fexp.
  match goal with
  | |- context [shr ?r e ?n] =>
      pose proof (shr_exponent r e n) as H1; destruct (shr r e n) as [r1 e1]
  end.
  cbn [snd] in H1.
  match goal with
  | |- context [shr ?r e1 ?n] =>
      pose proof (shr_exponent r e1 n) as H2; destruct (shr r e1 n) as [r2 e2]
  end.
  cbn [snd] in H2.
  destruct (shr_m r2); [exact I| |exact I].
  destruct (e2 <=? emax - prec); [lia | exact I].
Qed.

Lemma binary_round_large (s : bool) (p : positive) :
  2 ^ 53 <= Zpos p ->
  match binary_round prec emax s p 0 with
  | S754_finite _ _ e' => 0 <= e'
  | _ => True
  end.
Proof.
  intros Hp. unfold binary_round, shl_align.
  pose proof (digits2_pos_bound p) as Hb.
  assert (53 < Zpos (digits2_pos p)) as Hd.
  { destruct (Z.lt_ge_cases 53 (Zpos (digits2_pos p))) as [|Hle]; [done|].
    exfalso. assert (2 ^ Zpos (digits2_pos p) <= 2 ^ 53)
      by (apply Z.pow_le_mono_r; lia). lia. }
  assert (fexp prec emax (Zpos (digits2_pos p) + 0) = Zpos (digits2_pos p) - 53)
    as -> by (unfold fexp, emin, prec, emax; lia).
  destruct (Zpos (digits2_pos p) - 53 - 0) as [|d|d] eqn:Ed; try lia.
  apply binary_round_aux_exponent.
Qed.

(** The number nearest to an integer is an integer, or infinite. *)
Lemma of_Z_integral (z : Z) : integral_or_not_finite (of_Z z) = true.
Proof.
  destruct (Z.lt_ge_cases (Z.abs z) (2 ^ 53)) as [Hlt|Hge].
  - unfold integral_or_not_finite, is_integer. by rewrite to_Z_of_Z.
  - rewrite of_Z_nearest.
    destruct z as [|p|p]; [done| |]; cbn [binary_normalize].
    + pose proof (binary_round_large false p) as H.
      destruct (binary_round prec emax false p 0) as [| | |s m e]; try done.
      unfold integral_or_not_finite, is_integer, to_Z.
      by destruct (Z.leb_spec 0 e); [|lia].
    + pose proof (binary_round_large true p) as H.
      destruct (binary_round prec emax true p 0) as [| | |s m e]; try done.
      unfold integral_or_not_finite, is_integer, to_Z.
      by destruct (Z.leb_spec 0 e); [|change (Z.abs (Z.neg p)) with (Z.pos p) in Hge; lia].
Qed.

(** [Math.round] of any number is an integer, [NaN] or infinite. *)
Lemma Math_round_integral_any (x : number) :
  integral_or_not_finite (Math_round x) = true.
Proof.
  destruct x as [s|s| |s m e]; try reflexivity.
  unfold Math_round. destruct (Z.leb_spec 0 e) as [He|He].
  - unfold integral_or_not_finite, is_integer, to_Z.
    by destruct (Z.leb_spec 0 e); [|lia].
  - destruct (_ =? 0); [reflexivity|]. apply of_Z_integral.
Qed.

Lemma Math_round_of_Z (z : Z) : Math_round (of_Z z) = of_Z z.
Proof.
  destruct (Z.eq_dec z 0) as [->|Hz]; [done|].
  destruct (Z.lt_ge_cases (Z.abs z) (2 ^ 53)) as [Hlt|Hge].
  - destruct (of_Z_small_pos z Hz Hlt) as (m & Hm & E). rewrite E.
    assert (Z.log2 (Z.abs z) < 53) as Hlog by (apply Z.log2_lt_pow2; lia).
    set (k := 52 - Z.log2 (Z.abs z)) in *.
    unfold Math_round. destruct (Z.leb_spec 0 (- k)) as [|Hk]; [done|].
    assert (cond_Zopp (z <? 0) (Z.pos m) = z * 2 ^ k) as Hv.
    { rewrite <- Hm, Z.shiftl_mul_pow2 by lia.
      unfold cond_Zopp. destruct (Z.ltb_spec z 0); lia. }
    rewrite Hv, Z.opp_involutive.
    replace (1 - - k) with (k + 1) by lia.
    replace (2 * (z * 2 ^ k) + 2 ^ k) with ((2 * z + 1) * 2 ^ k) by ring.
    rewrite Z.shiftr_div_pow2, Z.pow_add_r, Z.pow_1_r by lia.
    rewrite (Z.mul_comm (2 ^ k) 2).
    rewrite Z.div_mul_cancel_r by (try apply Z.pow_nonzero; lia).
    replace ((2 * z + 1) / 2) with z
      by (apply Z.div_unique with 1; lia).
    destruct (Z.eqb_spec z 0); [done|]. by rewrite <- E.
  - pose proof (of_Z_integral z) as H. rewrite of_Z_nearest in *.
    assert (Z.abs z < 2 ^ 53 -> False) as Hbig by lia.
    destruct z as [|p|p]; [done| |]; cbn [binary_normalize] in *.
    + pose proof (binary_round_large false p Hge) as Hl.
      destruct (binary_round prec emax false p 0) as [| | |s m e]; try done.
      unfold Math_round. by destruct (Z.leb_spec 0 e); [|lia].
    + pose proof (binary_round_large true p Hge) as Hl.
      destruct (binary_round prec emax true p 0) as [| | |s m e]; try done.
      unfold Math_round. by destruct (Z.leb_spec 0 e); [|lia].
Qed.

(** Rounding twice is rounding once. *)
Lemma Math_round_idempotent (x : number) :
  Math_round (Math_round x) = Math_round x.
Proof.
  destruct x as [s|s| |s m e]; try reflexivity.
  cbn [Math_round]. destruct (Z.leb_spec 0 e) as [He|He].
  - cbn [Math_round]. by destruct (Z.leb_spec 0 e); [|lia].
  - destruct (_ =? 0); [reflexivity|]. apply Math_round_of_Z.
Qed.

End RoundMore.

(** * Further properties *)

(** ** validateOptions: what it leaves alone *)

Section ValidateFrame.

Variable URL : Type.
Variable new_URL : string -> option string -> result URL.
Variable imageInformation : URL -> result (option (number * number)).

Lemma same_other_options_refl (o : Transform) : same_other_options o o.
Proof. by repeat split. Qed.

Lemma same_other_options_trans (a b c : Transform) :
  same_other_options a b -> same_other_options b c -> same_other_options a c.
Proof.
  unfold same_other_options.
  intros (? & ? & ? & ? & ? & ? & ? & ?) (? & ? & ? & ? & ? & ? & ? & ?).
  repeat split; congruence.
Qed.

Lemma validate_string_frame s options config o :
  validate_string URL new_URL imageInformation s options config = Return o ->
  same_other_options options o.
Proof.
  unfold validate_string. cbv zeta.
  destruct (negb (isAbsoluteURL s) && negb (isBundledAsset (assets config) s)
            && negb (isPublicAsset s)); [discriminate|].
  destruct (negb (truthy_opt_number (width options))
            || negb (truthy_opt_number (height options)));
    [|intros [= <-]; apply same_other_options_refl].
  match goal with
  | |- (?x ≫= _) = _ -> _ => destruct x as [u|]; [|discriminate]
  end.
  cbn [mbind result_bind].
  destruct (imageInformation u) as [[[w h]|]|]; cbn [mbind result_bind];
    try discriminate.
  intros [= <-]. by repeat split.
Qed.

Lemma validate_metadata_frame m options o :
  validate_metadata m options = Return o -> same_other_options options o.
Proof.
  unfold validate_metadata.
  repeat match goal with
         | |- context [if ?c then _ else _] => destruct c
         end; try discriminate; intros [= <-]; by repeat split.
Qed.

(** Validated options have a string or an imported image as [src], and
    not both lists. *)
Lemma validateOptions_lists options config r :
  validateOptions URL new_URL imageInformation options config = Return r ->
  (src r = src options /\ densities r = densities options
   /\ widths r = widths options)
  /\ ((exists s, src options = SrcString s) \/ (exists m, src options = SrcMetadata m))
  /\ (densities options = None \/ widths options = None).
Proof.
  unfold validateOptions. cbv zeta.
  destruct (negb (truthy_opt_string (publicDir config))
            || negb (truthy_opt_string (assets config))
            || negb (truthy_opt_string (outDir config))); [discriminate|].
  destruct (negb (truthy_source (src options))); [discriminate|].
  intros H.
  assert (exists o, same_other_options options o
    /\ ((exists s, src options = SrcString s)
        \/ (exists m, src options = SrcMetadata m))
    /\ (if truthy_array (densities o) && truthy_array (widths o)
        then Throw (AstroError "`densities` and `widths` cannot be used together")
        else Return
               (let o1 := if truthy_opt_number (width o)
                          then set_width (Math_round <$> width o) o else o in
                let o2 := if truthy_opt_number (height o1)
                          then set_height (Math_round <$> height o1) o1 else o1 in
                if negb (truthy_opt_string (format o2))
                then set_format (Some (default "avif" (defaultFormat config))) o2
                else if bool_decide (format o2 = Some "jpg")
                     then set_format (Some "jpeg") o2 else o2)) = Return r)
    as (o & Ho & Hs & Hr).
  { destruct (src options) as [| | | |s|m|]; try discriminate H.
    - destruct (validate_string URL new_URL imageInformation s options config)
        as [o|] eqn:E; [|discriminate H].
      exists o. split; [by eapply validate_string_frame|]. split; [eauto|done].
    - destruct (validate_metadata m options) as [o|] eqn:E; [|discriminate H].
      exists o. split; [by eapply validate_metadata_frame|]. split; [eauto|done]. }
  assert (densities o = densities options /\ widths o = widths options)
    as [Ed Ew] by (destruct Ho as (? & ? & ? & ? & ? & ?); done).
  rewrite Ed, Ew in Hr.
  destruct (densities options) as [ds|] eqn:Eds, (widths options) as [ws|] eqn:Ews;
    cbn [truthy_array andb] in Hr; try discriminate Hr.
  all: injection Hr as <-; cbv zeta.
  all: destruct Ho as (Es & _ & _ & _ & _ & _).
  all: split; [rewrite <- Es, <- Ed, <- Ew|split; [exact Hs|auto]].
  all: repeat match goal with
         | |- context [if ?c then _ else _] => destruct c
         end; by repeat split.
Qed.

(** A successful validation changes nothing but width, height and
    format. *)
Theorem validateOptions_frame options config r :
  validateOptions URL new_URL imageInformation options config = Return r ->
  same_other_options options r.
Proof.
  unfold validateOptions. cbv zeta.
  destruct (negb (truthy_opt_string (publicDir config))
            || negb (truthy_opt_string (assets config))
            || negb (truthy_opt_string (outDir config))); [discriminate|].
  destruct (negb (truthy_source (src options))); [discriminate|].
  intros H.
  assert (exists o, same_other_options options o /\
    (if truthy_array (densities o) && truthy_array (widths o)
     then Throw (AstroError "`densities` and `widths` cannot be used together")
     else Return
            (let o1 := if truthy_opt_number (width o)
                       then set_width (Math_round <$> width o) o else o in
             let o2 := if truthy_opt_number (height o1)
                       then set_height (Math_round <$> height o1) o1 else o1 in
             if negb (truthy_opt_string (format o2))
             then set_format (Some (default "avif" (defaultFormat config))) o2
             else if bool_decide (format o2 = Some "jpg")
                  then set_format (Some "jpeg") o2 else o2)) = Return r)
    as (o & Ho & Hr).
  { destruct (src options) as [| | | |s|m|]; try discriminate H.
    - destruct (validate_string URL new_URL imageInformation s options config)
        as [o|] eqn:E; [|discriminate H].
      exists o. split; [by eapply validate_string_frame|done].
    - destruct (validate_metadata m options) as [o|] eqn:E; [|discriminate H].
      exists o. split; [by eapply validate_metadata_frame|done]. }
  apply (same_other_options_trans _ o _ Ho).
  destruct (truthy_array (densities o) && truthy_array (widths o));
    [discriminate|].
  injection Hr as <-. cbv zeta.
  repeat match goal with
         | |- context [if ?c then _ else _] => destruct c
         end; by repeat split.
Qed.

End ValidateFrame.

Lemma validateOptions_frame_witness :
  same_other_options logo_options
    {| src := SrcMetadata hero; width := Some (of_Z 300); height := None;
       format := Some "webp"; formats := None; quality := None;
       densities := None; widths := None; loading := None;
       decoding := Some (VString "sync");
       attributes := {[ "alt" := VString "A logo" ]} |}.
Proof.
  apply (validateOptions_frame string any_URL no_information logo_options
           sample_config).
  vm_compute. reflexivity.
Defined.
(** ** validateOptions: the probe for missing dimensions *)

(** With both dimensions supplied a string [src] is validated without the
    URL constructor and without the probe: the outcome is the same
    whatever these two would do. *)
Theorem validateOptions_no_probe
    (URL1 URL2 : Type)
    (new_URL1 : string -> option string -> result URL1)
    (new_URL2 : string -> option string -> result URL2)
    (imageInformation1 : URL1 -> result (option (number * number)))
    (imageInformation2 : URL2 -> result (option (number * number)))
    options config s :
  src options = SrcString s ->
  given (width options) -> given (height options) ->
  validateOptions URL1 new_URL1 imageInformation1 options config
  = validateOptions URL2 new_URL2 imageInformation2 options config.
Proof.
  unfold given, validateOptions, validate_string. intros -> -> ->.
  reflexivity.
Qed.

Lemma validateOptions_no_probe_witness :
  validateOptions string any_URL no_information
    (plain_options (SrcString "/photo.png") (Some (of_Z 640)) (Some (of_Z 480)))
    sample_config
  = validateOptions string strict_URL vga_information
      (plain_options (SrcString "/photo.png") (Some (of_Z 640)) (Some (of_Z 480)))
      sample_config.
Proof.
  apply (validateOptions_no_probe string string any_URL strict_URL
           no_information vga_information _ _ "/photo.png");
    reflexivity.
Defined.

Section ValidateProbe.

Variable URL : Type.
Variable new_URL : string -> option string -> result URL.
Variable imageInformation : URL -> result (option (number * number)).

Lemma validate_string_probe s options config :
  acceptable_src config s = true ->
  not_given (width options) \/ not_given (height options) ->
  (forall a b, exists u, new_URL a b = Return u) ->
  exists u,
    validate_string URL new_URL imageInformation s options config
    = (info ← imageInformation u;
       match info with
       | Some (w, h) => Return (set_height (Some h) (set_width (Some w) options))
       | None =>
           Throw (AstroError ("`width` and `height` must be specified for "
                              +:+ dquote +:+ s +:+ dquote))
       end).
Proof.
  unfold acceptable_src, not_given, validate_string. cbv zeta.
  intros Hs Hd Hnew.
  assert (negb (isAbsoluteURL s) && negb (isBundledAsset (assets config) s)
          && negb (isPublicAsset s) = false) as ->.
  { destruct (isAbsoluteURL s), (isBundledAsset (assets config) s),
      (isPublicAsset s); done. }
  assert (negb (truthy_opt_number (width options))
          || negb (truthy_opt_number (height options)) = true) as ->.
  { destruct Hd as [-> | ->]; [done|]. apply orb_true_r. }
  unfold probe_URL.
  destruct (isAbsoluteURL s) eqn:Ea.
  { destruct (String.prefix "//" s);
      match goal with
      | |- context [new_URL ?a ?b] =>
          destruct (Hnew a b) as (u & ->); by exists u
      end. }
  destruct (isBundledAsset (assets config) s) eqn:Eb.
  { destruct (Hnew s (outDir config)) as (u & ->). by exists u. }
  destruct (isPublicAsset s) eqn:Ep; [|done].
  destruct (Hnew s (publicDir config)) as (u & ->). by exists u.
Qed.

(** When a dimension of a string [src] is missing and the probe finds the
    image, both dimensions are those of the probe, rounded: a dimension
    that was supplied is replaced too. *)
Theorem validateOptions_probed_dimensions options config s w h :
  config_complete config = true ->
  src options = SrcString s ->
  acceptable_src config s = true ->
  not_given (width options) \/ not_given (height options) ->
  densities options = None \/ widths options = None ->
  (forall a b, exists u, new_URL a b = Return u) ->
  (forall u, imageInformation u = Return (Some (w, h))) ->
  exists r,
    validateOptions URL new_URL imageInformation options config = Return r
    /\ width r = Some (if truthy w then Math_round w else w)
    /\ height r = Some (if truthy h then Math_round h else h).
Proof.
  intros Hc Hs Ha Hd Hl Hnew Hinfo.
  assert (truthy_string s = true) as Hne by (by destruct s).
  destruct (validate_string_probe s options config Ha Hd Hnew) as (u & Hv).
  rewrite Hinfo in Hv. cbn [mbind result_bind] in Hv.
  assert (exists r,
    validateOptions URL new_URL imageInformation options config = Return r)
    as (r & Hr).
  { unfold validateOptions, config_complete in *. cbv zeta.
    apply andb_true_iff in Hc as [Hc ->]. apply andb_true_iff in Hc as [-> ->].
    rewrite Hs. cbn [truthy_source negb orb]. rewrite Hne, Hv.
    cbn [negb mbind result_bind].
    assert (truthy_array (densities (set_height (Some h) (set_width (Some w) options)))
            && truthy_array (widths (set_height (Some h) (set_width (Some w) options)))
            = false) as ->.
    { cbn [densities widths set_height set_width].
      destruct Hl as [-> | ->]; [done|]. apply andb_false_r. }
    eexists. reflexivity. }
  exists r. split; [exact Hr|].
  apply validateOptions_returns in Hr as (o & Ho & -> & -> & _).
  rewrite Hs, Hv in Ho. injection Ho as <-.
  cbn [width height set_width set_height truthy_opt_number].
  by destruct (truthy w), (truthy h).
Qed.

(** When a dimension of a string [src] is missing and the probe finds
    nothing, validation fails with an AstroError. *)
Theorem validateOptions_probe_fails options config s :
  config_complete config = true ->
  src options = SrcString s ->
  acceptable_src config s = true ->
  not_given (width options) \/ not_given (height options) ->
  (forall a b, exists u, new_URL a b = Return u) ->
  (forall u, imageInformation u = Return None) ->
  validateOptions URL new_URL imageInformation options config
  = Throw (AstroError ("`width` and `height` must be specified for "
                       +:+ dquote +:+ s +:+ dquote)).
Proof.
  intros Hc Hs Ha Hd Hnew Hinfo.
  assert (truthy_string s = true) as Hne by (by destruct s).
  destruct (validate_string_probe s options config Ha Hd Hnew) as (u & Hv).
  rewrite Hinfo in Hv. cbn [mbind result_bind] in Hv.
  unfold validateOptions, config_complete in *. cbv zeta.
  apply andb_true_iff in Hc as [Hc ->]. apply andb_true_iff in Hc as [-> ->].
  rewrite Hs. cbn [truthy_source negb orb]. by rewrite Hne, Hv.
Qed.

End ValidateProbe.

Lemma validateOptions_probed_dimensions_witness :
  exists r,
    validateOptions string any_URL vga_information
      (plain_options (SrcString "/photo.png") (Some (of_Z 100)) None)
      sample_config = Return r
    /\ width r = Some (of_Z 640)
    /\ height r = Some (of_Z 480).
Proof.
  apply (validateOptions_probed_dimensions string any_URL vga_information
           (plain_options (SrcString "/photo.png") (Some (of_Z 100)) None)
           sample_config "/photo.png" (of_Z 640) (of_Z 480)).
  - reflexivity.
  - reflexivity.
  - reflexivity.
  - right. reflexivity.
  - left. reflexivity.
  - intros a b. eexists. reflexivity.
  - intros u. reflexivity.
Defined.

Lemma validateOptions_probe_fails_witness :
  validateOptions string any_URL no_information
    (plain_options (SrcString "https://example.com/a.png") None None)
    sample_config
  = Throw (AstroError ("`width` and `height` must be specified for "
                       +:+ dquote +:+ "https://example.com/a.png" +:+ dquote)).
Proof.
  apply (validateOptions_probe_fails string any_URL no_information
           (plain_options (SrcString "https://example.com/a.png") None None)
           sample_config "https://example.com/a.png").
  - reflexivity.
  - reflexivity.
  - reflexivity.
  - left. reflexivity.
  - intros a b. eexists. reflexivity.
  - intros u. reflexivity.
Defined.
(** ** validateOptions: SVG output and validating twice *)

Section ValidateAgain.

Variable URL : Type.
Variable new_URL : string -> option string -> result URL.
Variable imageInformation : URL -> result (option (number * number)).

(** What [transform] relies on (lines 249 and 250): for an imported
    image, a validated format of ['svg'] means that the image is an SVG,
    provided ['svg'] is not the configured default format. *)
Theorem validateOptions_svg_only_from_svg options config m r :
  src options = SrcMetadata m ->
  defaultFormat config <> Some "svg" ->
  validateOptions URL new_URL imageInformation options config = Return r ->
  format r = Some "svg" ->
  im_format m = "svg".
Proof.
  intros Hs Hd Hr Hf.
  apply validateOptions_returns in Hr as (o & Ho & _ & _ & Ef).
  rewrite Hs in Ho. rewrite Hf in Ef. unfold validate_metadata in Ho.
  destruct (String.eqb_spec (im_format m) "svg") as [|Hne]; [done|].
  exfalso. cbn [negb andb] in Ho.
  destruct (bool_decide (format options = Some "svg")) eqn:Eb;
    [discriminate Ho|]. injection Ho as <-.
  apply bool_decide_eq_false_1 in Eb.
  destruct (truthy_opt_string (format options)); cbn [negb] in Ef.
  - destruct (bool_decide (format options = Some "jpg"));
      [discriminate Ef | by apply Eb].
  - destruct (defaultFormat config) as [d|]; [|discriminate Ef].
    apply Hd. cbn in Ef. congruence.
Qed.

Lemma rounded_again (d : option number) :
  let d' := if truthy_opt_number d then Math_round <$> d else d in
  (if truthy_opt_number d' then Math_round <$> d' else d') = d'.
Proof.
  destruct d as [x|]; [|done]. cbn [truthy_opt_number].
  destruct (truthy x) eqn:E; cbn [fmap option_fmap option_map truthy_opt_number].
  - destruct (truthy (Math_round x)); [|done].
    by rewrite Math_round_idempotent.
  - by rewrite E.
Qed.

(** Validating the validated options of an imported image changes
    nothing, provided a format was requested or the configured default is
    neither ['jpg'] nor ['svg']. *)
Theorem validateOptions_idempotent options config m r :
  src options = SrcMetadata m ->
  truthy_opt_string (format options) = true
  \/ (defaultFormat config <> Some "jpg" /\ defaultFormat config <> Some "svg") ->
  validateOptions URL new_URL imageInformation options config = Return r ->
  validateOptions URL new_URL imageInformation r config = Return r.
Proof.
  intros Hs Hd Hr.
  pose proof (validateOptions_lists _ _ _ _ _ _ Hr)
    as ((Esrc & Eds & Ews) & _ & _).
  pose proof Hr as Hr'.
  apply validateOptions_returns in Hr' as (o & Ho & Ew & Eh & Ef).
  rewrite Hs in Ho.
  pose proof (validate_metadata_keeps _ _ _ Ho) as (Ods & Ows).
  pose proof (validate_metadata_dimensions _ _ _ Ho) as (_ & _ & Of).
  revert Hr. unfold validateOptions. cbv zeta.
  destruct (negb (truthy_opt_string (publicDir config))
            || negb (truthy_opt_string (assets config))
            || negb (truthy_opt_string (outDir config))); [discriminate|].
  rewrite Esrc, Hs. cbn [truthy_source negb].
  rewrite Ho. cbn [mbind result_bind].
  destruct (truthy_array (densities o) && truthy_array (widths o)) eqn:El;
    [discriminate|]. intros _.
  (* the second pass leaves the [src] branch without a change *)
  assert (exists f, format r = Some f
                    /\ (im_format m = "svg" \/ f <> "svg")
                    /\ (truthy_string f = false ->
                        defaultFormat config = Some f)
                    /\ f <> "jpg") as (f & Hf & Hsvg & Hempty & Hjpg).
  { rewrite Ef. destruct (truthy_opt_string (format o)) eqn:Et; cbn [negb].
    - destruct (format o) as [f|] eqn:Efo; [|discriminate Et].
      assert (im_format m = "svg" \/ f <> "svg") as Hsvg.
      { unfold validate_metadata in Ho.
        destruct (String.eqb_spec (im_format m) "svg"); [by left|right].
        cbn [negb andb] in Ho.
        destruct (bool_decide (format options = Some "svg")) eqn:Eb;
          [discriminate Ho|]. injection Ho as <-.
        apply bool_decide_eq_false_1 in Eb. congruence. }
      destruct (bool_decide (Some f = Some "jpg")) eqn:Ej.
      + exists "jpeg". repeat split; try done.
        destruct Hsvg; [by left | by right].
      + apply bool_decide_eq_false_1 in Ej. exists f.
        repeat split; try done.
        * cbn in Et. congruence.
        * congruence.
    - assert (format o = format options) as Eo.
      { destruct Of as [|[_ Of]]; [done|]. by rewrite Of in Et. }
      assert (defaultFormat config <> Some "jpg"
              /\ defaultFormat config <> Some "svg") as [Hj Hv].
      { destruct Hd as [Hd|]; [|done]. rewrite <- Eo, Et in Hd. done. }
      exists (default "avif" (defaultFormat config)).
      destruct (defaultFormat config) as [d|]; cbn.
      + repeat split; try done; [right|]; congruence.
      + repeat split; try done. by right. }
  assert (validate_metadata m r = Return r) as ->.
  { unfold validate_metadata. rewrite Hf.
    destruct (String.eqb_spec (im_format m) "svg") as [|Hne];
      cbn [negb andb]; [done|].
    destruct Hsvg as [|Hsvg]; [done|].
    rewrite bool_decide_eq_false_2; [done|]. congruence. }
  cbn [mbind result_bind]. rewrite Eds, Ews, <- Ods, <- Ows, El.
  pose proof (rounded_again (width o)) as Rw.
  pose proof (rounded_again (height o)) as Rh.
  cbv zeta in Rw, Rh. rewrite <- Ew in Rw. rewrite <- Eh in Rh.
  clear Ew Eh Ef Esrc Eds Ews Ods Ows El Ho Of.
  destruct r as [s0 w0 h0 f0 fs q ds ws l d a].
  cbn [width height format] in Rw, Rh, Hf. subst f0.
  unfold set_width, set_height, set_format. cbv zeta. f_equal.
  repeat (cbn [width height format src formats quality densities widths
               loading decoding attributes];
          first [ destruct (truthy_opt_number w0) eqn:Tw
                | destruct (truthy_opt_number h0) eqn:Th
                | rewrite Rw | rewrite Rh ]).
  all: cbn [width height format src formats quality densities widths
            loading decoding attributes truthy_opt_string].
  all: destruct (truthy_string f) eqn:Tf; cbn [negb].
  all: try (rewrite bool_decide_eq_false_2 by congruence; reflexivity).
  all: rewrite (Hempty eq_refl); reflexivity.
Qed.

End ValidateAgain.
Lemma validateOptions_svg_only_from_svg_witness : im_format logo_svg = "svg".
Proof.
  apply (validateOptions_svg_only_from_svg string any_URL no_information
           (format_options (SrcMetadata logo_svg) None None None)
           sample_config logo_svg
           (format_options (SrcMetadata logo_svg) None None (Some "svg"))).
  - reflexivity.
  - discriminate.
  - vm_compute. reflexivity.
  - reflexivity.
Defined.

Lemma validateOptions_idempotent_witness :
  validateOptions string any_URL no_information
    (format_options (SrcMetadata hero) (Some (of_Z 11)) None (Some "jpeg"))
    sample_config
  = Return (format_options (SrcMetadata hero) (Some (of_Z 11)) None (Some "jpeg")).
Proof.
  apply (validateOptions_idempotent string any_URL no_information
           (format_options (SrcMetadata hero) (Some ten_and_a_half) None
              (Some "jpg"))
           sample_config hero).
  - reflexivity.
  - left. reflexivity.
  - vm_compute. reflexivity.
Defined.

(** ** getTargetDimensions and getHTMLAttributes for imported images *)

Section ImportedDimensions.

Variable options : Transform.
Variable config : PrivateConfig.

Lemma getTargetDimensions_defined m :
  src options = SrcMetadata m ->
  exists w h, getTargetDimensions options = Return (Some w, Some h).
Proof.
  intros Hs. unfold getTargetDimensions. rewrite Hs.
  cbn [isImageMetadata mbind result_bind].
  destruct (width options) as [w|], (height options) as [h|];
    cbn [truthy_opt_number fmap option_fmap option_map negb andb];
    try destruct (truthy w); try destruct (truthy h);
    cbn [negb andb]; eauto.
Qed.

(** For an imported image the HTML attributes always carry a width and a
    height that are numbers, whatever was given. *)
Theorem getHTMLAttributes_numeric_dimensions m :
  src options = SrcMetadata m ->
  exists w h r,
    getTargetDimensions options = Return (Some w, Some h)
    /\ getHTMLAttributes options config = Return r
    /\ r !! "width" = Some (VNumber w)
    /\ r !! "height" = Some (VNumber h).
Proof.
  intros Hs. destruct (getTargetDimensions_defined m Hs) as (w & h & E).
  exists w, h. unfold getHTMLAttributes. rewrite E.
  cbn [mbind result_bind value_of_number].
  eexists. split; [reflexivity|]. split; [reflexivity|].
  split.
  - rewrite !lookup_insert_ne by discriminate. apply lookup_insert_eq.
  - rewrite !lookup_insert_ne by discriminate. apply lookup_insert_eq.
Qed.

(** A dimension that is inferred from the other one is an integer (or
    NaN or infinite when the arithmetic gives that). *)
Theorem getTargetDimensions_inferred_integral m :
  src options = SrcMetadata m ->
  (given (height options) -> not_given (width options) ->
   exists w, fst <$> getTargetDimensions options = Return (Some w)
             /\ integral_or_not_finite w = true)
  /\ (given (width options) -> not_given (height options) ->
      exists h, snd <$> getTargetDimensions options = Return (Some h)
                /\ integral_or_not_finite h = true).
Proof.
  intros Hs. unfold given, not_given, getTargetDimensions. rewrite Hs.
  cbn [isImageMetadata mbind result_bind].
  split.
  - intros Gh Gw. rewrite Gh, Gw. cbn [andb negb fmap result_fmap fst].
    destruct (height options) as [h|]; [|discriminate Gh].
    eexists. split; [reflexivity|]. apply Math_round_integral_any.
  - intros Gw Gh. rewrite Gw, Gh. cbn [andb negb fmap result_fmap snd].
    destruct (width options) as [w|]; [|discriminate Gw].
    eexists. split; [reflexivity|]. apply Math_round_integral_any.
Qed.

End ImportedDimensions.

Lemma getHTMLAttributes_numeric_dimensions_witness :
  exists w h r,
    getTargetDimensions logo_options = Return (Some w, Some h)
    /\ getHTMLAttributes logo_options sample_config = Return r
    /\ r !! "width" = Some (VNumber w)
    /\ r !! "height" = Some (VNumber h).
Proof.
  apply (getHTMLAttributes_numeric_dimensions logo_options sample_config hero).
  reflexivity.
Defined.

Lemma getTargetDimensions_inferred_integral_witness :
  exists w,
    fst <$> getTargetDimensions
              (plain_options (SrcMetadata banner) None (Some (of_Z 99)))
    = Return (Some w)
    /\ integral_or_not_finite w = true.
Proof.
  apply (proj1 (getTargetDimensions_inferred_integral
                  (plain_options (SrcMetadata banner) None (Some (of_Z 99)))
                  banner eq_refl)); reflexivity.
Defined.

(** ** getSrcSet: the candidates *)

Lemma Math_min_le (x y : number) :
  is_nan (Math_min x y) = true \/ SFleb (Math_min x y) y = true.
Proof.
  assert (forall z, is_nan z = false -> SFcompare z z = Some Eq) as Hrefl.
  { intros [[]|[]| |[] m e]; try done; intros _; cbn;
      by rewrite Z.compare_refl, Pos.compare_cont_refl. }
  unfold Math_min, SFleb. destruct (SFcompare x y) as [[]|] eqn:E.
  - destruct (is_neg_zero x); right; [by rewrite E|].
    rewrite Hrefl; [done|]. by destruct x as [| | |], y as [| | |].
  - right. by rewrite E.
  - right. rewrite Hrefl; [done|]. by destruct x as [| | |], y as [| | |].
  - by left.
Qed.

Section SrcSetCandidates.

Variable options : Transform.
Variable config : PrivateConfig.

Lemma srcSetTransform_frame imageWidth e :
  same_other_options options (srcSetTransform options imageWidth e)
  /\ format (srcSetTransform options imageWidth e) = format options
  /\ (height (srcSetTransform options imageWidth e) = None
      \/ (height (srcSetTransform options imageWidth e) = height options
          /\ width (srcSetTransform options imageWidth e) = width options)).
Proof.
  unfold srcSetTransform. cbv zeta.
  destruct (differs (maxTargetWidth e) imageWidth);
    [|destruct (truthy_opt_number (width options)
                && truthy_opt_number (height options))];
    (split; [by repeat split|]); (split; [done|]); auto.
Qed.

Lemma getSrcSet_returns cs :
  getSrcSet options config = Return cs ->
  exists imageWidth maxWidth l,
    allWidths options maxWidth = Return l
    /\ cs = candidate_of options imageWidth <$> l
    /\ (forall m, src options = SrcMetadata m ->
        imageWidth = Some (im_width m) /\ maxWidth = Some (im_width m)).
Proof.
  unfold getSrcSet. cbv zeta.
  destruct (src options) as [| | | |s|m|];
    cbn [width_of_source mbind result_bind]; try discriminate.
  all: match goal with
       | |- context [allWidths options ?mw] =>
           destruct (allWidths options mw) as [l|] eqn:E
       end; cbn [mbind result_bind]; try discriminate.
  all: intros [= <-]; eexists _, _, l; (split; [exact E|]);
    (split; [reflexivity|]); intros m' Hm; by try injection Hm as <-.
Qed.

(** The entries of [allWidths] come from the densities, or else from the
    widths. *)
Lemma allWidths_entries maxWidth l :
  allWidths options maxWidth = Return l ->
  match densities options, widths options with
  | Some ds, _ =>
      match fst <$> getTargetDimensions options with
      | Return (Some tw) =>
          l = (fun d => {| maxTargetWidth :=
                             Math_min (Math_round (mul tw d)) (to_number maxWidth);
                           descriptor := toString d +:+ "x" |})
                <$> sort (density_number <$> ds)
      | _ => l = []
      end
  | None, Some ws =>
      l = (fun w => {| maxTargetWidth := Math_min w (to_number maxWidth);
                       descriptor := toString w +:+ "w" |}) <$> ws
  | None, None => l = []
  end.
Proof.
  unfold allWidths.
  destruct (densities options) as [ds|].
  - destruct (getTargetDimensions options) as [[[tw|] h]|];
      cbn [mbind result_bind fmap result_fmap fst]; try discriminate;
      by intros [= <-].
  - destruct (widths options) as [ws|]; by intros [= <-].
Qed.

Lemma allWidths_length maxWidth l :
  allWidths options maxWidth = Return l ->
  length l = expected_candidates options.
Proof.
  intros H. apply allWidths_entries in H. unfold expected_candidates.
  destruct (densities options) as [ds|].
  - destruct (fst <$> getTargetDimensions options) as [[tw|]|]; subst l;
      [|done..].
    rewrite length_fmap, (Permutation_length (sort_perm _)).
    apply length_fmap.
  - destruct (widths options); subst l; [apply length_fmap|done].
Qed.

(** Every candidate keeps the options as they are but for width and
    height; a candidate either has no height, or has the width and the
    height of the options; and there is one candidate per density, or per
    width when there are no densities. *)
Theorem getSrcSet_candidates cs :
  getSrcSet options config = Return cs ->
  length cs = expected_candidates options
  /\ forall c, c ∈ cs ->
       same_other_options options (transform c)
       /\ format (transform c) = format options
       /\ (height (transform c) = None
           \/ (height (transform c) = height options
               /\ width (transform c) = width options))
       /\ c_type c = mimeType (default "avif" (format options)).
Proof.
  intros H. apply getSrcSet_returns in H as (iw & mw & l & Hl & -> & _).
  split; [rewrite length_fmap; by eapply allWidths_length|].
  intros c Hc. apply list_elem_of_fmap in Hc as (e & -> & _).
  unfold candidate_of. cbn [transform c_type].
  destruct (srcSetTransform_frame iw e) as (? & ? & ?). auto.
Qed.

(** For an imported image no candidate is wider than the image, unless
    it has the width of the options themselves. *)
Theorem getSrcSet_never_wider m cs :
  src options = SrcMetadata m ->
  getSrcSet options config = Return cs ->
  forall c x, c ∈ cs -> width (transform c) = Some x ->
    is_nan x = true \/ SFleb x (im_width m) = true \/ Some x = width options.
Proof.
  intros Hs H c x Hc Hx.
  apply getSrcSet_returns in H as (iw & mw & l & Hl & -> & Hm).
  destruct (Hm m Hs) as [-> ->].
  apply list_elem_of_fmap in Hc as (e & -> & He).
  unfold candidate_of in Hx. cbn [transform] in Hx.
  unfold srcSetTransform in Hx. cbv zeta in Hx.
  destruct (differs (maxTargetWidth e) (Some (im_width m))).
  - cbn [width set_width] in Hx. injection Hx as <-.
    assert (exists y, maxTargetWidth e = Math_min y (im_width m)) as (y & ->).
    { apply allWidths_entries in Hl.
      destruct (densities options) as [ds|].
      - destruct (fst <$> getTargetDimensions options) as [[tw|]|]; subst l;
          try (by apply elem_of_nil in He).
        apply list_elem_of_fmap in He as (d & -> & _). by eexists.
      - destruct (widths options) as [ws|]; subst l;
          [|by apply elem_of_nil in He].
        apply list_elem_of_fmap in He as (w & -> & _). by eexists. }
    destruct (Math_min_le y (im_width m)); auto.
  - destruct (truthy_opt_number (width options)
              && truthy_opt_number (height options));
      cbn [width set_width set_height] in Hx; [|discriminate Hx].
    right. right. by rewrite Hx.
Qed.


End SrcSetCandidates.
Lemma getSrcSet_candidates_witness :
  exists cs,
    getSrcSet (srcset_options (SrcMetadata hero) (Some (of_Z 100)) None
                 (Some [of_Z 320; of_Z 4000])) sample_config = Return cs
    /\ length cs = 2%nat.
Proof.
  eexists. split; [vm_compute; reflexivity|].
  apply (proj1 (getSrcSet_candidates
                  (srcset_options (SrcMetadata hero) (Some (of_Z 100)) None
                     (Some [of_Z 320; of_Z 4000])) sample_config _ eq_refl)).
Defined.

Lemma getSrcSet_never_wider_witness :
  is_nan (of_Z 320) = true \/ SFleb (of_Z 320) (of_Z 3000) = true
  \/ Some (of_Z 320) = Some (of_Z 100).
Proof.
  pose proof (getSrcSet_never_wider
                (srcset_options (SrcMetadata hero) (Some (of_Z 100)) None
                   (Some [of_Z 320; of_Z 4000])) sample_config hero _
                eq_refl eq_refl) as H.
  apply (H (candidate_of
              (srcset_options (SrcMetadata hero) (Some (of_Z 100)) None
                 (Some [of_Z 320; of_Z 4000]))
              (Some (of_Z 3000))
              {| maxTargetWidth := of_Z 320; descriptor := "320w" |})).
  - vm_compute. apply list_elem_of_here.
  - reflexivity.
Defined.


(** ** transform: the parameters given to the encoders *)

Section TransformCalls.

Lemma toFormat_options_app (a b : list call) :
  toFormat_options (a ++ b)
  = match toFormat_options a with
    | Some o => Some o
    | None => toFormat_options b
    end.
Proof.
  induction a as [|c a IH]; [done|].
  destruct c; cbn [app toFormat_options]; auto.
Qed.

Lemma encoder_defaults_quality format quality :
  e_quality (encoder_defaults format quality) = quality.
Proof.
  unfold encoder_defaults.
  repeat match goal with
         | |- context [if ?c then _ else _] => destruct c
         end; reflexivity.
Qed.

(** The [toFormat] call of a transform: there is one exactly for a
    non-empty format other than ['svg'], with the defaults of that
    format. *)
Lemma transform_toFormat t space icc o :
  toFormat_options (transform_calls t space icc) = Some o <->
  exists f, t_format t = Some f /\ f <> "svg" /\ truthy_string f = true
            /\ o = encoder_defaults f (resolve_quality (t_quality t)).
Proof.
  unfold transform_calls. cbv zeta.
  destruct (bool_decide (t_format t = Some "svg")) eqn:Es.
  { apply bool_decide_eq_true_1 in Es. split; [done|].
    intros (f & Hf & Hne & _). congruence. }
  apply bool_decide_eq_false_1 in Es.
  destruct (t_format t) as [f|]; [destruct (truthy_string f) eqn:Et|];
    destruct (t_width t), (t_height t),
      (String.eqb (default "srgb" space) "rgb16"), icc;
    try destruct (String.eqb f "png");
    try destruct (bool_decide (Some f = Some "png"));
    cbn -[encoder_defaults resolve_quality Math_round];
    (split;
     [ first [ discriminate
             | intros [= <-]; exists f; repeat split; first [congruence|done] ]
     | intros (f' & Hf' & _ & Ht & Ho);
       first [ discriminate Hf' | injection Hf' as <-; congruence ] ]).
Qed.

(** The table has four entries and everything else is inherited or
    absent. *)
Lemma qualityTable_get_number (key : string) (n : number) :
  qualityTable_get key = Some (QualityNumber n) <-> qualityTable !! key = Some n.
Proof.
  unfold qualityTable_get. destruct (qualityTable !! key) as [x|].
  - split; congruence.
  - destruct (bool_decide _); split; congruence.
Qed.

Lemma qualityTable_lookup (key : string) (n : number) :
  qualityTable !! key = Some n <->
  (key = "low" /\ n = of_Z 50) \/ (key = "mid" /\ n = of_Z 70)
  \/ (key = "high" /\ n = of_Z 80) \/ (key = "max" /\ n = of_Z 100).
Proof.
  unfold qualityTable.
  rewrite !lookup_insert, lookup_singleton.
  repeat case_decide; subst;
    (split;
     [ first [ discriminate | intros [= <-]; auto 6 ]
     | intros Hyp; decompose [and or] Hyp; subst; first [done | congruence] ]).
Qed.

Lemma resolve_quality_is_100 (q : option quality_value) :
  quality_is_100 (resolve_quality q) = true <->
  q = Some (QString "max")
  \/ exists n, q = Some (QNumber n) /\ strict_eq n (of_Z 100) = true.
Proof.
  destruct q as [[n|s]|]; cbn [resolve_quality].
  - cbn [quality_is_100]. split.
    + intros H. right. by exists n.
    + intros [H|(n' & [= <-] & H)]; [discriminate|done].
  - split.
    + intros H. left.
      destruct (qualityTable_get s) as [[n|]|] eqn:E; try discriminate H.
      apply qualityTable_get_number, qualityTable_lookup in E.
      cbn [quality_is_100] in H.
      destruct E as [[-> ->]|[[-> ->]|[[-> ->]|[-> ->]]]];
        try (vm_compute in H; discriminate H); done.
    + intros [[= ->]|(n & [=] & _)]. vm_compute. reflexivity.
  - split; [intros H; vm_compute in H; discriminate H|].
    intros [[=]|(n & [=] & _)].
Qed.

Lemma run_calls_made lib calls made r :
  run_calls lib calls = (made, r) ->
  (exists rest, calls = made ++ rest) /\ (r = Return tt -> made = calls).
Proof.
  revert made r. induction calls as [|c calls IH]; intros made r.
  - intros [= <- <-]. split; [by exists []|done].
  - cbn [run_calls]. destruct (lib c) as [[]|e].
    + destruct (run_calls lib calls) as [made' r'] eqn:E.
      intros [= <- <-]. destruct (IH made' r' eq_refl) as ((rest & Hr) & Hm).
      split; [exists rest; by rewrite Hr at 1|].
      intros ->. by rewrite Hm.
    + intros [= <- <-]. split; [by exists calls|discriminate].
Qed.

(** AVIF and WebP are encoded lossless exactly when the quality is
    ['max'] or the number 100: a [toFormat] call that is made for one of
    these two formats always has the flag, and when [transform] returns
    the call was made. *)
Theorem transform_lossless lib t space icc f made r :
  t_format t = Some f -> f = "avif" \/ f = "webp" ->
  transform_outcome lib t space icc = (made, r) ->
  (forall o,
      toFormat_options made = Some o ->
      e_lossless o = Some (quality_is_100 (resolve_quality (t_quality t)))
      /\ (e_lossless o = Some true <->
          t_quality t = Some (QString "max")
          \/ exists n, t_quality t = Some (QNumber n)
                       /\ strict_eq n (of_Z 100) = true))
  /\ (r = Return tt -> exists o, toFormat_options made = Some o).
Proof.
  intros Hf Hc Hrun. unfold transform_outcome in Hrun.
  apply run_calls_made in Hrun as ((rest & Hrest) & Hall).
  assert (toFormat_options (transform_calls t space icc)
          = Some (encoder_defaults f (resolve_quality (t_quality t)))) as Ht.
  { apply transform_toFormat. exists f.
    repeat split; [done| |]; destruct Hc as [-> | ->]; done. }
  split.
  - intros o Ho.
    assert (o = encoder_defaults f (resolve_quality (t_quality t))) as ->.
    { rewrite Hrest, toFormat_options_app, Ho in Ht. congruence. }
    assert (e_lossless (encoder_defaults f (resolve_quality (t_quality t)))
            = Some (quality_is_100 (resolve_quality (t_quality t)))) as E.
    { destruct Hc as [-> | ->]; reflexivity. }
    split; [exact E|]. rewrite E, <- resolve_quality_is_100.
    split; congruence.
  - intros Hr. rewrite (Hall Hr). eauto.
Qed.

(** No other format is given a lossless flag. *)
Theorem transform_lossless_only_avif_webp t space icc o f :
  toFormat_options (transform_calls t space icc) = Some o ->
  t_format t = Some f -> f <> "avif" -> f <> "webp" ->
  e_lossless o = None.
Proof.
  intros H Hf Ha Hw.
  apply transform_toFormat in H as (f' & Hf' & _ & _ & ->).
  rewrite Hf in Hf'. injection Hf' as <-.
  unfold encoder_defaults.
  apply String.eqb_neq in Ha, Hw. rewrite Ha, Hw.
  repeat match goal with
         | |- context [if ?c then _ else _] => destruct c
         end; reflexivity.
Qed.

End TransformCalls.

Lemma transform_lossless_witness :
  exists o,
    toFormat_options (fst (transform_outcome obliging webp_max None false))
    = Some o
    /\ e_lossless o = Some true.
Proof.
  destruct (transform_lossless obliging webp_max None false "webp"
              (fst (transform_outcome obliging webp_max None false))
              (Return tt))
    as (Hmade & Hret); [reflexivity | by right | reflexivity |].
  destruct (Hret eq_refl) as (o & Ho).
  exists o. split; [exact Ho|].
  apply (proj2 (Hmade o Ho)). left. reflexivity.
Defined.

Lemma transform_lossless_only_avif_webp_witness :
  e_lossless (encoder_defaults "jpeg" (Some (QualityNumber (of_Z 100)))) = None.
Proof.
  apply (transform_lossless_only_avif_webp
           {| t_format := Some "jpeg"; t_width := None; t_height := None;
              t_quality := Some (QNumber (of_Z 100)) |}
           None false _ "jpeg");
    [reflexivity | reflexivity | discriminate | discriminate].
Defined.

(** ** parseURL, then transform: the quality of a URL *)

Section QualityFromURL.

Lemma parseURL_fields query config p :
  parseURL query config = Some p ->
  p_quality p = URLSearchParams.get "q" query
  /\ p_format p = URLSearchParams.get "f" query.
Proof.
  unfold parseURL. destruct (negb _); [discriminate|].
  by intros [= <-].
Qed.

Lemma qualityTable_get_leading (c : ascii) (s : string) :
  is_digit c = true \/ c = "-"%char ->
  qualityTable_get (String c s) = None.
Proof.
  intros Hc.
  assert (forall c' s', String c s = String c' s' ->
                        is_digit c' = false -> c' <> "-"%char -> False) as Hno.
  { intros c' s' [= <- _] Hd Hm. destruct Hc; congruence. }
  unfold qualityTable_get.
  destruct (qualityTable !! String c s) as [n|] eqn:E.
  - exfalso. apply qualityTable_lookup in E.
    destruct E as [[E _]|[[E _]|[[E _]|[E _]]]];
      by eapply Hno; [exact E| |].
  - rewrite bool_decide_eq_false_2; [done|].
    unfold object_prototype_members. intros Hin.
    repeat (apply elem_of_cons in Hin as [Hin|Hin];
            [by eapply Hno; [exact Hin| |]|]).
    by apply elem_of_nil in Hin.
Qed.

Lemma decimal_head (z : Z) :
  exists c s, decimal z = String c s /\ (is_digit c = true \/ c = "-"%char).
Proof.
  unfold decimal. destruct (z <? 0); [by eexists _, _; eauto|].
  destruct (digits_of_Z_head z) as (c & s & -> & Hc). eauto.
Qed.

(** After [parseURL] the quality is a string: the encoder gets a numeric
    quality only for one of the four names of the table, and a quality
    written as a number, such as [q=80], is not used. *)
Theorem transform_quality_from_URL query config p space icc o :
  parseURL query config = Some p ->
  toFormat_options (transform_calls (resolved_of_parsed p) space icc) = Some o ->
  (forall n, e_quality o = Some (QualityNumber n) ->
     exists name, URLSearchParams.get "q" query = Some name
                  /\ qualityTable !! name = Some n)
  /\ (forall z, URLSearchParams.get "q" query = Some (decimal z) ->
      e_quality o = None).
Proof.
  intros Hp Ho. apply parseURL_fields in Hp as [Hq _].
  apply transform_toFormat in Ho as (f & _ & _ & _ & ->).
  rewrite encoder_defaults_quality. cbn [resolved_of_parsed t_quality].
  rewrite Hq. split.
  - intros n Hn. destruct (URLSearchParams.get "q" query) as [name|].
    + exists name. split; [done|]. by apply qualityTable_get_number.
    + vm_compute in Hn. discriminate Hn.
  - intros z ->. cbn [fmap option_fmap option_map resolve_quality].
    destruct (decimal_head z) as (c & s & -> & Hc).
    by apply qualityTable_get_leading.
Qed.

End QualityFromURL.

Lemma transform_quality_from_URL_witness :
  exists o,
    toFormat_options
      (transform_calls
         (resolved_of_parsed
            {| p_src := "/photo.png"; p_width := Some (of_Z 640);
               p_height := None; p_quality := Some "80";
               p_format := Some "webp"; p_lossless := false |})
         None false) = Some o
    /\ e_quality o = None.
Proof.
  eexists. split; [vm_compute; reflexivity|].
  apply (proj2 (transform_quality_from_URL
                  (searchParams "/_image?href=%2Fphoto.png&w=640&q=80&f=webp")
                  sample_config
                  {| p_src := "/photo.png"; p_width := Some (of_Z 640);
                     p_height := None; p_quality := Some "80";
                     p_format := Some "webp"; p_lossless := false |}
                  None false _ eq_refl eq_refl) 80).
  reflexivity.
Defined.

(** ** transform: resizing *)

(** A resize is asked for whole numbers of pixels (or NaN or an infinite
    number when that was passed), and only when a width or a height is
    given. *)
Theorem transform_resize_integral t space icc w h :
  Sharp_resize w h ∈ transform_calls t space icc ->
  (forall x, w = Some x -> integral_or_not_finite x = true)
  /\ (forall x, h = Some x -> integral_or_not_finite x = true)
  /\ (t_width t <> None \/ t_height t <> None).
Proof.
  unfold transform_calls. cbv zeta.
  destruct (bool_decide (t_format t = Some "svg")).
  { intros H. apply elem_of_cons in H as [H|H]; [discriminate H|].
    by apply elem_of_nil in H. }
  intros H.
  assert (w = Math_round <$> t_width t /\ h = Math_round <$> t_height t
          /\ (t_width t <> None \/ t_height t <> None)) as (-> & -> & Hd).
  { repeat (apply elem_of_app in H as [H|H]).
    - repeat (apply elem_of_cons in H as [H|H]; [discriminate H|]).
      by apply elem_of_nil in H.
    - destruct (t_width t) as [x|] eqn:Ew, (t_height t) as [y|] eqn:Eh;
        try (by apply elem_of_nil in H);
        apply elem_of_cons in H as [[= -> ->]|H];
        try (by apply elem_of_nil in H); repeat split; auto.
    - destruct (t_format t) as [f|]; [|by apply elem_of_nil in H].
      destruct (truthy_string f); [|by apply elem_of_nil in H].
      apply elem_of_app in H as [H|H].
      + destruct (_ && _); [|by apply elem_of_nil in H].
        apply elem_of_cons in H as [H|H]; [discriminate H|].
        by apply elem_of_nil in H.
      + apply elem_of_cons in H as [H|H]; [discriminate H|].
        by apply elem_of_nil in H.
    - destruct (_ && _); [|by apply elem_of_nil in H].
      apply elem_of_cons in H as [H|H]; [discriminate H|].
      by apply elem_of_nil in H.
    - destruct icc; [|by apply elem_of_nil in H].
      apply elem_of_cons in H as [H|H]; [discriminate H|].
      by apply elem_of_nil in H.
    - apply elem_of_cons in H as [H|H]; [discriminate H|].
      by apply elem_of_nil in H. }
  repeat split; [| |exact Hd].
  - intros x Hx. destruct (t_width t) as [y|]; [|discriminate Hx].
    injection Hx as <-. apply Math_round_integral_any.
  - intros x Hx. destruct (t_height t) as [y|]; [|discriminate Hx].
    injection Hx as <-. apply Math_round_integral_any.
Qed.

Lemma transform_resize_integral_witness :
  integral_or_not_finite (of_Z 11) = true.
Proof.
  assert (Sharp_resize (Some (of_Z 11)) None
          ∈ transform_calls
              {| t_format := Some "webp"; t_width := Some ten_and_a_half;
                 t_height := None; t_quality := None |} None false) as H.
  { vm_compute. do 3 apply list_elem_of_further. apply list_elem_of_here. }
  apply (proj1 (transform_resize_integral _ _ _ _ _ H) (of_Z 11) eq_refl).
Defined.

(** ** Dimensions that are pixel counts *)

Section PixelCounts.

(** The shape of a pixel count: positive, normal, below 2^53. *)
Lemma pixel_count_shape (x : number) :
  pixel_count x = true ->
  exists m e, x = S754_finite false m e /\ -53 <= e <= 0
              /\ 2 ^ 52 <= Zpos m < 2 ^ 53.
Proof.
  unfold pixel_count. intros H.
  apply andb_true_iff in H as [H Hlt]. apply andb_true_iff in H as [Hv Hge].
  destruct x as [s|s| |s m e]; try (by destruct s); try done.
  destruct s; [done|].
  exists m, e. split; [done|].
  assert (-53 <= e) as He1.
  { unfold SFleb, one_half in Hge.
    change (div (of_Z 1) (of_Z 2))
      with (S754_finite false 4503599627370496 (-53)) in Hge.
    cbn [SFcompare] in Hge.
    destruct (Z.compare_spec (-53) e); first [lia | discriminate Hge]. }
  assert (e <= 0) as He2.
  { unfold SFltb, two_53 in Hlt.
    change (of_Z (2 ^ 53)) with (S754_finite false 4503599627370496 1) in Hlt.
    cbn [SFcompare] in Hlt.
    destruct (Z.compare_spec e 1) as [->| |]; [|lia|discriminate Hlt].
    pose proof (valid_mantissa _ _ _ Hv) as Hm.
    assert (Zpos (digits2_pos m) = 53) as Hd.
    { unfold valid, valid_binary, bounded, canonical_mantissa, fexp, emin,
        prec, emax in Hv.
      apply andb_true_iff in Hv as [Hv _]. apply Z.eqb_eq in Hv. lia. }
    pose proof (digits2_pos_lower m) as Hl. rewrite Hd in Hl.
    change (2 ^ (53 - 1)) with 4503599627370496 in Hl.
    destruct (Pos.compare_cont Eq m 4503599627370496) eqn:Ec;
      try discriminate Hlt.
    pose proof (proj1 (Pos.compare_lt_iff m 4503599627370496) Ec) as Hc.
    apply Pos2Z.pos_lt_pos in Hc. clear - Hl Hc. lia. }
  split; [lia|].
  assert (Zpos (digits2_pos m) = 53) as Hd.
  { unfold valid, valid_binary, bounded, canonical_mantissa, fexp, emin,
      prec, emax in Hv.
    apply andb_true_iff in Hv as [Hv _]. apply Z.eqb_eq in Hv. lia. }
  pose proof (digits2_pos_lower m) as Hl. rewrite Hd in Hl.
  pose proof (digits2_pos_bound m) as Hu. rewrite Hd in Hu.
  change (53 - 1) with 52 in Hl. lia.
Qed.

(** A pixel count rounds to a positive integer below 2^53. *)
Lemma Math_round_pixel_count (x : number) :
  pixel_count x = true ->
  exists n, 0 < n < 2 ^ 53 /\ Math_round x = of_Z n.
Proof.
  intros H. destruct (pixel_count_shape x H) as (m & e & -> & He & Hm).
  unfold Math_round. destruct (Z.leb_spec 0 e) as [H0|H0].
  - assert (e = 0) as -> by lia. exists (Zpos m). split; [lia|].
    assert (Z.log2 (Zpos m) = 52) as Hlog.
    { apply Z.log2_unique; [lia|]. change (Z.succ 52) with 53. lia. }
    unfold of_Z. change (Zpos m =? 0) with false. cbv iota.
    destruct (Z.ltb_spec (Z.abs (Zpos m)) (2 ^ 53)) as [_|Hbig];
      [|change (Z.abs (Zpos m)) with (Zpos m) in Hbig; lia].
    change (Z.abs (Zpos m)) with (Zpos m). rewrite Hlog.
    change (52 - 52) with 0. rewrite Z.shiftl_0_r. reflexivity.
  - cbn [cond_Zopp].
    set (n := Z.shiftr (2 * Zpos m + 2 ^ (- e)) (1 - e)).
    assert (0 < n < 2 ^ 53) as Hn.
    { split.
      - subst n. rewrite Z.shiftr_div_pow2 by lia.
        apply Z.div_str_pos. split; [apply Z.pow_pos_nonneg; lia|].
        replace (1 - e) with (Z.succ (- e)) by lia.
        rewrite Z.pow_succ_r by lia.
        assert (2 ^ (- e) <= 2 ^ 53) by (apply Z.pow_le_mono_r; lia).
        change (2 ^ 52) with 4503599627370496 in Hm.
        change (2 ^ 53) with 9007199254740992 in *. lia.
      - pose proof (round_bound (Zpos m) (- e)) as Hb.
        replace (1 + - e) with (1 - e) in Hb by lia.
        fold n in Hb. assert (Z.abs n < 2 ^ 53) by (apply Hb; lia). lia. }
    exists n. split; [exact Hn|].
    destruct (Z.eqb_spec n 0); [lia|reflexivity].
Qed.

Lemma pixel_count_truthy (x : number) : pixel_count x = true -> truthy x = true.
Proof. intros H. by destruct (pixel_count_shape x H) as (m & e & -> & _). Qed.

(** Rounded pixel counts are dimensions that the query carries exactly. *)
Lemma rounded_pixel_count_exact (d : option number) :
  pixel_count_opt d = true ->
  exact_dimension (if truthy_opt_number d then Math_round <$> d else d).
Proof.
  destruct d as [x|]; [|by left]. cbn [pixel_count_opt truthy_opt_number].
  intros H. rewrite (pixel_count_truthy x H).
  destruct (Math_round_pixel_count x H) as (n & Hn & E).
  right. exists n. cbn. rewrite E. repeat split; lia.
Qed.

End PixelCounts.

(** ** From validateOptions to the endpoint *)

Section Pipeline.

Variable URL : Type.
Variable new_URL : string -> option string -> result URL.
Variable imageInformation : URL -> result (option (number * number)).
Variable endpoint : Transform -> PrivateConfig -> result string.

(** A successful validation: the options of the [src] branch, then the
    three updates of lines 91 to 104. *)
Lemma validateOptions_updates options config r :
  validateOptions URL new_URL imageInformation options config = Return r ->
  exists o,
    match src options with
    | SrcString s =>
        validate_string URL new_URL imageInformation s options config = Return o
    | SrcMetadata m => validate_metadata m options = Return o
    | _ => False
    end
    /\ src r = src o /\ quality r = quality o
    /\ width r = (if truthy_opt_number (width o)
                  then Math_round <$> width o else width o)
    /\ height r = (if truthy_opt_number (height o)
                   then Math_round <$> height o else height o)
    /\ format r = (if negb (truthy_opt_string (format o))
                   then Some (default "avif" (defaultFormat config))
                   else if bool_decide (format o = Some "jpg")
                        then Some "jpeg" else format o).
Proof.
  unfold validateOptions. cbv zeta.
  destruct (negb (truthy_opt_string (publicDir config))
            || negb (truthy_opt_string (assets config))
            || negb (truthy_opt_string (outDir config))); [discriminate|].
  destruct (negb (truthy_source (src options))); [discriminate|].
  intros H.
  assert (exists o,
    match src options with
    | SrcString s =>
        validate_string URL new_URL imageInformation s options config = Return o
    | SrcMetadata m => validate_metadata m options = Return o
    | _ => False
    end
    /\ (if truthy_array (densities o) && truthy_array (widths o)
        then Throw (AstroError "`densities` and `widths` cannot be used together")
        else Return
               (let o1 := if truthy_opt_number (width o)
                          then set_width (Math_round <$> width o) o else o in
                let o2 := if truthy_opt_number (height o1)
                          then set_height (Math_round <$> height o1) o1 else o1 in
                if negb (truthy_opt_string (format o2))
                then set_format (Some (default "avif" (defaultFormat config))) o2
                else if bool_decide (format o2 = Some "jpg")
                     then set_format (Some "jpeg") o2 else o2)) = Return r)
    as (o & Ho & Hr).
  { destruct (src options) as [| | | |s|m|]; try discriminate H.
    - destruct (validate_string URL new_URL imageInformation s options config)
        as [o|]; [|discriminate H]. by exists o.
    - destruct (validate_metadata m options) as [o|]; [|discriminate H].
      by exists o. }
  exists o. split; [exact Ho|].
  destruct (truthy_array (densities o) && truthy_array (widths o));
    [discriminate|].
  injection Hr as <-. clear Ho H.
  destruct o as [s0 w h f fs q ds ws l d a]. cbv zeta.
  unfold set_width, set_height, set_format. cbn [width height format].
  destruct (truthy_opt_number w); cbn [width height format src quality];
    destruct (truthy_opt_number h); cbn [width height format src quality];
    destruct (negb (truthy_opt_string f)); cbn [width height format src quality];
    try destruct (bool_decide (f = Some "jpg"));
    cbn [width height format src quality]; auto 10.
Qed.

(** The [src] branch keeps the dimensions of an imported image, and those
    of a string [src] that has both. *)
Lemma supplied_dimensions_kept options config o :
  match src options with
  | SrcString s =>
      validate_string URL new_URL imageInformation s options config = Return o
  | SrcMetadata m => validate_metadata m options = Return o
  | _ => False
  end ->
  isImageMetadata (src options) = Return true
  \/ (given (width options) /\ given (height options)) ->
  src o = src options /\ quality o = quality options
  /\ width o = width options /\ height o = height options.
Proof.
  intros Ho Hd. destruct (src options) as [| | | |s|m|] eqn:Es; try done.
  - destruct Hd as [Hd|[Hw Hh]]; [discriminate Hd|].
    unfold validate_string, given in *. rewrite Hw, Hh in Ho. cbv zeta in Ho.
    destruct (negb (isAbsoluteURL s) && negb (isBundledAsset (assets config) s)
              && negb (isPublicAsset s)); [discriminate|].
    cbn in Ho. injection Ho as <-. by rewrite Es.
  - unfold validate_metadata in Ho.
    repeat match type of Ho with
           | context [if ?c then _ else _] => destruct c
           end; try discriminate; injection Ho as <-; by rewrite <- Es.
Qed.

(** What validateOptions returns, getURL writes and parseURL reads back:
    for an imported image, or a string [src] with both dimensions, whose
    dimensions are pixel counts, the endpoint receives the src, the
    rounded width and height and the settled format. *)
Theorem validateOptions_getURL_parseURL options config config' r path href :
  validateOptions URL new_URL imageInformation options config = Return r ->
  isImageMetadata (src options) = Return true
  \/ (given (width options) /\ given (height options)) ->
  pixel_count_opt (width options) = true ->
  pixel_count_opt (height options) = true ->
  src_of_source (src options) = Return href ->
  href <> EmptyString ->
  defaultFormat config <> Some EmptyString ->
  well_formed_strings r = true ->
  endpoint r config = Return path ->
  URLSearchParams.free_of "?" path = true ->
  URLSearchParams.free_of "#" path = true ->
  exists u p,
    getURL endpoint r config = Return u
    /\ parseURL (searchParams u) config' = Some p
    /\ p_src p = href
    /\ p_width p = (Math_round <$> width options)
    /\ p_height p = (Math_round <$> height options)
    /\ p_format p = format r
    /\ p_lossless p = false.
Proof.
  intros Hv Hd Hpw Hph Hsrc Hne Hdf Hwf Hpath H1 H2.
  destruct (validateOptions_updates _ _ _ Hv) as (o & Ho & Es & Eq & Ew & Eh & Ef).
  destruct (supplied_dimensions_kept _ _ _ Ho Hd) as (Es' & Eq' & Ew' & Eh').
  rewrite Es' in Es. rewrite Ew' in Ew. rewrite Eh' in Eh. clear Ho Es' Eq' Ew' Eh'.
  pose proof (rounded_pixel_count_exact _ Hpw) as Xw. rewrite <- Ew in Xw.
  pose proof (rounded_pixel_count_exact _ Hph) as Xh. rewrite <- Eh in Xh.
  assert (width r = Math_round <$> width options) as Ew2.
  { rewrite Ew. destruct (width options) as [w|]; [|done].
    cbn in Hpw |- *. by rewrite (pixel_count_truthy w Hpw). }
  assert (height r = Math_round <$> height options) as Eh2.
  { rewrite Eh. destruct (height options) as [h|]; [|done].
    cbn in Hph |- *. by rewrite (pixel_count_truthy h Hph). }
  assert (truthy_opt_string (format r) = true) as Tf.
  { rewrite Ef. destruct (truthy_opt_string (format o)) eqn:T; cbn [negb].
    - case_bool_decide; [done|exact T].
    - destruct (defaultFormat config) as [[|c s]|]; done. }
  rewrite <- Es in Hsrc.
  destruct (getURL_query_parsed r config' href Hsrc Hne Hwf)
    as (q & Hq & Wq & Hp).
  unfold getURL. rewrite Hpath, Hq. cbn [mbind result_bind].
  eexists. eexists. split; [reflexivity|].
  rewrite URLFacts.searchParams_serialize by done.
  split; [exact Hp|]. cbn [p_src p_width p_height p_format p_lossless].
  rewrite Tf, <- Ew2, <- Eh2.
  by rewrite (dimension_read_back _ Xw), (dimension_read_back _ Xh).
Qed.

End Pipeline.

Lemma validateOptions_getURL_parseURL_witness :
  exists u p,
    getURL sample_endpoint
      {| src := SrcMetadata hero; width := Some (of_Z 11); height := None;
         format := Some "avif"; formats := None; quality := None;
         densities := None; widths := None; loading := None; decoding := None;
         attributes := ∅ |} sample_config = Return u
    /\ parseURL (searchParams u) sample_config = Some p
    /\ p_src p = "/_astro/hero.png"
    /\ p_width p = (Math_round <$> Some ten_and_a_half)
    /\ p_height p = (Math_round <$> None)
    /\ p_format p = Some "avif"
    /\ p_lossless p = false.
Proof.
  apply (validateOptions_getURL_parseURL string any_URL no_information
           sample_endpoint
           (plain_options (SrcMetadata hero) (Some ten_and_a_half) None)
           sample_config sample_config
           {| src := SrcMetadata hero; width := Some (of_Z 11); height := None;
              format := Some "avif"; formats := None; quality := None;
              densities := None; widths := None; loading := None;
              decoding := None; attributes := ∅ |}
           "/_image" "/_astro/hero.png").
  - vm_compute. reflexivity.
  - left. reflexivity.
  - vm_compute. reflexivity.
  - reflexivity.
  - reflexivity.
  - discriminate.
  - discriminate.
  - vm_compute. reflexivity.
  - reflexivity.
  - reflexivity.
  - reflexivity.
Defined.

(** ** From validateOptions to getSrcSet *)

Section ValidatedSrcSet.

Variable URL : Type.
Variable new_URL : string -> option string -> result URL.
Variable imageInformation : URL -> result (option (number * number)).


End ValidatedSrcSet.

